(** * HXD quick-commerce: cart store, partitioner, fee calculation

    A shallow embedding of the cart store ([store/useCartStore.ts]), the fee
    constants and delivery-time validator ([lib/fees.ts]), the order server
    action ([actions/processOrder.ts]), the settings reader and writer
    ([actions/updateFragileFee.ts]), the status action
    ([actions/updateOrderStatus.ts]), the submit handler and the amounts of
    the checkout page ([app/checkout/page.tsx]), the phone check of the
    checkout wizard ([components/CheckoutWizard.tsx]) and the time window of
    a product ([types/database.ts]), followed by the properties proved
    about them.

    Conventions.
    - A JavaScript [number] is an IEEE 754 binary64 value: [spec_float] with
      precision 53 and maximal exponent 1024, rounded to nearest-even.
    - A JavaScript string is a [string] whose characters are read as the
      code points U+0000 to U+00FF.
    - [undefined] and [null] are [None]. *)

From Stdlib Require Import ZArith String Ascii Bool Lia.
From Stdlib Require Import Floats.SpecFloat.
From Stdlib Require Import DecimalString DecimalN.
From stdpp Require Import list strings.

Local Open Scope string_scope.
Local Open Scope list_scope.

(* ================================================================== *)
(** * The JavaScript built-ins the sources rely on                     *)
(* ================================================================== *)

Module Js.

(** ** Numbers *)

Definition number : Type := spec_float.

Definition prec : Z := 53.
Definition emax : Z := 1024.

Definition NaN : number := S754_nan.
Definition zero : number := S754_zero false.

(** An integer literal of the source, rounded to binary64. *)
Definition of_Z (z : Z) : number := binary_normalize prec emax z 0 false.

Definition add (x y : number) : number := SFadd prec emax x y.
Definition mul (x y : number) : number := SFmul prec emax x y.
Definition div (x y : number) : number := SFdiv prec emax x y.

(** [x <= y] on numbers. *)
Definition leb (x y : number) : bool := SFleb x y.

Definition isNaN (x : number) : bool :=
  match x with S754_nan => true | _ => false end.

(** [Math.round]: the nearest integer, ties towards +Infinity; NaN, the
    infinities and the zeros are returned as they are, and a negative
    argument no smaller than -0.5 gives -0. *)
Definition Math_round (x : number) : number :=
  match x with
  | S754_finite s m e =>
      if (0 <=? e)%Z then x
      else
        let k := (- e)%Z in
        let n := ((2 * cond_Zopp s (Z.pos m) + 2 ^ k) / 2 ^ (k + 1))%Z in
        match n with
        | Z0 => S754_zero s
        | _ => binary_normalize prec emax n 0 false
        end
  | _ => x
  end.

(** The text returned by [x.toFixed(2)]. *)
Inductive FixedText : Type :=
| FixedNaN
    (* "NaN" *)
| FixedNonDecimal
    (* "Infinity", "-Infinity", or the exponent form used from 1e21 on *)
| FixedDecimal (neg : bool) (n : Z).
    (* optional "-", then n / 100, ".", and the two digits of n mod 100 *)

(** [Number.prototype.toFixed] with two fraction digits: the integer [n]
    for which [n / 100 - |x|] is closest to zero, the larger one on a
    tie. *)
Definition toFixed2 (x : number) : FixedText :=
  match x with
  | S754_nan => FixedNaN
  | S754_infinity _ => FixedNonDecimal
  | S754_zero _ => FixedDecimal false 0
  | S754_finite s m e =>
      if (0 <=? e)%Z then
        if (10 ^ 21 <=? Z.pos m * 2 ^ e)%Z then FixedNonDecimal
        else FixedDecimal s (100 * Z.pos m * 2 ^ e)
      else
        let k := (- e)%Z in
        if (10 ^ 21 * 2 ^ k <=? Z.pos m)%Z then FixedNonDecimal
        else FixedDecimal s ((200 * Z.pos m + 2 ^ k) / 2 ^ (k + 1))
  end.

(** ** Strings *)

Definition code (c : ascii) : N := N_of_ascii c.

(** White space and line terminators (the set removed by [trim] and
    matched by the regular-expression class [\s]). *)
Definition isWhiteSpace (c : ascii) : bool :=
  let n := code c in
  ((9 <=? n) && (n <=? 13) || (n =? 32) || (n =? 160))%N.

Definition isDigit (c : ascii) : bool :=
  let n := code c in ((48 <=? n) && (n <=? 57))%N.

Definition isEmpty (s : string) : bool :=
  match s with EmptyString => true | String _ _ => false end.

Fixpoint trimStart (s : string) : string :=
  match s with
  | EmptyString => EmptyString
  | String c r => if isWhiteSpace c then trimStart r else s
  end.

Fixpoint trimEnd (s : string) : string :=
  match s with
  | EmptyString => EmptyString
  | String c r =>
      let r' := trimEnd r in
      if isWhiteSpace c && isEmpty r' then EmptyString else String c r'
  end.

(** [String.prototype.trim] *)
Definition trim (s : string) : string := trimEnd (trimStart s).

Definition lowerChar (c : ascii) : ascii :=
  let n := code c in
  if ((65 <=? n) && (n <=? 90)
      || (192 <=? n) && (n <=? 222) && negb (n =? 215))%N
  then ascii_of_N (n + 32) else c.

(** [String.prototype.toLowerCase] *)
Fixpoint toLowerCase (s : string) : string :=
  match s with
  | EmptyString => EmptyString
  | String c r => String (lowerChar c) (toLowerCase r)
  end.

(** [s.replace(/\s/g, '')] *)
Fixpoint removeWhiteSpace (s : string) : string :=
  match s with
  | EmptyString => EmptyString
  | String c r =>
      if isWhiteSpace c then removeWhiteSpace r
      else String c (removeWhiteSpace r)
  end.

(** ** parseFloat *)

(** The longest prefix of decimal digits, and what follows it. *)
Fixpoint spanDigits (s : string) : string * string :=
  match s with
  | String c r =>
      if isDigit c
      then let '(ds, rest) := spanDigits r in (String c ds, rest)
      else (EmptyString, s)
  | EmptyString => (EmptyString, EmptyString)
  end.

(** The value of a string of decimal digits, continuing from [acc]. *)
Fixpoint digitsValue (acc : Z) (ds : string) : Z :=
  match ds with
  | EmptyString => acc
  | String c r => digitsValue (10 * acc + (Z.of_N (code c) - 48))%Z r
  end.

(** The binary64 value nearest to [(-1)^neg * m * 10^e10]. *)
Definition number_of_decimal (neg : bool) (m e10 : Z) : number :=
  match m with
  | Zpos p =>
      if (0 <=? e10)%Z
      then binary_normalize prec emax
             (cond_Zopp neg (Z.pos p * 10 ^ e10)) 0 neg
      else SFdiv prec emax (S754_finite neg p 0)
             (S754_finite false (Z.to_pos (10 ^ (- e10))) 0)
  | _ => S754_zero neg
  end.

(** An optional exponent part [e], [e+] or [e-] followed by digits; it is
    taken only when at least one digit follows. *)
Definition exponentPart (s : string) : Z :=
  match s with
  | String c r =>
      if ((code c =? 101) || (code c =? 69))%N then
        let '(neg, r1) :=
          match r with
          | String "+" r' => (false, r')
          | String "-" r' => (true, r')
          | _ => (false, r)
          end in
        let '(ds, _) := spanDigits r1 in
        if isEmpty ds then 0%Z else cond_Zopp neg (digitsValue 0 ds)
      else 0%Z
  | EmptyString => 0%Z
  end.

(** The unsigned part of a decimal literal at the start of [s]. *)
Definition unsignedLiteral (neg : bool) (s : string) : number :=
  if String.prefix "Infinity" s then S754_infinity neg
  else
    let '(ip, r1) := spanDigits s in
    let '(fp, r2) :=
      match r1 with
      | String "." r => spanDigits r
      | _ => (EmptyString, r1)
      end in
    if isEmpty ip && isEmpty fp then NaN
    else
      number_of_decimal neg (digitsValue 0 (ip ++ fp)%string)
        (exponentPart r2 - Z.of_nat (String.length fp)).

(** [parseFloat]: leading white space is skipped and the longest prefix
    that is a decimal literal is converted; NaN when there is none. *)
Definition parseFloat (s : string) : number :=
  match trimStart s with
  | String "+" r => unsignedLiteral false r
  | String "-" r => unsignedLiteral true r
  | t => unsignedLiteral false t
  end.

(** ** Arrays *)

(** [Array.prototype.findIndex]: the index of the first element that
    satisfies [p], or -1. *)
Fixpoint findIndex {A : Type} (p : A -> bool) (l : list A) : Z :=
  match l with
  | [] => (-1)%Z
  | x :: r =>
      if p x then 0%Z
      else let i := findIndex p r in
           if (i =? -1)%Z then (-1)%Z else (i + 1)%Z
  end.

(** [Array.prototype.some] *)
Definition some {A : Type} (p : A -> bool) (l : list A) : bool :=
  existsb p l.

(** [Array.prototype.includes] on an array of strings *)
Definition includes (l : list string) (s : string) : bool :=
  existsb (String.eqb s) l.

(** ** Dates *)

(** A Date object is its time value, in milliseconds since the epoch;
    [None] is the invalid date, whose time value is NaN. Time values are
    integers of magnitude at most 8.64e15, which binary64 holds exactly,
    so they are kept as integers. *)
Definition Date : Type := option Z.

(** [new Date(t)] for a finite number [t] *)
Definition TimeClip (t : Z) : Date :=
  if (Z.abs t <=? 8640000000000000)%Z then Some t else None.

(** [a < b] on dates: false as soon as one of them is invalid. *)
Definition Date_ltb (a b : Date) : bool :=
  match a, b with
  | Some x, Some y => (x <? y)%Z
  | _, _ => false
  end.

(** What the host decides about dates: how a string is parsed
    ([new Date(s)]) and the local time that corresponds to a time value
    (the time zone of the process). *)
Record Host : Type := {
  Date_parse : string -> Date;
  LocalTime : Z -> Z;
}.

Definition getHours (h : Host) (t : Z) : Z :=
  ((LocalTime h t / 3600000) mod 24)%Z.

Definition getMinutes (h : Host) (t : Z) : Z :=
  ((LocalTime h t / 60000) mod 60)%Z.

End Js.

(** Arithmetic on numbers is evaluated on closed terms only. *)
Arguments Js.of_Z : simpl never.
Arguments Js.add : simpl never.
Arguments Js.mul : simpl never.
Arguments Js.div : simpl never.
Arguments Js.Math_round : simpl never.
Arguments Js.toFixed2 : simpl never.
Arguments Js.parseFloat : simpl never.
Arguments Js.number_of_decimal : simpl never.

(* ================================================================== *)
(** * types/database.ts                                                *)
(* ================================================================== *)

Module Types.

Definition UUID : Type := string.
Definition Timestamp : Type := string.
Definition TimeString : Type := string.

Inductive ProductCategory : Type :=
| snacks | noodles | cakes | flowers | beverages | other.

Record Product : Type := {
  id : UUID;
  name : string;
  description : option string;
  category : ProductCategory;
  price : string;     (* NUMERIC(10,2), returned as a string *)
  image_url : option string;
  is_available : bool;
  available_from : option TimeString;
  available_until : option TimeString;
  is_fragile : bool;
  requires_custom_text : bool;
  created_at : Timestamp;
  updated_at : Timestamp;
}.

End Types.

(* ================================================================== *)
(** * lib/fees.ts                                                      *)
(* ================================================================== *)

Module Fees.

Definition BASE_DELIVERY_FEE : Js.number := Js.of_Z 150.
Definition FRAGILE_ITEM_FEE : Js.number := Js.of_Z 100.

Definition openHour : Z := 10.
Definition openMinute : Z := 0.
Definition closeHour : Z := 23.
Definition closeMinute : Z := 0.

Definition PREORDER_MIN_LEAD_MS : Z := 30 * 60 * 1000.

(** [None] is the [null] returned on success; [Some msg] the message
    shown to the user. *)
Definition validateDeliveryTime (h : Js.Host) (isoString : string)
    (now : Js.Date) : option string :=
  let requested := Js.Date_parse h isoString in
  match requested with
  | None => Some "Please select a valid delivery time."
  | Some t =>
      let minAllowed :=
        match now with
        | Some n => Js.TimeClip (n + PREORDER_MIN_LEAD_MS)
        | None => None
        end in
      if Js.Date_ltb requested minAllowed then
        Some "Delivery time must be at least 30 minutes from now."
      else
        let totalMins := (Js.getHours h t * 60 + Js.getMinutes h t)%Z in
        let openMins := (openHour * 60 + openMinute)%Z in
        let closeMins := (closeHour * 60 + closeMinute)%Z in
        if (totalMins <? openMins)%Z || (closeMins <? totalMins)%Z then
          Some "Delivery is only available between 10:00 AM and 11:00 PM."
        else None
  end.

End Fees.

(* ================================================================== *)
(** * store/useCartStore.ts                                            *)
(* ================================================================== *)

Module CartStore.

Record CartItem : Type := {
  cartItemId : string;
  product : Types.Product;
  quantity : Js.number;
  custom_message : option string;
  is_fragile : bool;
  is_preorder : bool;
}.

Module AddItemPayload.
Record t : Type := {
  product : Types.Product;
  quantity : option Js.number;      (* defaults to 1 *)
  custom_message : option string;
  is_preorder : option bool;
}.
End AddItemPayload.

Module UpdateQuantityPayload.
Record t : Type := {
  cartItemId : string;
  quantity : Js.number;
}.
End UpdateQuantityPayload.

Record CartState : Type := { items : list CartItem }.

(** ** Selectors *)

Definition selectCartSubtotal (state : CartState) : Js.number :=
  let raw :=
    fold_left
      (fun sum item =>
         let unitPrice := Js.parseFloat (Types.price (product item)) in
         let safePrice := if Js.isNaN unitPrice then Js.zero else unitPrice in
         Js.add sum (Js.mul safePrice (quantity item)))
      (items state) Js.zero in
  Js.div (Js.Math_round (Js.mul raw (Js.of_Z 100))) (Js.of_Z 100).

Definition selectContainsFragileItems (state : CartState) : bool :=
  Js.some is_fragile (items state).

Definition selectTotalItemCount (state : CartState) : Js.number :=
  fold_left (fun count item => Js.add count (quantity item))
    (items state) Js.zero.

Definition selectCartItemIds (state : CartState) : list string :=
  map cartItemId (items state).

Definition selectContainsPreorderItems (state : CartState) : bool :=
  Js.some is_preorder (items state).

Definition selectHasMixedAvailability (state : CartState) : bool :=
  if (length (items state) <? 2)%nat then false
  else
    let hasInstant := Js.some (fun item => negb (is_preorder item)) (items state) in
    let hasPreorder := Js.some is_preorder (items state) in
    hasInstant && hasPreorder.

(** ** Pure helpers *)

Definition calcSubtotalForItems (items : list CartItem) : Js.number :=
  let raw :=
    fold_left
      (fun sum item =>
         let unitPrice := Js.parseFloat (Types.price (product item)) in
         let safePrice := if Js.isNaN unitPrice then Js.zero else unitPrice in
         Js.add sum (Js.mul safePrice (quantity item)))
      items Js.zero in
  Js.div (Js.Math_round (Js.mul raw (Js.of_Z 100))) (Js.of_Z 100).

Record SplitCart : Type := {
  instantItems : list CartItem;
  preorderItems : list CartItem;
  instantSubtotal : Js.number;
  preorderSubtotal : Js.number;
  instantHasFragile : bool;
  preorderHasFragile : bool;
}.

(** The loop of [splitCartIntoTwo]: one pass, each item pushed at the end
    of one of the two arrays. *)
Definition splitLoop (items : list CartItem)
    : list CartItem * list CartItem :=
  fold_left
    (fun '(instantItems, preorderItems) item =>
       if is_preorder item
       then (instantItems, preorderItems ++ [item])
       else (instantItems ++ [item], preorderItems))
    items ([], []).

Definition splitCartIntoTwo (items : list CartItem) : SplitCart :=
  let '(instantItems, preorderItems) := splitLoop items in
  {| instantItems := instantItems;
     preorderItems := preorderItems;
     instantSubtotal := calcSubtotalForItems instantItems;
     preorderSubtotal := calcSubtotalForItems preorderItems;
     instantHasFragile := Js.some is_fragile instantItems;
     preorderHasFragile := Js.some is_fragile preorderItems |}.

Definition buildCartItemId (productId : Types.UUID)
    (custom_message : option string) : string :=
  let normalised := Js.toLowerCase (Js.trim (default "" custom_message)) in
  (productId ++ "::" ++ normalised)%string.

(** ** Store actions *)

(** [{ ...item, quantity }] *)
Definition withQuantity (quantity : Js.number) (item : CartItem) : CartItem :=
  {| cartItemId := cartItemId item;
     product := product item;
     quantity := quantity;
     custom_message := custom_message item;
     is_fragile := is_fragile item;
     is_preorder := is_preorder item |}.

Definition addItem (payload : AddItemPayload.t) (state : CartState)
    : CartState :=
  let product := AddItemPayload.product payload in
  let quantity := default (Js.of_Z 1) (AddItemPayload.quantity payload) in
  let custom_message := AddItemPayload.custom_message payload in
  let incomingId := buildCartItemId (Types.id product) custom_message in
  let existingIndex :=
    Js.findIndex (fun item => String.eqb (cartItemId item) incomingId)
      (items state) in
  if negb (existingIndex =? -1)%Z then
    (* merge path *)
    {| items :=
         alter (fun existing =>
                  withQuantity (Js.add (CartStore.quantity existing) quantity)
                    existing)
           (Z.to_nat existingIndex) (items state) |}
  else
    (* new line item path *)
    let newItem :=
      {| cartItemId := incomingId;
         CartStore.product := product;
         CartStore.quantity := quantity;
         CartStore.custom_message :=
           match custom_message with
           | Some m => let t := Js.trim m in
                       if Js.isEmpty t then None else Some t
           | None => None
           end;
         is_fragile := Types.is_fragile product;
         CartStore.is_preorder :=
           default false (AddItemPayload.is_preorder payload) |} in
    {| items := items state ++ [newItem] |}.

Definition removeItem (cartItemId : string) (state : CartState)
    : CartState :=
  {| items :=
       List.filter
         (fun item => negb (String.eqb (CartStore.cartItemId item) cartItemId))
         (items state) |}.

Definition updateQuantity (payload : UpdateQuantityPayload.t)
    (state : CartState) : CartState :=
  let cartItemId := UpdateQuantityPayload.cartItemId payload in
  let quantity := UpdateQuantityPayload.quantity payload in
  if Js.leb quantity Js.zero then
    {| items :=
         List.filter
           (fun item =>
              negb (String.eqb (CartStore.cartItemId item) cartItemId))
           (items state) |}
  else
    {| items :=
         map (fun item =>
                if String.eqb (CartStore.cartItemId item) cartItemId
                then withQuantity quantity item else item)
           (items state) |}.

Definition removeAllByProductId (productId : Types.UUID)
    (state : CartState) : CartState :=
  {| items :=
       List.filter
         (fun item => negb (String.eqb (Types.id (product item)) productId))
         (items state) |}.

Definition clearCart (state : CartState) : CartState := {| items := [] |}.

Definition initialState : CartState := {| items := [] |}.

(** ** Persistence *)

(** [Omit<CartItem, 'cartItemId'>]: a line as version 0 stored it. *)
Record LegacyCartItem : Type := {
  legacy_product : Types.Product;
  legacy_quantity : Js.number;
  legacy_custom_message : option string;
  legacy_is_fragile : bool;
  legacy_is_preorder : bool;
}.

(** What is read back from storage: a version-0 snapshot, whose lines have
    no [cartItemId], or a snapshot of the current shape. *)
Inductive PersistedState : Type :=
| LegacySnapshot (old_items : list LegacyCartItem)
| Snapshot (state : CartState).

(** A current line seen through the version-0 type. *)
Definition asLegacy (item : CartItem) : LegacyCartItem :=
  {| legacy_product := product item;
     legacy_quantity := quantity item;
     legacy_custom_message := custom_message item;
     legacy_is_fragile := is_fragile item;
     legacy_is_preorder := is_preorder item |}.

(** [migrate]: the casts of the source are unchecked; the result is
    [None] where a version-0 snapshot is returned under the type
    [CartState] without having been rebuilt. *)
Definition migrate (persistedState : PersistedState) (oldVersion : Z)
    : option CartState :=
  if (oldVersion =? 0)%Z then
    let old :=
      match persistedState with
      | LegacySnapshot its => its
      | Snapshot s => map asLegacy (items s)
      end in
    Some
      {| items :=
           map (fun item =>
                  {| cartItemId :=
                       buildCartItemId (Types.id (legacy_product item))
                         (legacy_custom_message item);
                     product := legacy_product item;
                     quantity := legacy_quantity item;
                     custom_message := legacy_custom_message item;
                     is_fragile := legacy_is_fragile item;
                     is_preorder := legacy_is_preorder item |})
             old |}
  else
    match persistedState with
    | Snapshot s => Some s
    | LegacySnapshot _ => None
    end.

End CartStore.

(* ================================================================== *)
(** * The persistence service (supabase/migrations, lib/supabase)      *)
(* ================================================================== *)

Module Supabase.

(** A [File] of the browser, as far as the sources look at it. *)
Record File : Type := {
  file_name : string;
  file_size : Z;
  file_type : string;
}.

(** A value of a NUMERIC(10,2) column: NaN, or a number of hundredths. *)
Inductive PgNumeric : Type :=
| PgNaN
| PgCents (c : Z).

(** The text written by [toFixed(2)] read into a NUMERIC(10,2) column;
    [None] when the column cannot hold it (no decimal text, or more than
    eight integer digits). *)
Definition numeric_of_text (t : Js.FixedText) : option PgNumeric :=
  match t with
  | Js.FixedNaN => Some PgNaN
  | Js.FixedNonDecimal => None
  | Js.FixedDecimal neg n =>
      if (n <? 10 ^ 10)%Z then Some (PgCents (cond_Zopp neg n)) else None
  end.

(** [x >= 0] of a CHECK constraint; NaN sorts above every number. *)
Definition numeric_nonneg (x : PgNumeric) : bool :=
  match x with PgNaN => true | PgCents c => (0 <=? c)%Z end.

Definition numeric_add (x y : PgNumeric) : PgNumeric :=
  match x, y with
  | PgCents a, PgCents b => PgCents (a + b)
  | _, _ => PgNaN
  end.

(** A computed value stored back in a NUMERIC(10,2) column. *)
Definition numeric_fits (x : PgNumeric) : bool :=
  match x with PgNaN => true | PgCents c => (Z.abs c <? 10 ^ 10)%Z end.

Record DeliveryAddress : Type := {
  line1 : string;
  line2 : option string;
  city : string;
}.

Inductive OrderStatus : Type :=
| pending | confirmed | preparing | out_for_delivery | delivered
| cancelled | refunded.

Module OrderInsert.
Record t : Type := {
  customer_name : string;
  customer_phone : string;
  address : DeliveryAddress;
  status : OrderStatus;
  payment_method : string;
  payment_receipt_url : option string;
  subtotal : Js.FixedText;
  base_delivery_fee : Js.FixedText;
  fragile_item_fee : Js.FixedText;
  is_preorder : bool;
  requested_delivery_time : option Z;  (* the instant the ISO text denotes *)
}.
End OrderInsert.

(** A row of [orders]. *)
Module Order.
Record t : Type := {
  id : Types.UUID;
  customer_name : string;
  customer_phone : string;
  address : DeliveryAddress;
  status : OrderStatus;
  payment_method : string;
  payment_receipt_url : option string;
  subtotal : PgNumeric;
  base_delivery_fee : PgNumeric;
  fragile_item_fee : PgNumeric;
  total_amount : PgNumeric;            (* GENERATED ALWAYS AS ... STORED *)
  is_preorder : bool;
  requested_delivery_time : option Z;
}.
End Order.

Module OrderItemInsert.
Record t : Type := {
  order_id : Types.UUID;
  product_id : Types.UUID;
  quantity : Js.number;
  price_at_purchase : string;
  custom_message : option string;
}.
End OrderItemInsert.

(** The singleton row of [settings], NUMERIC columns as the client
    returns them. *)
Record Settings : Type := {
  current_delivery_fee : string;
  current_fragile_fee : string;
}.

Record Database : Type := {
  orders : list Order.t;
  order_items : list OrderItemInsert.t;
  order_receipts : list (string * File);   (* bucket 'order-receipts' *)
  settings : option Settings;
}.

Definition PAYMENT_METHOD_ENUM : list string :=
  ["cash_on_delivery"; "online_transfer"; "card"; "wallet"].

(** [insert(payload).select('id').single()] on [orders], following the
    table definition: column types, the three CHECKs on the amounts, the
    generated [total_amount] and the pre-order constraint. [fails] is a
    failure decided outside the schema (connectivity). The result is the
    id of the new row, or [None] for an error, which leaves the table as
    it was. *)
Definition insert_order (fails : bool) (new_id : Types.UUID)
    (p : OrderInsert.t) (db : Database) : option Types.UUID * Database :=
  match numeric_of_text (OrderInsert.subtotal p),
        numeric_of_text (OrderInsert.base_delivery_fee p),
        numeric_of_text (OrderInsert.fragile_item_fee p) with
  | Some s, Some b, Some f =>
      let total := numeric_add (numeric_add s b) f in
      if negb fails
         && Js.includes PAYMENT_METHOD_ENUM (OrderInsert.payment_method p)
         && numeric_nonneg s && numeric_nonneg b && numeric_nonneg f
         && numeric_fits total
         && (negb (OrderInsert.is_preorder p)
             || bool_decide (is_Some (OrderInsert.requested_delivery_time p)))
      then
        let row :=
          {| Order.id := new_id;
             Order.customer_name := OrderInsert.customer_name p;
             Order.customer_phone := OrderInsert.customer_phone p;
             Order.address := OrderInsert.address p;
             Order.status := OrderInsert.status p;
             Order.payment_method := OrderInsert.payment_method p;
             Order.payment_receipt_url := OrderInsert.payment_receipt_url p;
             Order.subtotal := s;
             Order.base_delivery_fee := b;
             Order.fragile_item_fee := f;
             Order.total_amount := total;
             Order.is_preorder := OrderInsert.is_preorder p;
             Order.requested_delivery_time :=
               OrderInsert.requested_delivery_time p |} in
        (Some new_id,
         {| orders := orders db ++ [row];
            order_items := order_items db;
            order_receipts := order_receipts db;
            settings := settings db |})
      else (None, db)
  | _, _, _ => (None, db)
  end.

(** [insert(rows)] on [order_items]: all rows or none. Whether the
    database accepts them (known products, positive integer quantities,
    prices that fit) is reported by [fails]. The result is [true] for an
    error. *)
Definition insert_order_items (fails : bool)
    (rows : list OrderItemInsert.t) (db : Database) : bool * Database :=
  if fails then (true, db)
  else
    (false,
     {| orders := orders db;
        order_items := order_items db ++ rows;
        order_receipts := order_receipts db;
        settings := settings db |}).

(** [storage.from('order-receipts').upload(fileName, ...)] with
    [upsert: false]; the result is [true] for an error. *)
Definition upload (fails : bool) (fileName : string) (f : File)
    (db : Database) : bool * Database :=
  if fails || existsb (fun o => String.eqb (fst o) fileName) (order_receipts db)
  then (true, db)
  else
    (false,
     {| orders := orders db;
        order_items := order_items db;
        order_receipts := order_receipts db ++ [(fileName, f)];
        settings := settings db |}).

End Supabase.

(* ================================================================== *)
(** * actions/processOrder.ts                                          *)
(* ================================================================== *)

Module ProcessOrder.

Import Supabase.

Record SerializedProduct : Type := {
  id : string;
  name : string;
  price : string;
  is_fragile : bool;
}.

Record SerializedCartItem : Type := {
  product : SerializedProduct;
  quantity : Js.number;
  custom_message : option string;
  is_preorder : bool;
}.

Inductive ProcessOrderResult : Type :=
| Success (orderId : string)
| Failure (error : string) (fieldErrors : option (list (string * string))).

(** A call either returns a result or throws. *)
Inductive Outcome : Type :=
| Returns (r : ProcessOrderResult)
| Throws.

Inductive FormDataEntryValue : Type :=
| EntryString (s : string)
| EntryFile (f : File).

(** The text under the key 'cart_items', by what [sanitize] and
    [JSON.parse] make of it. The elements of an array are taken to have
    the type the source gives them. *)
Inductive CartJson : Type :=
| CartUnparsable
    (* no entry, a File, or text that JSON.parse rejects *)
| CartNotArray
    (* the JSON text of something that is not an array *)
| CartArray (items : list SerializedCartItem).

(** The entries of the FormData that [processOrder] reads; [None] is a
    missing key. *)
Module FormData.
Record t : Type := {
  customer_name : option FormDataEntryValue;
  customer_phone : option FormDataEntryValue;
  address_line1 : option FormDataEntryValue;
  address_line2 : option FormDataEntryValue;
  address_city : option FormDataEntryValue;
  payment_method : option FormDataEntryValue;
  requested_delivery_time : option FormDataEntryValue;
  cart_items : CartJson;
  payment_receipt : option FormDataEntryValue;
}.
End FormData.

(** What a call depends on besides its argument and the stored data. *)
Record Env : Type := {
  host : Js.Host;
  clock : Z;                           (* time value of [new Date()] *)
  supabase_configured : bool;          (* both environment variables set *)
  upload_token : string;               (* Date.now() and Math.random() part *)
  upload_fails : bool;
  publicUrl : string -> string;        (* getPublicUrl *)
  orders_insert_fails : bool;
  generated_id : Types.UUID;           (* uuid_generate_v4() *)
  order_items_insert_fails : bool;
}.

(** ** Constants *)

Definition ALLOWED_PAYMENT_METHODS : list string :=
  ["cash_on_delivery"; "online_transfer"; "card"; "wallet"].

Definition MAX_RECEIPT_BYTES : Z := 5 * 1024 * 1024.

Definition ALLOWED_RECEIPT_MIME : list string :=
  ["image/jpeg"; "image/png"; "image/webp"; "application/pdf"].

(** ** Helpers *)

(** Exactly [n] digits and then the end of the text. *)
Fixpoint digitsToEnd (n : nat) (s : string) : bool :=
  match n, s with
  | O, EmptyString => true
  | S n', String c r => Js.isDigit c && digitsToEnd n' r
  | _, _ => false
  end.

(** [3\d{9}$] *)
Definition mobileNumber (s : string) : bool :=
  match s with
  | String "3" r => digitsToEnd 9 r
  | _ => false
  end.

(** [/^(\+92|0)?3\d{9}$/.test(phone.replace(/\s/g, ''))] *)
Definition isValidPhone (phone : string) : bool :=
  let s := Js.removeWhiteSpace phone in
  match s with
  | String "+" (String "9" (String "2" r)) => mobileNumber r
  | String "0" r => mobileNumber r
  | _ => mobileNumber s
  end.

Definition sanitize (val : option FormDataEntryValue) : string :=
  match val with
  | Some (EntryString s) => Js.trim s
  | _ => ""
  end.

Definition isDot (c : ascii) : bool := (Js.code c =? 46)%N.

Fixpoint hasDot (s : string) : bool :=
  match s with
  | EmptyString => false
  | String c r => isDot c || hasDot r
  end.

(** [name.split('.').pop()]: what follows the last dot, the whole name
    when it has none. *)
Fixpoint extension (name : string) : string :=
  match name with
  | EmptyString => EmptyString
  | String c r =>
      if hasDot r then extension r
      else if isDot c then r else name
  end.

(** ** Fee calculation (step 3) *)

Definition subtotal (items : list SerializedCartItem) : Js.number :=
  fold_left
    (fun sum item =>
       let price := Js.parseFloat (price (product item)) in
       Js.add sum
         (if Js.isNaN price then Js.zero else Js.mul price (quantity item)))
    items Js.zero.

Definition hasFragile (items : list SerializedCartItem) : bool :=
  Js.some (fun i => is_fragile (product i)) items.

Definition fragileItemFee (items : list SerializedCartItem) : Js.number :=
  if hasFragile items then Fees.FRAGILE_ITEM_FEE else Js.zero.

(** ** The server action *)

(** Field validation of step 2 that precedes the parsing of the cart. *)
Definition contactErrors (customerName customerPhone addressLine1
    addressCity paymentMethod : string) : list (string * string) :=
  (if Js.isEmpty customerName || (String.length customerName <? 2)%nat
   then [("customer_name", "Please enter your full name.")] else [])
  ++ (if negb (isValidPhone customerPhone)
      then [("customer_phone",
             "Please enter a valid Pakistani mobile number (e.g. 0312 3456789).")]
      else [])
  ++ (if Js.isEmpty addressLine1
      then [("address_line1", "Street address is required.")] else [])
  ++ (if Js.isEmpty addressCity
      then [("address_city", "City is required.")] else [])
  ++ (if negb (Js.includes ALLOWED_PAYMENT_METHODS paymentMethod)
      then [("payment_method", "Please select a payment method.")] else []).

(** Pre-order validation: the error for the delivery time if any, the
    flag [isPreorder] and the requested delivery time. *)
Definition preorderCheck (env : Env) (items : list SerializedCartItem)
    (deliveryTimeRaw : string)
    : list (string * string) * bool * option Z :=
  let hasPreorderItems := Js.some is_preorder items in
  if hasPreorderItems then
    if Js.isEmpty deliveryTimeRaw then
      ([("requested_delivery_time",
         "Your cart has pre-order items. Please select a delivery time.")],
       false, None)
    else
      match Fees.validateDeliveryTime (host env) deliveryTimeRaw
              (Some (clock env)) with
      | Some timeError =>
          ([("requested_delivery_time", timeError)], false, None)
      | None => ([], true, Js.Date_parse (host env) deliveryTimeRaw)
      end
  else ([], false, None).

(** Receipt validation. *)
Definition receiptErrors (paymentMethod : string)
    (receiptFile : option FormDataEntryValue) : list (string * string) :=
  if String.eqb paymentMethod "online_transfer" then
    match receiptFile with
    | None =>
        [("payment_receipt", "Please upload your bank transfer screenshot.")]
    | Some (EntryString s) =>
        if Js.isEmpty s
        then [("payment_receipt", "Please upload your bank transfer screenshot.")]
        else [("payment_receipt",
               "Only JPG, PNG, WebP, or PDF receipts are accepted.")]
    | Some (EntryFile f) =>
        if (file_size f =? 0)%Z then
          [("payment_receipt", "Please upload your bank transfer screenshot.")]
        else if negb (Js.includes ALLOWED_RECEIPT_MIME (file_type f)) then
          [("payment_receipt",
            "Only JPG, PNG, WebP, or PDF receipts are accepted.")]
        else if (MAX_RECEIPT_BYTES <? file_size f)%Z then
          [("payment_receipt", "Receipt file must be under 5 MB.")]
        else []
    end
  else [].

Definition processOrder (env : Env) (formData : FormData.t)
    (db : Database) : Outcome * Database :=
  if negb (supabase_configured env) then (Throws, db)
  else
  (* step 1: parse FormData *)
  let customerName := sanitize (FormData.customer_name formData) in
  let customerPhone := sanitize (FormData.customer_phone formData) in
  let addressLine1 := sanitize (FormData.address_line1 formData) in
  let addressLine2 := sanitize (FormData.address_line2 formData) in
  let addressCity := sanitize (FormData.address_city formData) in
  let paymentMethod := sanitize (FormData.payment_method formData) in
  let deliveryTimeRaw := sanitize (FormData.requested_delivery_time formData) in
  let receiptFile := FormData.payment_receipt formData in
  (* step 2: validate fields *)
  let fieldErrors :=
    contactErrors customerName customerPhone addressLine1 addressCity
      paymentMethod in
  (* parse cart *)
  match FormData.cart_items formData with
  | CartUnparsable | CartNotArray | CartArray [] =>
      (Returns
         (Failure "Your cart is empty. Please add items before checking out."
            None), db)
  | CartArray items =>
      let '(timeErrors, isPreorder, requestedDeliveryTime) :=
        preorderCheck env items deliveryTimeRaw in
      let fieldErrors :=
        fieldErrors ++ timeErrors ++ receiptErrors paymentMethod receiptFile in
      if (0 <? length fieldErrors)%nat then
        (Returns (Failure "Please fix the errors below." (Some fieldErrors)), db)
      else
      (* step 3: server-side fee calculation *)
      let subtotal := subtotal items in
      let fragileItemFee := fragileItemFee items in
      (* step 4: upload receipt *)
      let upload_step : option (option string * Database) :=
        match receiptFile with
        | Some (EntryFile f) =>
            if String.eqb paymentMethod "online_transfer"
               && (0 <? file_size f)%Z
            then
              let ext := extension (file_name f) in
              let fileName :=
                ("receipts/" ++ upload_token env ++ "." ++ ext)%string in
              let '(uploadError, db1) :=
                upload (upload_fails env) fileName f db in
              if uploadError then None
              else Some (Some (publicUrl env fileName), db1)
            else Some (None, db)
        | _ => Some (None, db)
        end in
      match upload_step with
      | None =>
          (Returns
             (Failure
                "We could not save your payment receipt. Please try again."
                None), db)
      | Some (receiptUrl, db1) =>
          (* step 5: insert order *)
          let address :=
            {| line1 := addressLine1;
               line2 := if Js.isEmpty addressLine2 then None
                        else Some addressLine2;
               city := addressCity |} in
          let orderPayload :=
            {| OrderInsert.customer_name := customerName;
               OrderInsert.customer_phone := customerPhone;
               OrderInsert.address := address;
               OrderInsert.status := pending;
               OrderInsert.payment_method := paymentMethod;
               OrderInsert.payment_receipt_url := receiptUrl;
               OrderInsert.subtotal := Js.toFixed2 subtotal;
               OrderInsert.base_delivery_fee :=
                 Js.toFixed2 Fees.BASE_DELIVERY_FEE;
               OrderInsert.fragile_item_fee := Js.toFixed2 fragileItemFee;
               OrderInsert.is_preorder := isPreorder;
               OrderInsert.requested_delivery_time :=
                 requestedDeliveryTime |} in
          match insert_order (orders_insert_fails env) (generated_id env)
                  orderPayload db1 with
          | (None, db2) =>
              (Returns
                 (Failure "We could not place your order. Please try again."
                    None), db2)
          | (Some orderId, db2) =>
              (* step 6: insert order items *)
              let itemPayloads :=
                map (fun item =>
                       {| OrderItemInsert.order_id := orderId;
                          OrderItemInsert.product_id := id (product item);
                          OrderItemInsert.quantity := quantity item;
                          OrderItemInsert.price_at_purchase :=
                            price (product item);
                          OrderItemInsert.custom_message :=
                            match custom_message item with
                            | Some m => let t := Js.trim m in
                                        if Js.isEmpty t then None else Some t
                            | None => None
                            end |})
                  items in
              let '(_, db3) :=
                insert_order_items (order_items_insert_fails env)
                  itemPayloads db2 in
              (* an error on the items is logged; the order stands *)
              (Returns (Success orderId), db3)
          end
      end
  end.

End ProcessOrder.

(* ================================================================== *)
(** * actions/updateFragileFee.ts                                      *)
(* ================================================================== *)

Module UpdateFragileFee.

Record FeeSettings : Type := {
  current_delivery_fee : Js.number;
  current_fragile_fee : Js.number;
}.

(** [getSettings]: [select_fails] is an error of the query that does not
    come from the data; a missing singleton row is an error of
    [.single()] too. *)
Definition getSettings (select_fails : bool) (db : Supabase.Database)
    : FeeSettings :=
  match (if select_fails then None else Supabase.settings db) with
  | None =>
      {| current_delivery_fee := Js.of_Z 150;
         current_fragile_fee := Js.of_Z 100 |}
  | Some settings =>
      {| current_delivery_fee :=
           Js.parseFloat (Supabase.current_delivery_fee settings);
         current_fragile_fee :=
           Js.parseFloat (Supabase.current_fragile_fee settings) |}
  end.

End UpdateFragileFee.

(* ================================================================== *)
(** * app/checkout/page.tsx                                            *)
(* ================================================================== *)

Module CheckoutPage.

Import Supabase ProcessOrder.

Inductive CheckoutView : Type :=
| split_notice | instant_form | preorder_form | standard_form.

(** The state of the form held by [CheckoutForm]. *)
Record FormState : Type := {
  customerName : string;
  customerPhone : string;
  addressLine1 : string;
  addressLine2 : string;
  addressCity : string;
  paymentMethod : string;
  deliveryTime : string;
  deliveryTimeError : string;
  receiptFile : option File;
}.

(** What a submission leaves behind: the cart store, the stored data, the
    route pushed by [onSuccess], and the errors shown. *)
Record Page : Type := {
  cart : CartStore.CartState;
  database : Database;
  route : option string;
  serverError : option string;
  fieldErrors : option (list (string * string));
}.

(** A number written by [JSON.stringify] and read back by the server:
    finite numbers come back as they are, -0 as 0, and NaN and the
    infinities are written as [null], which the arithmetic of the server
    reads as 0. *)
Definition throughJson (x : Js.number) : Js.number :=
  match x with
  | S754_finite _ _ _ => x
  | _ => Js.zero
  end.

Definition serialize (item : CartStore.CartItem) : SerializedCartItem :=
  {| product :=
       {| id := Types.id (CartStore.product item);
          name := Types.name (CartStore.product item);
          price := Types.price (CartStore.product item);
          is_fragile := Types.is_fragile (CartStore.product item) |};
     quantity := throughJson (CartStore.quantity item);
     custom_message := CartStore.custom_message item;
     is_preorder := CartStore.is_preorder item |}.

(** The items and the flag that [CheckoutPage] passes to the form. *)
Definition formItems (view : CheckoutView) (items : list CartStore.CartItem)
    : list CartStore.CartItem :=
  match view with
  | instant_form => CartStore.instantItems (CartStore.splitCartIntoTwo items)
  | preorder_form => CartStore.preorderItems (CartStore.splitCartIntoTwo items)
  | _ => items
  end.

Definition isPreorderBatch (view : CheckoutView)
    (items : list CartStore.CartItem) : bool :=
  match view with
  | preorder_form => true
  | standard_form => Js.some CartStore.is_preorder items
  | _ => false
  end.

Definition buildFormData (items : list CartStore.CartItem)
    (form : FormState) : FormData.t :=
  {| FormData.customer_name := Some (EntryString (customerName form));
     FormData.customer_phone := Some (EntryString (customerPhone form));
     FormData.address_line1 := Some (EntryString (addressLine1 form));
     FormData.address_line2 := Some (EntryString (addressLine2 form));
     FormData.address_city := Some (EntryString (addressCity form));
     FormData.payment_method := Some (EntryString (paymentMethod form));
     FormData.cart_items := CartArray (map serialize items);
     FormData.requested_delivery_time :=
       if Js.isEmpty (deliveryTime form) then None
       else Some (EntryString (deliveryTime form));
     FormData.payment_receipt :=
       match receiptFile form with
       | Some f => Some (EntryFile f)
       | None => None
       end |}.

(** [handleSubmit] of [CheckoutForm], with the transition it starts run
    to its end. *)
Definition handleSubmit (env : Env) (items : list CartStore.CartItem)
    (isPreorderBatch : bool) (form : FormState) (page : Page) : Page :=
  if isPreorderBatch && negb (Js.isEmpty (deliveryTimeError form)) then page
  else
    let fd := buildFormData items form in
    match processOrder env fd (database page) with
    | (Returns (Success orderId), db) =>
        {| cart := CartStore.clearCart (cart page);
           database := db;
           route := Some ("/order-confirmation?id=" ++ orderId)%string;
           serverError := serverError page;
           fieldErrors := fieldErrors page |}
    | (Returns (Failure error errors), db) =>
        {| cart := cart page;
           database := db;
           route := route page;
           serverError := Some error;
           fieldErrors :=
             match errors with
             | Some e => Some e
             | None => fieldErrors page
             end |}
    | (Throws, db) =>
        {| cart := cart page;
           database := db;
           route := route page;
           serverError := serverError page;
           fieldErrors := fieldErrors page |}
    end.

End CheckoutPage.

(* ================================================================== *)
(** * Vocabulary of the properties                                     *)
(* ================================================================== *)

Module Props.

Import CartStore.

(** The actions of the cart store, and a run of a sequence of them. *)
Inductive CartAction : Type :=
| AddItem (payload : AddItemPayload.t)
| RemoveItem (cartItemId : string)
| UpdateQuantity (payload : UpdateQuantityPayload.t)
| RemoveAllByProductId (productId : Types.UUID)
| ClearCart.

Definition dispatch (state : CartState) (a : CartAction) : CartState :=
  match a with
  | AddItem payload => addItem payload state
  | RemoveItem cartItemId => removeItem cartItemId state
  | UpdateQuantity payload => updateQuantity payload state
  | RemoveAllByProductId productId => removeAllByProductId productId state
  | ClearCart => clearCart state
  end.

Definition run (actions : list CartAction) (state : CartState) : CartState :=
  fold_left dispatch actions state.

(** The identity of a line recomputed from what the line stores. *)
Definition identityOf (item : CartItem) : string :=
  buildCartItemId (Types.id (product item)) (custom_message item).

(** The stored key of a line is its recomputed identity. *)
Definition keyed (item : CartItem) : Prop :=
  cartItemId item = identityOf item.

(** The quantity asked for by a call of [addItem]. *)
Definition callQuantity (payload : AddItemPayload.t) : Js.number :=
  default (Js.of_Z 1) (AddItemPayload.quantity payload).

(** The sum of the quantities of a sequence of calls, added in the order
    of the calls. *)
Definition sumQuantities (first : AddItemPayload.t)
    (rest : list AddItemPayload.t) : Js.number :=
  fold_left (fun q p => Js.add q (callQuantity p)) rest (callQuantity first).

(** The lines of a cart that carry the key [k]. *)
Definition linesWithKey (k : string) (state : CartState) : list CartItem :=
  List.filter (fun item => String.eqb (cartItemId item) k) (items state).

(** The key that a call of [addItem] computes. *)
Definition incomingId (payload : AddItemPayload.t) : string :=
  buildCartItemId (Types.id (AddItemPayload.product payload))
    (AddItemPayload.custom_message payload).

(** An existing line after a call of [addItem] has been merged into it. *)
Definition merged (payload : AddItemPayload.t) (existing : CartItem)
    : CartItem :=
  withQuantity (Js.add (quantity existing) (callQuantity payload)) existing.

(** The invariant of the store: no two lines share a key, and every key is
    the identity of its line. *)
Definition storeInvariant (state : CartState) : Prop :=
  NoDup (map cartItemId (items state)) /\ Forall keyed (items state).

(** The two filters that [splitCartIntoTwo] is compared with. *)
Definition instantOnly (items : list CartItem) : list CartItem :=
  List.filter (fun item => negb (is_preorder item)) items.

Definition preorderOnly (items : list CartItem) : list CartItem :=
  List.filter is_preorder items.

(** The subtotal as the specification words it: the sum, over the lines
    in order, of the parsed unit price times the quantity, a line whose
    price does not parse as a number counting for 0. A line is given by its
    price text and its quantity. *)
Definition lineContribution (priceText : string) (quantity : Js.number)
    : Js.number :=
  let price := Js.parseFloat priceText in
  if Js.isNaN price then Js.zero else Js.mul price quantity.

Definition sumOfLines (lines : list (string * Js.number)) : Js.number :=
  fold_left (fun sum line => Js.add sum (lineContribution line.1 line.2))
    lines Js.zero.

Definition cartLines (items : list CartItem) : list (string * Js.number) :=
  map (fun item => (Types.price (product item), quantity item)) items.

Definition orderLines (items : list ProcessOrder.SerializedCartItem)
    : list (string * Js.number) :=
  map (fun item =>
         (ProcessOrder.price (ProcessOrder.product item),
          ProcessOrder.quantity item))
    items.

(** [Math.round(raw * 100) / 100] *)
Definition roundToCents (raw : Js.number) : Js.number :=
  Js.div (Js.Math_round (Js.mul raw (Js.of_Z 100))) (Js.of_Z 100).

(** A quantity that is finite and not negative. *)
Definition countable (q : Js.number) : bool :=
  match q with
  | S754_zero false | S754_finite false _ _ => true
  | _ => false
  end.

(** The time of day of a time value in the zone of the host, in minutes. *)
Definition minuteOfDay (h : Js.Host) (t : Z) : Z :=
  (Js.getHours h t * 60 + Js.getMinutes h t)%Z.

End Props.

(* ================================================================== *)
(** * Sample data for the examples                                     *)
(* ================================================================== *)

Module Samples.

Import CartStore.

Definition cake : Types.Product :=
  {| Types.id := "5f0c2a8e-1b7d-4c3a-9e21-0a4b6c8d9e10";
     Types.name := "Chocolate Cake";
     Types.description := None;
     Types.category := Types.cakes;
     Types.price := "100.00";
     Types.image_url := None;
     Types.is_available := true;
     Types.available_from := Some "10:00:00";
     Types.available_until := Some "23:00:00";
     Types.is_fragile := true;
     Types.requires_custom_text := true;
     Types.created_at := "2026-01-01T00:00:00+00:00";
     Types.updated_at := "2026-01-01T00:00:00+00:00" |}.

Definition chips : Types.Product :=
  {| Types.id := "c41d7b52-6e0f-4a8b-b3c9-7d2e5f1a0b64";
     Types.name := "Masala Chips";
     Types.description := None;
     Types.category := Types.snacks;
     Types.price := "50.00";
     Types.image_url := None;
     Types.is_available := true;
     Types.available_from := None;
     Types.available_until := None;
     Types.is_fragile := false;
     Types.requires_custom_text := false;
     Types.created_at := "2026-01-01T00:00:00+00:00";
     Types.updated_at := "2026-01-01T00:00:00+00:00" |}.

(** Two cakes with a message, then one more cake with the same message
    written differently, ordered later. *)
Definition addTwoCakes : AddItemPayload.t :=
  {| AddItemPayload.product := cake;
     AddItemPayload.quantity := Some (Js.of_Z 2);
     AddItemPayload.custom_message := Some "Happy Birthday";
     AddItemPayload.is_preorder := Some true |}.

Definition addOneMoreCake : AddItemPayload.t :=
  {| AddItemPayload.product := cake;
     AddItemPayload.quantity := None;
     AddItemPayload.custom_message := Some " happy birthday ";
     AddItemPayload.is_preorder := None |}.

Definition addChips : AddItemPayload.t :=
  {| AddItemPayload.product := chips;
     AddItemPayload.quantity := Some (Js.of_Z 1);
     AddItemPayload.custom_message := None;
     AddItemPayload.is_preorder := None |}.

Definition cakeKey : string :=
  "5f0c2a8e-1b7d-4c3a-9e21-0a4b6c8d9e10::happy birthday".

(** The line that [addTwoCakes] creates. *)
Definition cakeLine : CartItem :=
  {| cartItemId := cakeKey;
     product := cake;
     quantity := Js.of_Z 2;
     custom_message := Some "Happy Birthday";
     is_fragile := true;
     is_preorder := true |}.

(** A mixed cart: chips for now, cakes for later. *)
Definition mixedCart : CartState :=
  addItem addTwoCakes (addItem addChips initialState).

(** ** The server side *)

Import Supabase ProcessOrder.

(** A host in the UTC zone, with its reading of the timestamps used in the
    examples. *)
Definition utcHost : Js.Host :=
  {| Js.Date_parse := fun s =>
       if String.eqb s "2026-01-15T23:00:00.000Z" then Some 1768518000000%Z
       else if String.eqb s "2026-01-15T14:00:00.000Z" then Some 1768485600000%Z
       else if String.eqb s "2026-01-15T02:00:00.000Z" then Some 1768442400000%Z
       else None;
     Js.LocalTime := fun t => t |}.

Definition env : Env :=
  {| host := utcHost;
     clock := 1768483500000;            (* 2026-01-15T13:25:00.000Z *)
     supabase_configured := true;
     upload_token := "1768483500000-k3x9q2m";
     upload_fails := false;
     publicUrl := fun fileName =>
       ("https://hxd.supabase.co/storage/v1/object/public/order-receipts/"
        ++ fileName)%string;
     orders_insert_fails := false;
     generated_id := "8a6e0d1c-3f52-4b7e-9c08-2d4f6a8b0c1e";
     order_items_insert_fails := false |}.

(** The items of the second fee example of the specification. *)
Definition fragileAndPlain : list SerializedCartItem :=
  [ {| product := {| id := Types.id cake; name := "Chocolate Cake";
                     price := "100.00"; is_fragile := true |};
       quantity := Js.of_Z 1; custom_message := None; is_preorder := false |};
    {| product := {| id := Types.id chips; name := "Masala Chips";
                     price := "50.00"; is_fragile := false |};
       quantity := Js.of_Z 1; custom_message := None; is_preorder := false |} ].

Definition formWith (cart : CartJson) : FormData.t :=
  {| FormData.customer_name := Some (EntryString "Ayesha Khan");
     FormData.customer_phone := Some (EntryString "0312 3456789");
     FormData.address_line1 := Some (EntryString "12 Mall Road");
     FormData.address_line2 := None;
     FormData.address_city := Some (EntryString "Lahore");
     FormData.payment_method := Some (EntryString "cash_on_delivery");
     FormData.requested_delivery_time := None;
     FormData.cart_items := cart;
     FormData.payment_receipt := None |}.

(** No order yet; the settings row as seeded, and with the delivery fee
    raised to 200. *)
Definition seeded : Database :=
  {| orders := []; order_items := []; order_receipts := [];
     settings := Some {| current_delivery_fee := "150.00";
                         current_fragile_fee := "100.00" |} |}.

Definition raised : Database :=
  {| orders := []; order_items := []; order_receipts := [];
     settings := Some {| current_delivery_fee := "200.00";
                         current_fragile_fee := "100.00" |} |}.

(** A line of one bag of chips at the given price text. *)
Definition chipsPriced (priceText : string) : CartItem :=
  {| cartItemId := (Types.id chips ++ "::")%string;
     CartStore.product :=
       {| Types.id := Types.id chips; Types.name := Types.name chips;
          Types.description := None; Types.category := Types.snacks;
          Types.price := priceText; Types.image_url := None;
          Types.is_available := true; Types.available_from := None;
          Types.available_until := None; Types.is_fragile := false;
          Types.requires_custom_text := false;
          Types.created_at := Types.created_at chips;
          Types.updated_at := Types.updated_at chips |};
     CartStore.quantity := Js.of_Z 1;
     CartStore.custom_message := None;
     CartStore.is_fragile := false;
     CartStore.is_preorder := false |}.

(** The state of the checkout form as the customer filled it. *)
Definition filledForm : CheckoutPage.FormState :=
  {| CheckoutPage.customerName := "Ayesha Khan";
     CheckoutPage.customerPhone := "0312 3456789";
     CheckoutPage.addressLine1 := "12 Mall Road";
     CheckoutPage.addressLine2 := "";
     CheckoutPage.addressCity := "Lahore";
     CheckoutPage.paymentMethod := "cash_on_delivery";
     CheckoutPage.deliveryTime := "";
     CheckoutPage.deliveryTimeError := "";
     CheckoutPage.receiptFile := None |}.

Definition checkoutPage : CheckoutPage.Page :=
  {| CheckoutPage.cart := mixedCart;
     CheckoutPage.database := seeded;
     CheckoutPage.route := None;
     CheckoutPage.serverError := None;
     CheckoutPage.fieldErrors := None |}.

End Samples.

(* ================================================================== *)
(** * Vocabulary of the further properties of the cart                 *)
(* ================================================================== *)

Module CartProps.

Import CartStore.

(** The line that [addItem] creates for a payload whose key is new. *)
Definition newLine (payload : AddItemPayload.t) : CartItem :=
  {| cartItemId := Props.incomingId payload;
     product := AddItemPayload.product payload;
     quantity := Props.callQuantity payload;
     custom_message :=
       match AddItemPayload.custom_message payload with
       | Some m => if Js.isEmpty (Js.trim m) then None else Some (Js.trim m)
       | None => None
       end;
     is_fragile := Types.is_fragile (AddItemPayload.product payload);
     is_preorder := default false (AddItemPayload.is_preorder payload) |}.

(** The normalised message that enters a key. *)
Definition normalise (custom_message : option string) : string :=
  Js.toLowerCase (Js.trim (default "" custom_message)).

(** The fragile flag of a line is the one of its product snapshot. *)
Definition denormalised (item : CartItem) : Prop :=
  is_fragile item = Types.is_fragile (product item).

(** The stored message of a line is absent, or trimmed and not empty. *)
Definition messageStored (item : CartItem) : Prop :=
  match custom_message item with
  | None => True
  | Some t => Js.trim t = t /\ t <> ""
  end.

End CartProps.

(* ================================================================== *)
(** * Vocabulary of the further properties of the order action         *)
(* ================================================================== *)

Module OrderProps.

Import Supabase ProcessOrder.

(** The three messages of [validateDeliveryTime]. *)
Definition invalidTime : string := "Please select a valid delivery time.".
Definition tooEarly : string :=
  "Delivery time must be at least 30 minutes from now.".
Definition outsideWindow : string :=
  "Delivery is only available between 10:00 AM and 11:00 PM.".

(** The failure returned when the order row cannot be inserted. *)
Definition orderNotPlaced : Outcome :=
  Returns (Failure "We could not place your order. Please try again." None).

(** Step 4 of [processOrder]: the receipt is uploaded for a bank transfer
    with a non-empty file; [None] is a failed upload, otherwise the public
    URL of the receipt, if any, and the stored data after the step. *)
Definition receiptStep (env : Env) (paymentMethod : string)
    (receiptFile : option FormDataEntryValue) (db : Database)
    : option (option string * Database) :=
  match receiptFile with
  | Some (EntryFile f) =>
      if String.eqb paymentMethod "online_transfer" && (0 <? file_size f)%Z
      then
        let ext := extension (file_name f) in
        let fileName :=
          ("receipts/" ++ upload_token env ++ "." ++ ext)%string in
        let '(uploadError, db1) := upload (upload_fails env) fileName f db in
        if uploadError then None
        else Some (Some (publicUrl env fileName), db1)
      else Some (None, db)
  | _ => Some (None, db)
  end.

(** The payload of step 5. *)
Definition orderPayload (formData : FormData.t)
    (items : list SerializedCartItem) (isPreorder : bool)
    (requestedDeliveryTime : option Z) (receiptUrl : option string)
    : OrderInsert.t :=
  {| OrderInsert.customer_name := sanitize (FormData.customer_name formData);
     OrderInsert.customer_phone := sanitize (FormData.customer_phone formData);
     OrderInsert.address :=
       {| line1 := sanitize (FormData.address_line1 formData);
          line2 := if Js.isEmpty (sanitize (FormData.address_line2 formData))
                   then None
                   else Some (sanitize (FormData.address_line2 formData));
          city := sanitize (FormData.address_city formData) |};
     OrderInsert.status := pending;
     OrderInsert.payment_method := sanitize (FormData.payment_method formData);
     OrderInsert.payment_receipt_url := receiptUrl;
     OrderInsert.subtotal := Js.toFixed2 (subtotal items);
     OrderInsert.base_delivery_fee := Js.toFixed2 Fees.BASE_DELIVERY_FEE;
     OrderInsert.fragile_item_fee := Js.toFixed2 (fragileItemFee items);
     OrderInsert.is_preorder := isPreorder;
     OrderInsert.requested_delivery_time := requestedDeliveryTime |}.

(** The payloads of step 6. *)
Definition itemPayloads (orderId : string) (items : list SerializedCartItem)
    : list OrderItemInsert.t :=
  map (fun item =>
         {| OrderItemInsert.order_id := orderId;
            OrderItemInsert.product_id := id (product item);
            OrderItemInsert.quantity := quantity item;
            OrderItemInsert.price_at_purchase := price (product item);
            OrderItemInsert.custom_message :=
              match custom_message item with
              | Some m => let t := Js.trim m in
                          if Js.isEmpty t then None else Some t
              | None => None
              end |})
    items.

(** All the field errors of a submission with the given items. *)
Definition allFieldErrors (env : Env) (formData : FormData.t)
    (items : list SerializedCartItem) : list (string * string) :=
  contactErrors (sanitize (FormData.customer_name formData))
    (sanitize (FormData.customer_phone formData))
    (sanitize (FormData.address_line1 formData))
    (sanitize (FormData.address_city formData))
    (sanitize (FormData.payment_method formData))
  ++ (preorderCheck env items
        (sanitize (FormData.requested_delivery_time formData))).1.1
  ++ receiptErrors (sanitize (FormData.payment_method formData))
       (FormData.payment_receipt formData).

(** The stored data with another settings row. *)
Definition withSettings (s : option Settings) (db : Database) : Database :=
  {| orders := orders db;
     order_items := order_items db;
     order_receipts := order_receipts db;
     settings := s |}.

End OrderProps.

(* ================================================================== *)
(** * Further sample data                                              *)
(* ================================================================== *)

Module MoreSamples.

Import Supabase ProcessOrder.

(** One cake with a message, ordered for later. *)
Definition cakeForLater : list SerializedCartItem :=
  [ {| product := {| id := Types.id Samples.cake; name := "Chocolate Cake";
                     price := "100.00"; is_fragile := true |};
       quantity := Js.of_Z 1;
       custom_message := Some "  Happy Birthday ";
       is_preorder := true |} ].

(** A receipt of 120 kB. *)
Definition receipt : File :=
  {| file_name := "transfer.receipt.png";
     file_size := 122880;
     file_type := "image/png" |}.

(** The form of a bank transfer for the cake, asked for 14:00. *)
Definition transferForm : FormData.t :=
  {| FormData.customer_name := Some (EntryString "Ayesha Khan");
     FormData.customer_phone := Some (EntryString "+92 312 3456789");
     FormData.address_line1 := Some (EntryString "12 Mall Road");
     FormData.address_line2 := Some (EntryString "  ");
     FormData.address_city := Some (EntryString "Lahore");
     FormData.payment_method := Some (EntryString "online_transfer");
     FormData.requested_delivery_time :=
       Some (EntryString "2026-01-15T14:00:00.000Z");
     FormData.cart_items := CartArray cakeForLater;
     FormData.payment_receipt := Some (EntryFile receipt) |}.

(** The same form, paid on delivery, with the receipt still attached. *)
Definition cashForm : FormData.t :=
  {| FormData.customer_name := Some (EntryString "Ayesha Khan");
     FormData.customer_phone := Some (EntryString "+92 312 3456789");
     FormData.address_line1 := Some (EntryString "12 Mall Road");
     FormData.address_line2 := Some (EntryString "  ");
     FormData.address_city := Some (EntryString "Lahore");
     FormData.payment_method := Some (EntryString "cash_on_delivery");
     FormData.requested_delivery_time :=
       Some (EntryString "2026-01-15T14:00:00.000Z");
     FormData.cart_items := CartArray cakeForLater;
     FormData.payment_receipt := Some (EntryFile receipt) |}.

(** An environment in which the insert of the order items fails. *)
Definition itemsFailing : Env :=
  {| host := host Samples.env;
     clock := clock Samples.env;
     supabase_configured := true;
     upload_token := upload_token Samples.env;
     upload_fails := false;
     publicUrl := publicUrl Samples.env;
     orders_insert_fails := false;
     generated_id := generated_id Samples.env;
     order_items_insert_fails := true |}.

End MoreSamples.

(* ================================================================== *)
(** * components/CheckoutWizard.tsx                                    *)
(* ================================================================== *)

Module CheckoutWizard.

(** The class [[\s\-()]]. *)
Definition isSeparator (c : ascii) : bool :=
  Js.isWhiteSpace c
  || (Js.code c =? 45)%N || (Js.code c =? 40)%N || (Js.code c =? 41)%N.

(** [phone.replace(/[\s\-()]/g, '')] *)
Fixpoint removeSeparators (s : string) : string :=
  match s with
  | EmptyString => EmptyString
  | String c r =>
      if isSeparator c then removeSeparators r
      else String c (removeSeparators r)
  end.

Record PhoneValidation : Type := {
  valid : bool;
  message : option string;
}.

Definition validatePakistanPhone (phone : string) : PhoneValidation :=
  let cleaned := removeSeparators phone in
  if String.prefix "+92" cleaned then
    if (String.length cleaned =? 13)%nat
       && match cleaned with
          | String "+" (String "9" (String "2" r)) =>
              ProcessOrder.digitsToEnd 10 r
          | _ => false
          end
    then {| valid := true; message := None |}
    else {| valid := false;
            message := Some "Format: +92XXXXXXXXXX (13 digits)" |}
  else if String.prefix "03" cleaned then
    if (String.length cleaned =? 11)%nat
       && match cleaned with
          | String "0" (String "3" r) => ProcessOrder.digitsToEnd 9 r
          | _ => false
          end
    then {| valid := true; message := None |}
    else {| valid := false;
            message := Some "Format: 03XXXXXXXXX (11 digits)" |}
  else if String.prefix "3" cleaned then
    if (String.length cleaned =? 10)%nat
       && match cleaned with
          | String "3" r => ProcessOrder.digitsToEnd 9 r
          | _ => false
          end
    then {| valid := true; message := None |}
    else {| valid := false;
            message := Some "Format: 3XXXXXXXXX (10 digits)" |}
  else {| valid := false;
          message := Some "Enter Pakistan phone: +923XX, 03XX, or 3XX" |}.

End CheckoutWizard.

(* ================================================================== *)
(** * Vocabulary of the properties of the phone checks                 *)
(* ================================================================== *)

Module PhoneProps.

(** Nine decimal digits. *)
Definition nineDigits (d : string) : Prop :=
  ProcessOrder.digitsToEnd 9 d = true.

(** Ten decimal digits. *)
Definition tenDigits (d : string) : Prop :=
  ProcessOrder.digitsToEnd 10 d = true.

End PhoneProps.

(* ================================================================== *)
(** * app/checkout/page.tsx: the amounts shown by the form             *)
(* ================================================================== *)

Module CheckoutForm.

Definition batchHasFragile (items : list CartStore.CartItem) : bool :=
  Js.some CartStore.is_fragile items.

Definition subtotal (items : list CartStore.CartItem) : Js.number :=
  CartStore.calcSubtotalForItems items.

Definition fragileExtra (items : list CartStore.CartItem) : Js.number :=
  if batchHasFragile items then Fees.FRAGILE_ITEM_FEE else Js.zero.

Definition grandTotal (items : list CartStore.CartItem) : Js.number :=
  Js.add (Js.add (subtotal items) Fees.BASE_DELIVERY_FEE)
    (fragileExtra items).

End CheckoutForm.

(* ================================================================== *)
(** * actions/updateOrderStatus.ts                                     *)
(* ================================================================== *)

Module UpdateOrderStatus.

Import Supabase.

Definition ADMIN_STATUSES : list string :=
  ["pending"; "confirmed"; "preparing"; "out_for_delivery"; "delivered";
   "cancelled"; "refunded"].

Inductive UpdateStatusResult : Type :=
| Success
| Failure (error : string).

(** A call either returns a result or throws. *)
Inductive Outcome : Type :=
| Returns (r : UpdateStatusResult)
| Throws.

(** A row of [orders] with the two timestamps of the table. *)
Record StoredOrder : Type := {
  columns : Order.t;
  created_at : Z;
  updated_at : Z;
}.

(** What is decided outside the action: whether the service client can be
    created (the two environment variables are set); how the database
    reads a text as a value of type UUID ([None] when it is none, otherwise
    the text the database writes that value as); the time of the
    transaction ([NOW()]); and an error of the update that does not come
    from the schema. *)
Record Env : Type := {
  supabase_configured : bool;
  uuid_in : string -> option Types.UUID;
  now : Z;
  update_fails : bool;
}.

(** A text read as a label of the enum [order_status]. *)
Definition status_of_text (s : string) : option OrderStatus :=
  if String.eqb s "pending" then Some pending
  else if String.eqb s "confirmed" then Some confirmed
  else if String.eqb s "preparing" then Some preparing
  else if String.eqb s "out_for_delivery" then Some out_for_delivery
  else if String.eqb s "delivered" then Some delivered
  else if String.eqb s "cancelled" then Some cancelled
  else if String.eqb s "refunded" then Some refunded
  else None.

Definition withStatus (st : OrderStatus) (o : Order.t) : Order.t :=
  {| Order.id := Order.id o;
     Order.customer_name := Order.customer_name o;
     Order.customer_phone := Order.customer_phone o;
     Order.address := Order.address o;
     Order.status := st;
     Order.payment_method := Order.payment_method o;
     Order.payment_receipt_url := Order.payment_receipt_url o;
     Order.subtotal := Order.subtotal o;
     Order.base_delivery_fee := Order.base_delivery_fee o;
     Order.fragile_item_fee := Order.fragile_item_fee o;
     Order.total_amount := Order.total_amount o;
     Order.is_preorder := Order.is_preorder o;
     Order.requested_delivery_time := Order.requested_delivery_time o |}.

(** A row after an update of its status: the trigger
    [set_updated_at_orders] stamps it with the time of the transaction. *)
Definition updatedRow (env : Env) (st : OrderStatus) (r : StoredOrder)
    : StoredOrder :=
  {| columns := withStatus st (columns r);
     created_at := created_at r;
     updated_at := now env |}.

(** [update({ status }).eq('id', orderId)] on [orders]: the rows whose id
    is the UUID given take the status, and the trigger stamps them. A text
    that is no label of the enum, or an id that is no UUID, is an error.
    The result is [true] for an error, which leaves the table as it
    was. *)
Definition update_status (env : Env) (orderId : string) (status : string)
    (table : list StoredOrder) : bool * list StoredOrder :=
  match status_of_text status, uuid_in env orderId with
  | Some st, Some key =>
      if update_fails env then (true, table)
      else
        (false,
         map (fun r => if String.eqb (Order.id (columns r)) key
                       then updatedRow env st r else r)
           table)
  | _, _ => (true, table)
  end.

Definition updateOrderStatus (env : Env) (orderId : string)
    (newStatus : string) (table : list StoredOrder)
    : Outcome * list StoredOrder :=
  if negb (Js.includes ADMIN_STATUSES newStatus) then
    (Returns (Failure "Invalid status."), table)
  else if negb (supabase_configured env) then (Throws, table)
  else
    let '(error, table') := update_status env orderId newStatus table in
    if error
    then (Returns (Failure "Failed to update status. Try again."), table')
    else (Returns Success, table').

End UpdateOrderStatus.

(* ================================================================== *)
(** * actions/updateFragileFee.ts: the update                          *)
(* ================================================================== *)

Module PgText.

Import Supabase.

Definition digitChar (d : Z) : ascii := ascii_of_N (48 + Z.to_N d).

(** The text of a NUMERIC(10,2) value as the client returns it: an
    optional sign, the integer part without leading zeros, a dot and two
    digits. *)
Definition numeric_text (x : PgNumeric) : string :=
  match x with
  | PgNaN => "NaN"
  | PgCents c =>
      let a := Z.abs c in
      ((if (c <? 0)%Z then "-" else "")
       ++ NilZero.string_of_uint (N.to_uint (Z.to_N (a / 100)))
       ++ "."
       ++ String (digitChar (a / 10 mod 10))
            (String (digitChar (a mod 10)) ""))%string
  end.

End PgText.

Module UpdateFragileFeeAction.

Import Supabase PgText.

Inductive UpdateFragileFeeResult : Type :=
| Success (updatedFee : Js.number)
| Failure (error : string).

(** [Number.isFinite] *)
Definition Number_isFinite (x : Js.number) : bool :=
  match x with
  | S754_zero _ | S754_finite _ _ _ => true
  | _ => false
  end.

(** The literal [9_999.99]. *)
Definition MAX_FEE : Js.number := Js.number_of_decimal false 999999 (-2).

(** [update({ current_fragile_fee: text }).eq('is_singleton', true)] on
    [settings]: the text is read into the NUMERIC(10,2) column and the
    CHECK of the column applies to the row updated; without a row nothing
    is updated and nothing is reported. [fails] is an error decided
    outside the schema. The result is [true] for an error, which leaves
    the table as it was. *)
Definition update_fragile_fee (fails : bool) (text : Js.FixedText)
    (db : Database) : bool * Database :=
  match numeric_of_text text with
  | None => (true, db)
  | Some v =>
      if fails then (true, db)
      else
        match settings db with
        | None => (false, db)
        | Some row =>
            if numeric_nonneg v then
              (false,
               {| orders := orders db;
                  order_items := order_items db;
                  order_receipts := order_receipts db;
                  settings :=
                    Some {| current_delivery_fee := current_delivery_fee row;
                            current_fragile_fee := numeric_text v |} |})
            else (true, db)
        end
  end.

Definition updateFragileFee (update_fails : bool) (newFee : Js.number)
    (db : Database) : UpdateFragileFeeResult * Database :=
  if negb (Number_isFinite newFee) then
    (Failure "Fee must be a valid number.", db)
  else if SFltb newFee Js.zero then
    (Failure "Fee cannot be negative.", db)
  else if SFltb MAX_FEE newFee then
    (Failure "Fee cannot exceed Rs. 9,999.99.", db)
  else
    let '(error, db') :=
      update_fragile_fee update_fails (Js.toFixed2 newFee) db in
    if error
    then (Failure "Database update failed. Please try again.", db')
    else (Success newFee, db').

End UpdateFragileFeeAction.

(* ================================================================== *)
(** * types/database.ts: the time window of a product                  *)
(* ================================================================== *)

Module Availability.

Import Types.

(** The order of [<] and [<=] on strings: by code units, a proper prefix
    first. *)
Fixpoint compareStrings (a b : string) : comparison :=
  match a, b with
  | EmptyString, EmptyString => Eq
  | EmptyString, String _ _ => Lt
  | String _ _, EmptyString => Gt
  | String x a', String y b' =>
      match N.compare (Js.code x) (Js.code y) with
      | Eq => compareStrings a' b'
      | c => c
      end
  end.

(** [a <= b] on strings *)
Definition leString (a b : string) : bool :=
  match compareStrings a b with Gt => false | _ => true end.

Definition getSeconds (h : Js.Host) (t : Z) : Z :=
  ((Js.LocalTime h t / 1000) mod 60)%Z.

(** [String(n).padStart(2, '0')] for an integer that is not negative *)
Definition pad (n : Z) : string :=
  let s := NilZero.string_of_uint (N.to_uint (Z.to_N n)) in
  match s with
  | EmptyString => "00"
  | String _ EmptyString => String "0" s
  | _ => s
  end.

(** The template string of the current time; the three parts of an
    invalid date are NaN. *)
Definition currentTime (h : Js.Host) (now : Js.Date) : string :=
  match now with
  | Some t =>
      (pad (Js.getHours h t) ++ ":" ++ pad (Js.getMinutes h t) ++ ":"
       ++ pad (getSeconds h t))%string
  | None => "NaN:NaN:NaN"
  end.

(** [!value] for a text that may be null *)
Definition falsy (value : option string) : bool :=
  match value with
  | None => true
  | Some s => Js.isEmpty s
  end.

Definition isProductAvailableNow (h : Js.Host) (product : Product)
    (now : Js.Date) : bool :=
  if negb (is_available product) then false
  else if falsy (available_from product) && falsy (available_until product)
  then true
  else
    let from := default "00:00:00" (available_from product) in
    let until := default "23:59:59" (available_until product) in
    leString from (currentTime h now) && leString (currentTime h now) until.

End Availability.

(* ================================================================== *)
(** * Vocabulary of the properties of the time window                  *)
(* ================================================================== *)

Module AvailabilityProps.

Import Availability.

(** A time of day written the way the database returns a TIME. *)
Definition timeText (hh mm ss : Z) : string :=
  (pad hh ++ ":" ++ pad mm ++ ":" ++ pad ss)%string.

Definition secondOfDay (hh mm ss : Z) : Z := (hh * 3600 + mm * 60 + ss)%Z.

(** The second of the day of a time value in the zone of the host. *)
Definition secondNow (h : Js.Host) (t : Z) : Z :=
  secondOfDay (Js.getHours h t) (Js.getMinutes h t) (getSeconds h t).

(** Hours up to 23, minutes and seconds up to 59. *)
Definition timeOfDay (hh mm ss : Z) : Prop :=
  (0 <= hh <= 23 /\ 0 <= mm <= 59 /\ 0 <= ss <= 59)%Z.

(** The numbers of two digits. *)
Definition twoDigits : list Z := map Z.of_nat (seq 0 100).

End AvailabilityProps.

(* ================================================================== *)
(** * Sample data for the status of an order                           *)
(* ================================================================== *)

Module StatusSamples.

Import Supabase UpdateOrderStatus.

(** The orders table after the sample order was placed at 13:25. *)
Definition table : list StoredOrder :=
  map (fun o => {| columns := o;
                   created_at := 1768483500000;
                   updated_at := 1768483500000 |})
    (orders
       (ProcessOrder.processOrder Samples.env
          (Samples.formWith
             (ProcessOrder.CartArray Samples.fragileAndPlain))
          Samples.seeded).2).

(** Ten minutes later; the database knows the id of the sample order,
    also when it is written in capitals. *)
Definition env : Env :=
  {| supabase_configured := true;
     uuid_in := fun s =>
       if String.eqb s "8a6e0d1c-3f52-4b7e-9c08-2d4f6a8b0c1e"
          || String.eqb s "8A6E0D1C-3F52-4B7E-9C08-2D4F6A8B0C1E"
       then Some "8a6e0d1c-3f52-4b7e-9c08-2d4f6a8b0c1e"
       else None;
     now := 1768484100000;
     update_fails := false |}.

End StatusSamples.

(* ================================================================== *)
(** * Strings and arrays                                               *)
(* ================================================================== *)

Section Builtins.

Import Js.

Lemma isEmpty_eq (s : string) : isEmpty s = true <-> s = "".
Proof. destruct s; simpl; split; congruence. Qed.

Lemma trimStart_head (s : string) :
  trimStart s = ""
  \/ exists c r, trimStart s = String c r /\ isWhiteSpace c = false.
Proof.
  induction s as [|c r IH]; simpl; [by left|].
  destruct (isWhiteSpace c) eqn:Hc; [done|].
  right. by exists c, r.
Qed.

Lemma trimEnd_idem (s : string) : trimEnd (trimEnd s) = trimEnd s.
Proof.
  induction s as [|c r IH]; simpl; [done|].
  destruct (isWhiteSpace c && isEmpty (trimEnd r)) eqn:Hc; simpl; [done|].
  by rewrite IH, Hc.
Qed.

Lemma trimEnd_head (c : ascii) (r : string) :
  isWhiteSpace c = false -> trimEnd (String c r) = String c (trimEnd r).
Proof. intros Hc. simpl. by rewrite Hc. Qed.

(** Trimming twice is trimming once. *)
Lemma trim_idem (s : string) : trim (trim s) = trim s.
Proof.
  unfold trim.
  destruct (trimStart_head s) as [-> | (c & r & -> & Hc)]; [done|].
  rewrite trimEnd_head by done. simpl. rewrite Hc. simpl.
  rewrite Hc. simpl. by rewrite trimEnd_idem.
Qed.

(** [findIndex] answers -1 exactly when no element satisfies the test;
    otherwise it is the position of the first element that does. *)
Lemma findIndex_cases {A : Type} (p : A -> bool) (l : list A) :
  (findIndex p l = (-1)%Z /\ Forall (fun x => p x = false) l)
  \/ (exists i x, findIndex p l = Z.of_nat i /\ l !! i = Some x
                  /\ p x = true /\ Forall (fun y => p y = false) (take i l)).
Proof.
  induction l as [|x xs IH]; simpl.
  - left. by split.
  - destruct (p x) eqn:Hx.
    + right. exists 0%nat, x. simpl. by repeat split.
    + destruct IH as [[E Hall] | (i & y & E & Hl & Hy & Hall)].
      * left. rewrite E. simpl. split; [done|]. by constructor.
      * right. exists (S i), y. rewrite E.
        destruct (Z.of_nat i =? -1)%Z eqn:E'; [lia|].
        simpl. repeat split; [lia|done|done|by constructor].
Qed.

Lemma map_alter_fixed {A B : Type} (f : A -> B) (g : A -> A) (i : nat)
    (l : list A) :
  (forall x, f (g x) = f x) -> map f (alter g i l) = map f l.
Proof.
  intros Hfg. revert i.
  induction l as [|x xs IH]; intros [|i]; simpl; try done.
  - by rewrite Hfg.
  - f_equal. apply IH.
Qed.

Lemma Forall_bool_filter {A : Type} (P : A -> Prop) (p : A -> bool)
    (l : list A) :
  Forall P l -> Forall P (List.filter p l).
Proof.
  induction 1 as [|x xs Hx _ IH]; simpl; [done|].
  destruct (p x); [by constructor | done].
Qed.

Lemma bool_filter_sublist {A : Type} (p : A -> bool) (l : list A) :
  sublist (List.filter p l) l.
Proof.
  induction l as [|x xs IH]; simpl.
  - constructor.
  - destruct (p x); by constructor.
Qed.

Lemma NoDup_map_bool_filter {A B : Type} (f : A -> B) (p : A -> bool)
    (l : list A) :
  NoDup (map f l) -> NoDup (map f (List.filter p l)).
Proof.
  intros Hnd. apply (sublist_NoDup _ _ Hnd).
  apply (fmap_sublist f), bool_filter_sublist.
Qed.

(** The built-ins on the values that the sources and the specification
    quote. *)
Example parseFloat_values :
  parseFloat "100.00" = of_Z 100
  /\ parseFloat "  12abc" = of_Z 12
  /\ parseFloat "abc" = NaN
  /\ parseFloat "" = NaN
  /\ parseFloat "-0" = S754_zero true
  /\ parseFloat ".5" = div (of_Z 1) (of_Z 2).
Proof. split_and!; vm_compute; reflexivity. Qed.

Example toFixed2_values :
  toFixed2 (of_Z 150) = FixedDecimal false 15000
  /\ toFixed2 (parseFloat "1.005") = FixedDecimal false 100
  /\ toFixed2 (parseFloat "0.125") = FixedDecimal false 13
  /\ toFixed2 (add (parseFloat "0.1") (parseFloat "0.2"))
     = FixedDecimal false 30
  /\ toFixed2 (parseFloat "-0.001") = FixedDecimal true 0
  /\ toFixed2 (parseFloat "1e21") = FixedNonDecimal
  /\ toFixed2 NaN = FixedNaN.
Proof. split_and!; vm_compute; reflexivity. Qed.

Example Math_round_values :
  Math_round (parseFloat "2.5") = of_Z 3
  /\ Math_round (parseFloat "-2.5") = of_Z (-2)
  /\ Math_round (parseFloat "-0.2") = S754_zero true
  /\ Math_round (parseFloat "0.49999999999999994") = zero.
Proof. split_and!; vm_compute; reflexivity. Qed.

Example buildCartItemId_values :
  CartStore.buildCartItemId "abc-123" (Some "Happy Birthday")
  = "abc-123::happy birthday"
  /\ CartStore.buildCartItemId "abc-123" (Some " happy birthday ")
     = "abc-123::happy birthday"
  /\ CartStore.buildCartItemId "abc-123" None = "abc-123::".
Proof. split_and!; reflexivity. Qed.

End Builtins.

(* ================================================================== *)
(** * The partitioner                                                  *)
(* ================================================================== *)

Section Partitioner.

Import CartStore Props.

Lemma splitLoop_from (items acc_i acc_p : list CartItem) :
  fold_left
    (fun '(instantItems, preorderItems) item =>
       if is_preorder item
       then (instantItems, preorderItems ++ [item])
       else (instantItems ++ [item], preorderItems))
    items (acc_i, acc_p)
  = (acc_i ++ instantOnly items, acc_p ++ preorderOnly items).
Proof.
  revert acc_i acc_p.
  induction items as [|x xs IH]; intros acc_i acc_p; simpl.
  - by rewrite !app_nil_r.
  - destruct (is_preorder x); rewrite IH; simpl;
      by rewrite <- ?app_assoc.
Qed.

Lemma splitLoop_filters (items : list CartItem) :
  splitLoop items = (instantOnly items, preorderOnly items).
Proof. unfold splitLoop. by rewrite splitLoop_from. Qed.

Lemma splitCartIntoTwo_instantItems (items : list CartItem) :
  instantItems (splitCartIntoTwo items) = instantOnly items.
Proof. unfold splitCartIntoTwo. by rewrite splitLoop_filters. Qed.

Lemma splitCartIntoTwo_preorderItems (items : list CartItem) :
  preorderItems (splitCartIntoTwo items) = preorderOnly items.
Proof. unfold splitCartIntoTwo. by rewrite splitLoop_filters. Qed.

Lemma filter_complement_perm {A : Type} (p : A -> bool) (l : list A) :
  List.filter (fun x => negb (p x)) l ++ List.filter p l ≡ₚ l.
Proof.
  induction l as [|x xs IH]; simpl; [done|].
  destruct (p x); simpl.
  - rewrite <- Permutation_middle. by constructor.
  - by constructor.
Qed.

Lemma elem_of_bool_filter {A : Type} (p : A -> bool) (l : list A) (x : A) :
  x ∈ List.filter p l <-> x ∈ l /\ p x = true.
Proof. rewrite !list_elem_of_In. apply filter_In. Qed.

(** C2. [splitCartIntoTwo] sends every line with [is_preorder = false] to
    [instantItems] and every line with [is_preorder = true] to
    [preorderItems]: each output is the input filtered on the flag, so no
    line is in both, each output keeps the order of the input, the two
    together are a permutation of the input (nothing dropped, duplicated
    or changed), and their lengths add up to the length of the input. *)
Theorem splitCartIntoTwo_partitions (items : list CartItem) :
  let split := splitCartIntoTwo items in
  instantItems split = List.filter (fun item => negb (is_preorder item)) items
  /\ preorderItems split = List.filter is_preorder items
  /\ (forall item, item ∈ instantItems split <->
                   item ∈ items /\ is_preorder item = false)
  /\ (forall item, item ∈ preorderItems split <->
                   item ∈ items /\ is_preorder item = true)
  /\ (forall item, item ∈ instantItems split -> item ∉ preorderItems split)
  /\ sublist (instantItems split) items
  /\ sublist (preorderItems split) items
  /\ instantItems split ++ preorderItems split ≡ₚ items
  /\ (length (instantItems split) + length (preorderItems split)
      = length items)%nat.
Proof.
  intros split. subst split.
  rewrite splitCartIntoTwo_instantItems, splitCartIntoTwo_preorderItems.
  unfold instantOnly, preorderOnly.
  split_and!.
  - done.
  - done.
  - intros item. by rewrite elem_of_bool_filter, negb_true_iff.
  - intros item. apply elem_of_bool_filter.
  - intros item [_ Hi]%elem_of_bool_filter [_ Hp]%elem_of_bool_filter.
    rewrite Hp in Hi. discriminate.
  - apply bool_filter_sublist.
  - apply bool_filter_sublist.
  - apply filter_complement_perm.
  - rewrite <- length_app. by rewrite filter_complement_perm.
Qed.

End Partitioner.

(* ================================================================== *)
(** * The cart store                                                   *)
(* ================================================================== *)

Section Cart.

Import CartStore Props.

Lemma keyed_withQuantity (q : Js.number) (item : CartItem) :
  keyed item -> keyed (withQuantity q item).
Proof. done. Qed.

(** The identity of a line that [addItem] creates is the key it was given:
    the stored message is the trimmed one, and trimming it again changes
    nothing. *)
Lemma stored_message_identity (productId : Types.UUID) (m : option string) :
  buildCartItemId productId
    match m with
    | Some m0 => let t := Js.trim m0 in
                 if Js.isEmpty t then None else Some t
    | None => None
    end
  = buildCartItemId productId m.
Proof.
  unfold buildCartItemId. destruct m as [m0|]; simpl; [|done].
  destruct (Js.isEmpty (Js.trim m0)) eqn:E; simpl.
  - apply isEmpty_eq in E. by rewrite E.
  - by rewrite trim_idem.
Qed.

(** The two paths of [addItem]. *)
Lemma addItem_cases (payload : AddItemPayload.t) (state : CartState) :
  (Forall (fun item => cartItemId item <> incomingId payload) (items state)
   /\ exists line,
        items (addItem payload state) = items state ++ [line]
        /\ cartItemId line = incomingId payload
        /\ quantity line = callQuantity payload
        /\ keyed line)
  \/ (exists i existing,
        items state !! i = Some existing
        /\ cartItemId existing = incomingId payload
        /\ Forall (fun item => cartItemId item <> incomingId payload)
             (take i (items state))
        /\ items (addItem payload state)
           = alter (merged payload) i (items state)).
Proof.
  unfold addItem. fold (incomingId payload).
  destruct (findIndex_cases
              (fun item => String.eqb (cartItemId item) (incomingId payload))
              (items state))
    as [[E Hall] | (i & x & E & Hl & Hx & Hall)]; rewrite E.
  - left. simpl. split.
    + eapply Forall_impl; [exact Hall|]. intros y Hy. simpl in Hy.
      by apply String.eqb_neq.
    + eexists. split; [reflexivity|]. repeat split.
      unfold keyed, identityOf. simpl. symmetry.
      apply stored_message_identity.
  - right. exists i, x.
    replace (negb (Z.of_nat i =? -1)%Z) with true
      by (symmetry; apply negb_true_iff, Z.eqb_neq; lia).
    rewrite Nat2Z.id. simpl. repeat split; [done| |].
    + by apply String.eqb_eq.
    + eapply Forall_impl; [exact Hall|]. intros y Hy. simpl in Hy.
      by apply String.eqb_neq.
Qed.

Lemma addItem_keeps_keys_unique (payload : AddItemPayload.t)
    (state : CartState) :
  NoDup (map cartItemId (items state)) ->
  NoDup (map cartItemId (items (addItem payload state))).
Proof.
  intros Hnd.
  destruct (addItem_cases payload state)
    as [[Hall (line & -> & Hk & _)] | (i & x & _ & _ & _ & ->)].
  - rewrite map_app. simpl. apply NoDup_app. repeat split; [done| |].
    + intros k Hin Hin'. apply list_elem_of_singleton in Hin'. subst k.
      apply list_elem_of_fmap in Hin as (y & Hy & Hin).
      rewrite Forall_forall in Hall. apply (Hall y Hin). congruence.
    + apply NoDup_singleton.
  - by rewrite map_alter_fixed.
Qed.

Lemma addItem_keeps_keyed (payload : AddItemPayload.t) (state : CartState) :
  Forall keyed (items state) -> Forall keyed (items (addItem payload state)).
Proof.
  intros Hk.
  destruct (addItem_cases payload state)
    as [[_ (line & -> & _ & _ & Hline)] | (i & x & _ & _ & _ & ->)].
  - apply Forall_app. split; [done|]. by constructor.
  - rewrite Forall_lookup in Hk |- *. intros j y Hj.
    destruct (decide (i = j)) as [<-|Hne].
    + rewrite list_lookup_alter_eq in Hj.
      destruct (items state !! i) as [z|] eqn:Hz; simplify_eq/=.
      apply keyed_withQuantity. by eapply Hk.
    + rewrite list_lookup_alter_ne in Hj by done. by eapply Hk.
Qed.

Lemma map_if_withQuantity {B : Type} (f : CartItem -> B) (q : Js.number)
    (k : string) (l : list CartItem) :
  (forall item, f (withQuantity q item) = f item) ->
  map f (map (fun item => if String.eqb (cartItemId item) k
                          then withQuantity q item else item) l)
  = map f l.
Proof.
  intros Hf. rewrite map_map. apply map_ext. intros item.
  by destruct (String.eqb (cartItemId item) k).
Qed.

(** Every action of the store keeps the invariant. *)
Lemma dispatch_invariant (state : CartState) (a : CartAction) :
  storeInvariant state -> storeInvariant (dispatch state a).
Proof.
  intros [Hnd Hk]. destruct a as [p | k | p | pid |]; simpl.
  - split; [by apply addItem_keeps_keys_unique | by apply addItem_keeps_keyed].
  - split; [by apply NoDup_map_bool_filter | by apply Forall_bool_filter].
  - unfold updateQuantity.
    destruct (Js.leb _ _); simpl.
    + split; [by apply NoDup_map_bool_filter | by apply Forall_bool_filter].
    + split; simpl.
      * by rewrite map_if_withQuantity.
      * apply Forall_fmap. eapply Forall_impl; [exact Hk|].
        intros item Hitem. simpl.
        destruct (String.eqb _ _); [by apply keyed_withQuantity | done].
  - split; [by apply NoDup_map_bool_filter | by apply Forall_bool_filter].
  - split; [constructor | constructor].
Qed.

Lemma run_invariant (actions : list CartAction) (state : CartState) :
  storeInvariant state -> storeInvariant (run actions state).
Proof.
  revert state. induction actions as [|a rest IH]; intros state Hinv; simpl.
  - done.
  - apply IH. by apply dispatch_invariant.
Qed.

Lemma identities_are_keys (l : list CartItem) :
  Forall keyed l -> map identityOf l = map cartItemId l.
Proof.
  induction 1 as [|x xs Hx _ IH]; simpl; [done|]. by rewrite IH, Hx.
Qed.

Lemma linesWithKey_none (k : string) (state : CartState) :
  linesWithKey k state = [] ->
  Forall (fun item => cartItemId item <> k) (items state).
Proof.
  unfold linesWithKey. induction (items state) as [|x xs IH]; simpl.
  - constructor.
  - destruct (String.eqb (cartItemId x) k) eqn:E; [done|].
    intros H. constructor; [by apply String.eqb_neq | by apply IH].
Qed.

Lemma filter_key_absent (k : string) (l : list CartItem) :
  Forall (fun item => cartItemId item <> k) l ->
  List.filter (fun item => String.eqb (cartItemId item) k) l = [].
Proof.
  induction 1 as [|x xs Hx _ IH]; simpl; [done|].
  apply String.eqb_neq in Hx. by rewrite Hx.
Qed.

(** A call of [addItem] whose key is carried by the last line only, and by
    no line before it, adds its quantity to that line. *)
Lemma addItem_last_line (payload : AddItemPayload.t)
    (before : list CartItem) (line : CartItem) :
  Forall (fun item => cartItemId item <> incomingId payload) before ->
  cartItemId line = incomingId payload ->
  items (addItem payload {| items := before ++ [line] |})
  = before ++ [merged payload line].
Proof.
  intros Hbefore Hline.
  destruct (addItem_cases payload {| items := before ++ [line] |})
    as [[Hall _] | (i & x & Hi & Hx & Htake & ->)]; simpl in *.
  - apply Forall_app in Hall as [_ Hall]. by inversion Hall.
  - destruct (decide (i < length before)%nat) as [Hlt|Hge].
    + rewrite lookup_app_l in Hi by done.
      rewrite Forall_lookup in Hbefore. by destruct (Hbefore i x Hi).
    + apply lookup_lt_Some in Hi as Hlen. rewrite length_app in Hlen.
      simpl in Hlen. assert (i = length before + 0)%nat as -> by lia.
      by rewrite alter_app_r.
Qed.

(** Calls with one key, run on a cart whose last line alone carries that
    key, leave the cart as it was but for the quantity of that line, which
    receives the quantities of the calls in turn. *)
Lemma run_same_key (k : string) (rest : list AddItemPayload.t)
    (before : list CartItem) (line : CartItem) :
  Forall (fun p => incomingId p = k) rest ->
  Forall (fun item => cartItemId item <> k) before ->
  cartItemId line = k ->
  items (run (map AddItem rest) {| items := before ++ [line] |})
  = before
    ++ [withQuantity
          (fold_left (fun q p => Js.add q (callQuantity p)) rest
             (quantity line))
          line].
Proof.
  intros Hrest Hbefore. revert line.
  induction Hrest as [|p ps Hp _ IH]; intros line Hline; simpl.
  - by destruct line.
  - replace (addItem p {| items := before ++ [line] |})
      with {| items := before ++ [merged p line] |}.
    + rewrite IH by done. done.
    + rewrite <- (addItem_last_line p before line) by (by rewrite Hp).
      by destruct (addItem p _).
Qed.

(** C3. Whatever sequence of actions is run from the empty cart, no two
    lines have the same key, nor the same identity recomputed from the
    product id and the stored message. And a sequence of [addItem] calls
    that all have the same product id and the same normalized message, run
    on a cart with no line of that identity (the empty cart for one),
    leaves exactly one line with that key, which is also its recomputed
    identity, and whose quantity is the sum of the quantities of the
    calls. *)
Theorem one_line_per_identity :
  (forall actions : list CartAction,
      let state := run actions initialState in
      NoDup (map cartItemId (items state))
      /\ NoDup (map identityOf (items state)))
  /\ (forall (first : AddItemPayload.t) (rest : list AddItemPayload.t)
             (productId message : string) (state0 : CartState),
        Forall
          (fun p =>
             Types.id (AddItemPayload.product p) = productId
             /\ Js.toLowerCase
                  (Js.trim (default "" (AddItemPayload.custom_message p)))
                = message)
          (first :: rest) ->
        linesWithKey (productId ++ "::" ++ message)%string state0 = [] ->
        exists line,
          linesWithKey (productId ++ "::" ++ message)%string
            (run (map AddItem (first :: rest)) state0) = [line]
          /\ identityOf line = (productId ++ "::" ++ message)%string
          /\ quantity line = sumQuantities first rest).
Proof.
  split.
  - intros actions state.
    destruct (run_invariant actions initialState) as [Hnd Hk].
    { split; constructor. }
    split; [done|]. subst state. by rewrite identities_are_keys.
  - intros first rest productId message state0 Hcalls Hnone.
    set (k := (productId ++ "::" ++ message)%string) in *.
    assert (Hkeys : Forall (fun p => incomingId p = k) (first :: rest)).
    { eapply Forall_impl; [exact Hcalls|]. intros p [Hid Hmsg].
      unfold incomingId, buildCartItemId. by rewrite Hid, Hmsg. }
    apply Forall_cons in Hkeys as [Hfirst Hrest].
    apply linesWithKey_none in Hnone.
    simpl.
    destruct (addItem_cases first state0)
      as [[_ (line & Hitems & Hline & Hq & Hkeyed)]
          | (i & x & Hi & Hx & _ & _)].
    + replace (addItem first state0)
        with {| items := items state0 ++ [line] |}
        by (rewrite <- Hitems; by destruct (addItem first state0)).
      rewrite Hfirst in Hline.
      eexists. unfold linesWithKey.
      rewrite (run_same_key k rest (items state0) line) by done.
      rewrite List.filter_app, filter_key_absent by done. simpl.
      rewrite Hline, String.eqb_refl. split; [reflexivity|]. split.
      * rewrite <- Hline. symmetry. exact Hkeyed.
      * simpl. unfold sumQuantities. by rewrite Hq.
    + rewrite Forall_lookup in Hnone. destruct (Hnone i x Hi). congruence.
Qed.

(** C9. When the cart has a line with the key of an [addItem] call, the
    call replaces the first such line by a line that differs in its
    quantity only, which grows by the quantity of the call: key, product
    snapshot, message, fragile and pre-order flags are those of the
    existing line, every other position holds the line it held, and the
    number and order of the lines are unchanged. *)
Theorem addItem_existing_line_frame (payload : AddItemPayload.t)
    (state : CartState) :
  (exists item, item ∈ items state /\ cartItemId item = incomingId payload) ->
  exists (i : nat) (existing line : CartItem),
    items state !! i = Some existing
    /\ cartItemId existing = incomingId payload
    /\ Forall (fun item => cartItemId item <> incomingId payload)
         (take i (items state))
    /\ items (addItem payload state) = <[i := line]> (items state)
    /\ quantity line = Js.add (quantity existing) (callQuantity payload)
    /\ cartItemId line = cartItemId existing
    /\ product line = product existing
    /\ custom_message line = custom_message existing
    /\ is_fragile line = is_fragile existing
    /\ is_preorder line = is_preorder existing
    /\ (forall j, j <> i ->
          items (addItem payload state) !! j = items state !! j)
    /\ length (items (addItem payload state)) = length (items state)
    /\ map cartItemId (items (addItem payload state))
       = map cartItemId (items state).
Proof.
  intros (item & Hin & Hitem).
  destruct (addItem_cases payload state)
    as [[Hall _] | (i & x & Hi & Hx & Htake & Hitems)].
  - rewrite Forall_forall in Hall. by destruct (Hall item Hin).
  - exists i, x, (merged payload x). rewrite Hitems.
    split_and!; try done.
    + apply list_eq. intros j. destruct (decide (i = j)) as [<-|Hne].
      * rewrite list_lookup_alter_eq, Hi. simpl.
        rewrite list_lookup_insert_eq; [done|]. by eapply lookup_lt_Some.
      * by rewrite list_lookup_alter_ne, list_lookup_insert_ne.
    + intros j Hj. by rewrite list_lookup_alter_ne.
    + apply length_alter.
    + by apply map_alter_fixed.
Qed.

(** C10. From a cart in which the key of every line is the identity
    rebuilt from the product id and the message that the line stores, each
    of the five actions leads to such a cart again, and [removeItem] called
    with a computed identity removes exactly the lines of that identity;
    the migration from version 0 produces such a cart from any snapshot,
    without changing the other fields of the lines. *)
Theorem actions_keep_keys_rebuildable (state : CartState) :
  Forall keyed (items state) ->
  (forall payload, Forall keyed (items (addItem payload state)))
  /\ (forall cartItemId, Forall keyed (items (removeItem cartItemId state)))
  /\ (forall productId message,
        items (removeItem (buildCartItemId productId message) state)
        = List.filter
            (fun item =>
               negb (String.eqb (identityOf item)
                       (buildCartItemId productId message)))
            (items state))
  /\ (forall payload, Forall keyed (items (updateQuantity payload state)))
  /\ (forall productId,
        Forall keyed (items (removeAllByProductId productId state)))
  /\ Forall keyed (items (clearCart state))
  /\ (forall persisted : PersistedState,
        exists migrated,
          migrate persisted 0 = Some migrated
          /\ Forall keyed (items migrated)
          /\ map asLegacy (items migrated)
             = match persisted with
               | LegacySnapshot old_items => old_items
               | Snapshot s => map asLegacy (items s)
               end).
Proof.
  intros Hk. split_and!.
  - intros payload. by apply addItem_keeps_keyed.
  - intros k. by apply Forall_bool_filter.
  - intros productId message. unfold removeItem. cbn [items].
    apply filter_ext_in. intros item Hin.
    rewrite Forall_forall in Hk. rewrite <- list_elem_of_In in Hin.
    by rewrite (Hk item Hin).
  - intros payload. unfold updateQuantity.
    destruct (Js.leb _ _); simpl; [by apply Forall_bool_filter|].
    apply Forall_fmap. eapply Forall_impl; [exact Hk|].
    intros item Hitem. simpl.
    destruct (String.eqb _ _); [by apply keyed_withQuantity | done].
  - intros productId. by apply Forall_bool_filter.
  - constructor.
  - intros persisted. eexists. split; [reflexivity|]. simpl. split.
    + apply Forall_fmap, Forall_forall. by intros item _.
    + rewrite map_map. simpl.
      rewrite <- (map_id (match persisted with
                          | LegacySnapshot its => its
                          | Snapshot s => map asLegacy (items s)
                          end)) at 2.
      apply map_ext. by intros [].
Qed.

(** C3 on the sample calls: two cakes, then one more with the message in
    another case and with spaces around it. *)
Lemma one_line_per_identity_witness :
  exists line,
    linesWithKey Samples.cakeKey
      (run [AddItem Samples.addTwoCakes; AddItem Samples.addOneMoreCake]
         initialState) = [line]
    /\ quantity line = Js.of_Z 3.
Proof.
  destruct (proj2 one_line_per_identity Samples.addTwoCakes
              [Samples.addOneMoreCake]
              "5f0c2a8e-1b7d-4c3a-9e21-0a4b6c8d9e10" "happy birthday"
              initialState) as (line & Hline & _ & Hq).
  - repeat constructor.
  - reflexivity.
  - exists line. split; [exact Hline|]. rewrite Hq. reflexivity.
Defined.

(** C9 on the mixed sample cart: one more cake with the same message. *)
Lemma addItem_existing_line_frame_witness :
  exists (i : nat) (existing line : CartItem),
    items Samples.mixedCart !! i = Some existing
    /\ items (addItem Samples.addOneMoreCake Samples.mixedCart)
       = <[i := line]> (items Samples.mixedCart)
    /\ quantity line = Js.add (quantity existing) (Js.of_Z 1)
    /\ is_preorder line = is_preorder existing.
Proof.
  destruct (addItem_existing_line_frame Samples.addOneMoreCake
              Samples.mixedCart)
    as (i & existing & line & H1 & _ & _ & H4 & H5 & _ & _ & _ & _ & H10 & _).
  - exists Samples.cakeLine. split; [|reflexivity].
    vm_compute. right. left.
  - exists i, existing, line. by repeat split.
Defined.

(** C10 on the mixed sample cart. *)
Lemma actions_keep_keys_rebuildable_witness :
  Forall keyed (items Samples.mixedCart)
  /\ Forall keyed (items (addItem Samples.addOneMoreCake Samples.mixedCart))
  /\ Forall keyed (items (removeItem Samples.cakeKey Samples.mixedCart)).
Proof.
  assert (H : Forall keyed (items Samples.mixedCart))
    by (repeat constructor).
  destruct (actions_keep_keys_rebuildable Samples.mixedCart H)
    as (Hadd & Hremove & _).
  split; [exact H|]. split; [apply Hadd | apply Hremove].
Defined.

End Cart.

(* ================================================================== *)
(** * The order action                                                 *)
(* ================================================================== *)

Section Orders.

Import Supabase ProcessOrder Props.

(** A successful insert appends one row built from the payload, with the
    total that the table generates. *)
Lemma insert_order_row (fails : bool) (new_id : Types.UUID)
    (p : OrderInsert.t) (db : Database) (orderId : Types.UUID)
    (db' : Database) :
  insert_order fails new_id p db = (Some orderId, db') ->
  exists row,
    orders db' = orders db ++ [row]
    /\ order_items db' = order_items db
    /\ settings db' = settings db
    /\ Order.id row = orderId
    /\ numeric_of_text (OrderInsert.subtotal p) = Some (Order.subtotal row)
    /\ numeric_of_text (OrderInsert.base_delivery_fee p)
       = Some (Order.base_delivery_fee row)
    /\ numeric_of_text (OrderInsert.fragile_item_fee p)
       = Some (Order.fragile_item_fee row)
    /\ Order.total_amount row
       = numeric_add
           (numeric_add (Order.subtotal row) (Order.base_delivery_fee row))
           (Order.fragile_item_fee row).
Proof.
  unfold insert_order. intros H.
  destruct (numeric_of_text (OrderInsert.subtotal p)) as [s|]; [|done].
  destruct (numeric_of_text (OrderInsert.base_delivery_fee p)) as [b|];
    [|done].
  destruct (numeric_of_text (OrderInsert.fragile_item_fee p)) as [f|];
    [|done].
  match type of H with (if ?c then _ else _) = _ => destruct c end; [|done].
  injection H as <- <-. eexists. simpl. by repeat split.
Qed.

Lemma upload_orders (fails : bool) (fileName : string) (f : File)
    (db db' : Database) (e : bool) :
  upload fails fileName f db = (e, db') ->
  orders db' = orders db /\ order_items db' = order_items db
  /\ settings db' = settings db.
Proof.
  unfold upload. intros H.
  match type of H with (if ?c then _ else _) = _ => destruct c end;
    by injection H as <- <-.
Qed.

Lemma insert_order_items_orders (fails : bool)
    (rows : list OrderItemInsert.t) (db db' : Database) (e : bool) :
  insert_order_items fails rows db = (e, db') ->
  orders db' = orders db /\ settings db' = settings db.
Proof.
  unfold insert_order_items. intros H.
  destruct fails; by injection H as <- <-.
Qed.

(** What a successful call has done: the cart was a non-empty array, and
    one order row was appended, whose amounts are the texts written by
    [toFixed(2)] for the subtotal, the constant delivery fee and the fragile
    fee, and whose total is their sum. *)
Lemma processOrder_success (env : Env) (formData : FormData.t)
    (db : Database) (orderId : string) (db' : Database) :
  processOrder env formData db = (Returns (Success orderId), db') ->
  exists items row,
    FormData.cart_items formData = CartArray items
    /\ items <> []
    /\ orders db' = orders db ++ [row]
    /\ settings db' = settings db
    /\ Order.id row = orderId
    /\ numeric_of_text (Js.toFixed2 (subtotal items))
       = Some (Order.subtotal row)
    /\ numeric_of_text (Js.toFixed2 Fees.BASE_DELIVERY_FEE)
       = Some (Order.base_delivery_fee row)
    /\ numeric_of_text (Js.toFixed2 (fragileItemFee items))
       = Some (Order.fragile_item_fee row)
    /\ Order.total_amount row
       = numeric_add
           (numeric_add (Order.subtotal row) (Order.base_delivery_fee row))
           (Order.fragile_item_fee row).
Proof.
  unfold processOrder. intros H.
  destruct (supabase_configured env); [|done]. cbn [negb] in H.
  destruct (FormData.cart_items formData) as [| |items]; try done.
  destruct items as [|item items]; [done|].
  destruct (preorderCheck env (item :: items) _) as [[timeErrors isPre] rdt].
  match type of H with
  | (if ?c then _ else _) = _ => destruct c; [done|]
  end.
  match type of H with
  | match ?step with _ => _ end = _ =>
      assert (Hstep : forall url db1, step = Some (url, db1) ->
                orders db1 = orders db /\ settings db1 = settings db);
      [|destruct step as [[url db1]|]; [|done]]
  end.
  { intros url db1 Hs.
    destruct (FormData.payment_receipt formData) as [[s|f]|];
      try (by injection Hs as <- <-).
    destruct (_ && _); [|by injection Hs as <- <-].
    destruct (upload _ _ _ _) as [e db0] eqn:Hup.
    destruct e; [done|]. injection Hs as <- <-.
    apply upload_orders in Hup as (Ho1 & _ & Hs1). by split. }
  destruct (Hstep url db1 eq_refl) as [Horders Hsettings].
  destruct (insert_order _ _ _ db1) as [[oid|] db2] eqn:Hins; [|done].
  destruct (insert_order_items _ _ db2) as [e db3] eqn:Hitems.
  injection H as <- <-.
  apply insert_order_row in Hins
    as (row & Ho & _ & Hs & Hid & Hsub & Hbase & Hfrag & Htotal).
  apply insert_order_items_orders in Hitems as [Ho3 Hs3].
  cbn [OrderInsert.subtotal OrderInsert.base_delivery_fee
       OrderInsert.fragile_item_fee] in Hsub, Hbase, Hfrag.
  exists (item :: items), row.
  split_and!.
  - reflexivity.
  - discriminate.
  - by rewrite Ho3, Ho, Horders.
  - by rewrite Hs3, Hs, Hsettings.
  - exact Hid.
  - exact Hsub.
  - exact Hbase.
  - exact Hfrag.
  - exact Htotal.
Qed.

(** C1. After a successful submission the order row that was written
    carries, as its fragile fee, the flat surcharge 100.00 when some charged
    line is fragile and 0.00 otherwise, whatever the number of fragile
    lines; its delivery fee is 150.00; and its total is subtotal plus
    delivery fee plus fragile fee. (The example with one fragile line at
    100.00 and one plain line at 50.00 is the witness: total 400.00.) *)
Theorem fragile_fee_flat_total_is_sum (env : Env) (formData : FormData.t)
    (db : Database) (orderId : string) (db' : Database) :
  processOrder env formData db = (Returns (Success orderId), db') ->
  exists items row,
    FormData.cart_items formData = CartArray items
    /\ items <> []
    /\ orders db' = orders db ++ [row]
    /\ Order.id row = orderId
    /\ numeric_of_text (Js.toFixed2 (subtotal items))
       = Some (Order.subtotal row)
    /\ Order.base_delivery_fee row = PgCents 15000
    /\ Order.fragile_item_fee row
       = (if existsb (fun i => is_fragile (product i)) items
          then PgCents 10000 else PgCents 0)
    /\ Order.total_amount row
       = numeric_add
           (numeric_add (Order.subtotal row) (Order.base_delivery_fee row))
           (Order.fragile_item_fee row).
Proof.
  intros H.
  apply processOrder_success in H
    as (items & row & Hcart & Hne & Ho & _ & Hid & Hsub & Hbase & Hfrag & Ht).
  exists items, row. split_and!.
  - exact Hcart.
  - exact Hne.
  - exact Ho.
  - exact Hid.
  - exact Hsub.
  - vm_compute in Hbase. by injection Hbase.
  - unfold fragileItemFee, hasFragile, Js.some in Hfrag.
    destruct (existsb _ items); vm_compute in Hfrag; by injection Hfrag.
  - exact Ht.
Qed.

(** C1 on the example of the specification: lines 100.00 (fragile) and
    50.00 (plain), one of each: fragile fee 100.00 once, total 400.00. *)
Lemma fragile_fee_flat_total_is_sum_witness :
  exists row,
    orders (processOrder Samples.env
              (Samples.formWith (CartArray Samples.fragileAndPlain))
              Samples.seeded).2 = [row]
    /\ Order.subtotal row = PgCents 15000
    /\ Order.base_delivery_fee row = PgCents 15000
    /\ Order.fragile_item_fee row = PgCents 10000
    /\ Order.total_amount row = PgCents 40000.
Proof.
  destruct (fragile_fee_flat_total_is_sum Samples.env
              (Samples.formWith (CartArray Samples.fragileAndPlain))
              Samples.seeded "8a6e0d1c-3f52-4b7e-9c08-2d4f6a8b0c1e"
              (processOrder Samples.env
                 (Samples.formWith (CartArray Samples.fragileAndPlain))
                 Samples.seeded).2)
    as (items & row & Hcart & _ & Ho & _ & Hsub & Hbase & Hfrag & Htotal).
  - vm_compute. reflexivity.
  - injection Hcart as <-. exists row.
    assert (E : numeric_of_text
                  (Js.toFixed2 (subtotal Samples.fragileAndPlain))
                = Some (PgCents 15000)) by (vm_compute; reflexivity).
    rewrite E in Hsub. injection Hsub as Hsub.
    change (existsb _ Samples.fragileAndPlain) with true in Hfrag.
    rewrite <- Hsub, Hbase, Hfrag in Htotal.
    split_and!.
    + exact Ho.
    + by symmetry.
    + exact Hbase.
    + exact Hfrag.
    + exact Htotal.
Defined.

(** The first fee example of the specification: two units at 100.00, not
    fragile: subtotal 200.00, no fragile fee, total 350.00. *)
Example two_plain_units_total :
  let items :=
    [ {| product := {| id := Types.id Samples.chips; name := "Masala Chips";
                       price := "100.00"; is_fragile := false |};
         quantity := Js.of_Z 2; custom_message := None;
         is_preorder := false |} ] in
  map (fun row => (Order.subtotal row, Order.fragile_item_fee row,
                   Order.total_amount row))
    (orders (processOrder Samples.env (Samples.formWith (CartArray items))
               Samples.seeded).2)
  = [(PgCents 20000, PgCents 0, PgCents 35000)].
Proof. vm_compute. reflexivity. Qed.

(** C4. The code does not do what the specification and the schema say of
    the delivery fee ("applied to every order at checkout"): with the
    delivery fee of the settings row raised to 200.00, which [getSettings]
    reads as 200, the order that [processOrder] writes is charged the
    constant 150.00. *)
Lemma delivery_fee_ignores_settings :
  let submitted :=
    processOrder Samples.env
      (Samples.formWith (CartArray Samples.fragileAndPlain)) Samples.raised in
  submitted.1 = Returns (Success "8a6e0d1c-3f52-4b7e-9c08-2d4f6a8b0c1e")
  /\ settings submitted.2 = settings Samples.raised
  /\ numeric_of_text
       (Js.toFixed2
          (UpdateFragileFee.current_delivery_fee
             (UpdateFragileFee.getSettings false Samples.raised)))
     = Some (PgCents 20000)
  /\ map Order.base_delivery_fee (orders submitted.2) = [PgCents 15000]
  /\ map Order.base_delivery_fee (orders submitted.2) <> [PgCents 20000].
Proof.
  split_and!; vm_compute; try reflexivity; discriminate.
Qed.

(** C7. When the text under 'cart_items' cannot be parsed, is not an array
    or is the empty array, [processOrder] returns the failure "Your cart is
    empty..." whatever the other fields hold, and the stored data are
    exactly what they were: no order, no order item, no receipt. *)
Theorem empty_cart_is_rejected (env : Env) (formData : FormData.t)
    (db : Database) :
  supabase_configured env = true ->
  FormData.cart_items formData = CartUnparsable
  \/ FormData.cart_items formData = CartNotArray
  \/ FormData.cart_items formData = CartArray [] ->
  processOrder env formData db
  = (Returns
       (Failure "Your cart is empty. Please add items before checking out."
          None),
     db).
Proof.
  intros Hconf Hcart. unfold processOrder. rewrite Hconf. cbn [negb].
  by destruct Hcart as [-> | [-> | ->]].
Qed.

Lemma empty_cart_is_rejected_witness :
  processOrder Samples.env (Samples.formWith (CartArray [])) Samples.seeded
  = (Returns
       (Failure "Your cart is empty. Please add items before checking out."
          None),
     Samples.seeded)
  /\ processOrder Samples.env (Samples.formWith CartUnparsable) Samples.seeded
     = (Returns
          (Failure "Your cart is empty. Please add items before checking out."
             None),
        Samples.seeded).
Proof.
  split.
  - apply empty_cart_is_rejected; [reflexivity|]. right. right. reflexivity.
  - apply empty_cart_is_rejected; [reflexivity|]. left. reflexivity.
Defined.

End Orders.

(* ================================================================== *)
(** * Subtotals                                                        *)
(* ================================================================== *)

Section Subtotals.

Import Props.

Lemma fold_left_over_map {A B C : Type} (f : A -> B -> A) (g : C -> B)
    (l : list C) (a : A) :
  fold_left f (map g l) a = fold_left (fun acc x => f acc (g x)) l a.
Proof.
  revert a. induction l as [|x xs IH]; intros a; simpl; [done|]. apply IH.
Qed.

Lemma fold_left_agree {A B : Type} (f g : A -> B -> A) (P : B -> Prop)
    (l : list B) (a : A) :
  (forall acc x, P x -> f acc x = g acc x) ->
  Forall P l -> fold_left f l a = fold_left g l a.
Proof.
  intros Hfg Hl. revert a.
  induction Hl as [|x xs Hx _ IH]; intros a; simpl; [done|].
  by rewrite Hfg, IH.
Qed.

(** A price that does not parse counts for 0. *)
Lemma unparsed_price_counts_zero (priceText : string) (q : Js.number) :
  Js.isNaN (Js.parseFloat priceText) = true ->
  lineContribution priceText q = Js.zero.
Proof. unfold lineContribution. by intros ->. Qed.

(** With a quantity that is finite and not negative, pricing the line at 0
    when the price does not parse is the same as counting the line for 0. *)
Lemma safePrice_line (priceText : string) (q : Js.number) :
  countable q = true ->
  Js.mul
    (if Js.isNaN (Js.parseFloat priceText) then Js.zero
     else Js.parseFloat priceText) q
  = lineContribution priceText q.
Proof.
  intros Hq. unfold lineContribution.
  destruct (Js.isNaN (Js.parseFloat priceText)); [|done].
  by destruct q as [[]| | |[] m e].
Qed.

Lemma server_subtotal_sums (items : list ProcessOrder.SerializedCartItem) :
  ProcessOrder.subtotal items = sumOfLines (orderLines items).
Proof.
  unfold ProcessOrder.subtotal, sumOfLines, orderLines.
  by rewrite fold_left_over_map.
Qed.

Lemma cart_subtotal_rounds_sum (items : list CartStore.CartItem) :
  Forall (fun item => countable (CartStore.quantity item) = true) items ->
  CartStore.calcSubtotalForItems items
  = roundToCents (sumOfLines (cartLines items)).
Proof.
  intros Hq. unfold CartStore.calcSubtotalForItems, roundToCents.
  do 3 f_equal. unfold sumOfLines, cartLines.
  rewrite fold_left_over_map.
  apply (fold_left_agree _ _ _ _ _ (fun acc item Hitem =>
           f_equal (Js.add acc) (safePrice_line _ _ Hitem)) Hq).
Qed.

(** C8, as stated, fails for the cart helper, which rounds: a line priced
    0.001 has the sum 0.001 and the helper returns 0; and on two lines
    priced 0.10 and 0.20 the helper returns 0.3 where the sum of the parsed
    prices times the quantities, the one that the server computes on the
    same lines, is 0.30000000000000004. *)
Lemma cart_subtotal_is_not_the_sum :
  let tiny := [Samples.chipsPriced "0.001"] in
  let lines := [Samples.chipsPriced "0.10"; Samples.chipsPriced "0.20"] in
  CartStore.calcSubtotalForItems tiny = Js.zero
  /\ sumOfLines (cartLines tiny) = Js.parseFloat "0.001"
  /\ CartStore.calcSubtotalForItems tiny <> sumOfLines (cartLines tiny)
  /\ CartStore.calcSubtotalForItems lines = Js.parseFloat "0.3"
  /\ sumOfLines (cartLines lines) = Js.parseFloat "0.30000000000000004"
  /\ ProcessOrder.subtotal (map CheckoutPage.serialize lines)
     = Js.parseFloat "0.30000000000000004"
  /\ CartStore.calcSubtotalForItems lines <> sumOfLines (cartLines lines).
Proof.
  split_and!; vm_compute; try reflexivity; discriminate.
Qed.

(** C8, amended. The subtotal of the server is the sum, over the lines in
    order, of parsed price times quantity, a line whose price does not
    parse counting for exactly 0. The cart helper returns that sum rounded
    to two decimals, [Math.round(raw * 100) / 100], for lines whose
    quantities are finite and not negative. Both are total functions:
    neither raises an exception. *)
Theorem subtotals_sum_the_lines :
  (forall items : list ProcessOrder.SerializedCartItem,
      ProcessOrder.subtotal items = sumOfLines (orderLines items))
  /\ (forall items : list CartStore.CartItem,
        Forall (fun item => countable (CartStore.quantity item) = true) items ->
        CartStore.calcSubtotalForItems items
        = roundToCents (sumOfLines (cartLines items)))
  /\ (forall (priceText : string) (q : Js.number),
        Js.isNaN (Js.parseFloat priceText) = true ->
        lineContribution priceText q = Js.zero).
Proof.
  split_and!.
  - apply server_subtotal_sums.
  - apply cart_subtotal_rounds_sum.
  - apply unparsed_price_counts_zero.
Qed.

(** C8 amended, on a line priced "abc" next to a line priced "50.00": the
    first counts for 0, and both subtotals are 50. *)
Lemma subtotals_sum_the_lines_witness :
  let lines := [Samples.chipsPriced "abc"; Samples.chipsPriced "50.00"] in
  lineContribution "abc" (Js.of_Z 1) = Js.zero
  /\ CartStore.calcSubtotalForItems lines
     = roundToCents (sumOfLines (cartLines lines))
  /\ CartStore.calcSubtotalForItems lines = Js.of_Z 50
  /\ ProcessOrder.subtotal (map CheckoutPage.serialize lines) = Js.of_Z 50.
Proof.
  destruct subtotals_sum_the_lines as (Hserver & Hcart & Hzero).
  split_and!.
  - apply Hzero. reflexivity.
  - apply Hcart. repeat constructor.
  - rewrite Hcart by (repeat constructor). vm_compute. reflexivity.
  - rewrite Hserver. vm_compute. reflexivity.
Defined.

End Subtotals.

(* ================================================================== *)
(** * Delivery time                                                    *)
(* ================================================================== *)

Section DeliveryTime.

Import Props.

(** With a current time whose half hour ahead is still a date, the
    validator accepts exactly the timestamps that parse, are not earlier
    than that, and whose local minute of the day is from 10:00 to 23:00,
    both included. *)
Lemma validateDeliveryTime_accepts (h : Js.Host) (isoString : string)
    (now : Z) :
  (Z.abs (now + Fees.PREORDER_MIN_LEAD_MS) <= 8640000000000000)%Z ->
  Fees.validateDeliveryTime h isoString (Some now) = None
  <-> exists t,
        Js.Date_parse h isoString = Some t
        /\ (now + 30 * 60 * 1000 <= t)%Z
        /\ (10 * 60 <= minuteOfDay h t <= 23 * 60)%Z.
Proof.
  intros Hnow. unfold Fees.validateDeliveryTime, Js.TimeClip.
  apply Z.leb_le in Hnow as Hclip. rewrite Hclip.
  unfold minuteOfDay, Fees.PREORDER_MIN_LEAD_MS, Fees.openHour,
    Fees.openMinute, Fees.closeHour, Fees.closeMinute.
  destruct (Js.Date_parse h isoString) as [t|]; simpl.
  - destruct (t <? now + 30 * 60 * 1000)%Z eqn:Hlead.
    + split; [done|]. intros (t' & [= <-] & Hle & _).
      apply Z.ltb_lt in Hlead. lia.
    + apply Z.ltb_ge in Hlead.
      set (m := (Js.getHours h t * 60 + Js.getMinutes h t)%Z).
      destruct (m <? 10 * 60 + 0)%Z eqn:Hopen; simpl.
      * split; [done|]. intros (t' & [= <-] & _ & Hw).
        apply Z.ltb_lt in Hopen. fold m in Hw. lia.
      * destruct (23 * 60 + 0 <? m)%Z eqn:Hclose.
        -- split; [done|]. intros (t' & [= <-] & _ & Hw).
           apply Z.ltb_lt in Hclose. fold m in Hw. lia.
        -- split; [|done]. intros _. exists t.
           apply Z.ltb_ge in Hopen, Hclose. fold m. split; [done|]. lia.
  - split; [done|]. by intros (t & ? & _).
Qed.

(** C6, as stated, fails at closing time: a timestamp 35 minutes ahead whose
    local time of day is 23:00, outside the half-open window from 10:00 to
    23:00, is accepted. *)
Lemma closing_time_is_accepted :
  Js.Date_parse Samples.utcHost "2026-01-15T23:00:00.000Z"
  = Some 1768518000000%Z
  /\ (1768518000000 = 1768515900000 + 35 * 60 * 1000)%Z
  /\ minuteOfDay Samples.utcHost 1768518000000 = (23 * 60)%Z
  /\ ~ (10 * 60 <= minuteOfDay Samples.utcHost 1768518000000 < 23 * 60)%Z
  /\ Fees.validateDeliveryTime Samples.utcHost "2026-01-15T23:00:00.000Z"
       (Some 1768515900000%Z) = None.
Proof.
  split_and!; try reflexivity.
  vm_compute. intros [_ H]. discriminate H.
Qed.

(** C6, amended. For a current time whose half hour ahead is still a date,
    [validateDeliveryTime] returns an error exactly when the timestamp does
    not parse, or is earlier than now plus 30 minutes, or has a local time
    of day before 10:00 or after 23:00, whatever the date; the minute 23:00
    itself is accepted. So a timestamp 10 minutes ahead is rejected, one 35
    minutes ahead at 02:00 is rejected, and one 35 minutes ahead at 14:00 is
    accepted. *)
Theorem validateDeliveryTime_window (h : Js.Host) (isoString : string)
    (now : Z) :
  (Z.abs (now + Fees.PREORDER_MIN_LEAD_MS) <= 8640000000000000)%Z ->
  (is_Some (Fees.validateDeliveryTime h isoString (Some now))
   <-> Js.Date_parse h isoString = None
       \/ exists t,
            Js.Date_parse h isoString = Some t
            /\ ((t < now + 30 * 60 * 1000)%Z
                \/ (minuteOfDay h t < 10 * 60)%Z
                \/ (23 * 60 < minuteOfDay h t)%Z))
  /\ (Js.Date_parse h isoString = Some (now + 10 * 60 * 1000)%Z ->
      is_Some (Fees.validateDeliveryTime h isoString (Some now)))
  /\ (Js.Date_parse h isoString = Some (now + 35 * 60 * 1000)%Z ->
      minuteOfDay h (now + 35 * 60 * 1000) = (2 * 60)%Z ->
      is_Some (Fees.validateDeliveryTime h isoString (Some now)))
  /\ (Js.Date_parse h isoString = Some (now + 35 * 60 * 1000)%Z ->
      minuteOfDay h (now + 35 * 60 * 1000) = (14 * 60)%Z ->
      Fees.validateDeliveryTime h isoString (Some now) = None)
  /\ (Js.Date_parse h isoString = Some (now + 35 * 60 * 1000)%Z ->
      minuteOfDay h (now + 35 * 60 * 1000) = (23 * 60)%Z ->
      Fees.validateDeliveryTime h isoString (Some now) = None).
Proof.
  intros Hnow.
  assert (Hacc := validateDeliveryTime_accepts h isoString now Hnow).
  assert (Hrej : is_Some (Fees.validateDeliveryTime h isoString (Some now))
                 <-> Js.Date_parse h isoString = None
                     \/ exists t,
                          Js.Date_parse h isoString = Some t
                          /\ ((t < now + 30 * 60 * 1000)%Z
                              \/ (minuteOfDay h t < 10 * 60)%Z
                              \/ (23 * 60 < minuteOfDay h t)%Z)).
  { rewrite <- not_eq_None_Some, Hacc.
    destruct (Js.Date_parse h isoString) as [t|]; split.
    - intros Hno. right. exists t. split; [done|].
      destruct (decide (t < now + 30 * 60 * 1000)%Z); [by left|].
      destruct (decide (minuteOfDay h t < 10 * 60)%Z); [by right; left|].
      destruct (decide (23 * 60 < minuteOfDay h t)%Z); [by right; right|].
      destruct Hno. exists t. split; [done|]. lia.
    - intros [? | (t' & [= <-] & Hbad)] (t'' & [= <-] & Hle & Hw);
        [done | lia].
    - intros _. by left.
    - intros _ (t & ? & _). done. }
  split_and!.
  - exact Hrej.
  - intros Hp. apply Hrej. right. eexists. split; [exact Hp|]. left. lia.
  - intros Hp Hm. apply Hrej. right. eexists. split; [exact Hp|].
    right. left. lia.
  - intros Hp Hm. apply Hacc. eexists. split; [exact Hp|]. lia.
  - intros Hp Hm. apply Hacc. eexists. split; [exact Hp|]. lia.
Qed.

(** C6 amended, on the sample host: at 13:25, the slot 14:00 of the same
    day is 35 minutes ahead and is accepted. *)
Lemma validateDeliveryTime_window_witness :
  (Z.abs (1768483500000 + Fees.PREORDER_MIN_LEAD_MS) <= 8640000000000000)%Z
  /\ Js.Date_parse Samples.utcHost "2026-01-15T14:00:00.000Z"
     = Some (1768483500000 + 35 * 60 * 1000)%Z
  /\ minuteOfDay Samples.utcHost (1768483500000 + 35 * 60 * 1000)
     = (14 * 60)%Z
  /\ Fees.validateDeliveryTime Samples.utcHost "2026-01-15T14:00:00.000Z"
       (Some 1768483500000%Z) = None.
Proof.
  assert (Hnow : (Z.abs (1768483500000 + Fees.PREORDER_MIN_LEAD_MS)
                  <= 8640000000000000)%Z) by (vm_compute; discriminate).
  destruct (validateDeliveryTime_window Samples.utcHost
              "2026-01-15T14:00:00.000Z" 1768483500000 Hnow)
    as (_ & _ & _ & Hok & _).
  split_and!; [exact Hnow | reflexivity | reflexivity |].
  apply Hok; reflexivity.
Defined.

End DeliveryTime.

(* ================================================================== *)
(** * Checkout                                                         *)
(* ================================================================== *)

Section Checkout.

Import CartStore Props CheckoutPage.

Lemma existsb_filter_nonempty {A : Type} (p : A -> bool) (l : list A) :
  existsb p l = true -> List.filter p l <> [].
Proof.
  induction l as [|x xs IH]; simpl; [done|].
  destruct (p x); [done|]. exact IH.
Qed.

(** A mixed cart has lines in both partitions. *)
Lemma mixed_cart_has_both (state : CartState) :
  selectHasMixedAvailability state = true ->
  instantItems (splitCartIntoTwo (items state)) <> []
  /\ preorderItems (splitCartIntoTwo (items state)) <> [].
Proof.
  unfold selectHasMixedAvailability, Js.some.
  destruct (length (items state) <? 2)%nat; [done|].
  intros [Hi Hp]%andb_true_iff.
  rewrite splitCartIntoTwo_instantItems, splitCartIntoTwo_preorderItems.
  split; by apply existsb_filter_nonempty.
Qed.

(** C5. In the split flow of a mixed cart, when the form of one batch is
    submitted and the server answers with success, the cart store is left
    empty although one order only has been written: the lines of the other
    batch, of which there is at least one, are no longer in the cart. *)
Theorem first_batch_success_empties_cart (env : ProcessOrder.Env)
    (view : CheckoutView) (form : FormState) (page : Page)
    (orderId : string) (db' : Supabase.Database) :
  let all := items (cart page) in
  let batch := formItems view all in
  let other :=
    match view with
    | instant_form => preorderItems (splitCartIntoTwo all)
    | _ => instantItems (splitCartIntoTwo all)
    end in
  view = instant_form \/ view = preorder_form ->
  selectHasMixedAvailability (cart page) = true ->
  isPreorderBatch view all && negb (Js.isEmpty (deliveryTimeError form))
  = false ->
  ProcessOrder.processOrder env (buildFormData batch form) (database page)
  = (ProcessOrder.Returns (ProcessOrder.Success orderId), db') ->
  let page' := handleSubmit env batch (isPreorderBatch view all) form page in
  items (cart page') = []
  /\ database page' = db'
  /\ route page' = Some ("/order-confirmation?id=" ++ orderId)%string
  /\ (exists row,
        Supabase.orders db' = Supabase.orders (database page) ++ [row])
  /\ other <> []
  /\ (forall item, item ∈ other -> item ∈ all /\ item ∉ items (cart page')).
Proof.
  intros all batch other Hview Hmixed Hguard Hsubmit page'.
  subst page'. unfold handleSubmit. rewrite Hguard.
  fold batch. rewrite Hsubmit. cbn [cart database route clearCart items].
  apply processOrder_success in Hsubmit
    as (sent & row & _ & _ & Horders & _).
  apply mixed_cart_has_both in Hmixed as [Hinstant Hpreorder].
  split_and!.
  - reflexivity.
  - reflexivity.
  - reflexivity.
  - by exists row.
  - subst other. by destruct Hview as [-> | ->].
  - intros item Hitem. split; [|apply not_elem_of_nil].
    subst other.
    destruct Hview as [-> | ->].
    + rewrite splitCartIntoTwo_preorderItems in Hitem.
      by apply elem_of_bool_filter in Hitem as [? _].
    + rewrite splitCartIntoTwo_instantItems in Hitem.
      by apply elem_of_bool_filter in Hitem as [? _].
Qed.

(** C5 on the mixed sample cart: the chips are checked out first, and the
    cakes are gone from the cart with no order written for them. *)
Lemma first_batch_success_empties_cart_witness :
  let page' :=
    handleSubmit Samples.env
      (formItems instant_form (items Samples.mixedCart)) false
      Samples.filledForm Samples.checkoutPage in
  preorderItems (splitCartIntoTwo (items Samples.mixedCart))
  = [Samples.cakeLine]
  /\ items (cart page') = []
  /\ length (Supabase.orders (database page')) = 1%nat.
Proof.
  destruct (first_batch_success_empties_cart Samples.env instant_form
              Samples.filledForm Samples.checkoutPage
              "8a6e0d1c-3f52-4b7e-9c08-2d4f6a8b0c1e"
              (ProcessOrder.processOrder Samples.env
                 (buildFormData
                    (formItems instant_form (items Samples.mixedCart))
                    Samples.filledForm)
                 Samples.seeded).2)
    as (Hcart & Hdb & _ & (row & Horders) & _ & _).
  - by left.
  - reflexivity.
  - reflexivity.
  - vm_compute. reflexivity.
  - split_and!.
    + vm_compute. reflexivity.
    + exact Hcart.
    + change (isPreorderBatch instant_form
                (items (cart Samples.checkoutPage))) with false in Hdb.
      change (items (cart Samples.checkoutPage))
        with (items Samples.mixedCart) in Hdb.
      rewrite Hdb, Horders. reflexivity.
Defined.

End Checkout.

(* ================================================================== *)
(** * Further properties of the cart store                             *)
(* ================================================================== *)

Section CartActions.

Import CartStore Props CartProps.

Lemma bool_filter_all {A : Type} (p : A -> bool) (l : list A) :
  Forall (fun x => p x = true) l -> List.filter p l = l.
Proof.
  induction 1 as [|x xs Hx _ IH]; simpl; [done|]. by rewrite Hx, IH.
Qed.

Lemma bool_filter_idem {A : Type} (p : A -> bool) (l : list A) :
  List.filter p (List.filter p l) = List.filter p l.
Proof.
  apply bool_filter_all, Forall_forall. intros x Hx.
  by apply elem_of_bool_filter in Hx as [_ ?].
Qed.

Lemma bool_filter_one_out {A B : Type} `{EqDecision B} (f : A -> B)
    (p : A -> bool) (k : B) (l : list A) :
  (forall x, p x = false <-> f x = k) ->
  NoDup (map f l) -> k ∈ map f l ->
  (length (List.filter p l) + 1 = length l)%nat.
Proof.
  intros Hp. induction l as [|x xs IH]; simpl; intros Hnd Hin.
  - by apply elem_of_nil in Hin.
  - apply NoDup_cons in Hnd as [Hx Hnd].
    destruct (p x) eqn:Hpx; simpl.
    + apply elem_of_cons in Hin as [Hk | Hin].
      * symmetry in Hk. apply Hp in Hk. congruence.
      * rewrite <- (IH Hnd Hin). lia.
    + apply Hp in Hpx. subst k. rewrite bool_filter_all; [lia|].
      apply Forall_forall. intros y Hy.
      destruct (p y) eqn:Hpy; [done|]. apply Hp in Hpy.
      destruct Hx. rewrite <- Hpy. by apply list_elem_of_fmap_2.
Qed.

(** X1. [removeItem] keeps exactly the lines whose key differs from the one
    given, in their order; it changes nothing when no line has the key;
    doing it twice is doing it once; and in a cart with distinct keys that
    has the key it removes exactly one line. *)
Theorem removeItem_removes_the_line (k : string) (state : CartState) :
  (forall item, item ∈ items (removeItem k state)
                <-> item ∈ items state /\ cartItemId item <> k)
  /\ sublist (items (removeItem k state)) (items state)
  /\ (linesWithKey k state = [] -> removeItem k state = state)
  /\ removeItem k (removeItem k state) = removeItem k state
  /\ linesWithKey k (removeItem k state) = []
  /\ (NoDup (map cartItemId (items state)) ->
      k ∈ map cartItemId (items state) ->
      (length (items (removeItem k state)) + 1 = length (items state))%nat).
Proof.
  unfold removeItem. cbn [items]. split_and!.
  - intros item. rewrite elem_of_bool_filter, negb_true_iff.
    by rewrite String.eqb_neq.
  - apply bool_filter_sublist.
  - intros Hnone%linesWithKey_none. destruct state as [l]. cbn [items] in *.
    f_equal. apply bool_filter_all.
    eapply Forall_impl; [exact Hnone|]. intros item Hne. simpl.
    by apply negb_true_iff, String.eqb_neq.
  - f_equal. apply bool_filter_idem.
  - unfold linesWithKey. cbn [items]. apply filter_key_absent.
    apply Forall_forall. intros item Hin.
    apply elem_of_bool_filter in Hin as [_ Hne].
    by apply negb_true_iff, String.eqb_neq in Hne.
  - intros Hnd Hin.
    apply (bool_filter_one_out cartItemId _ k); [|done|done].
    intros item. rewrite negb_false_iff. apply String.eqb_eq.
Qed.

Lemma removeItem_removes_the_line_witness :
  (length (items (removeItem Samples.cakeKey Samples.mixedCart)) + 1
   = length (items Samples.mixedCart))%nat
  /\ removeItem "no-such-key" Samples.mixedCart = Samples.mixedCart.
Proof.
  destruct (removeItem_removes_the_line Samples.cakeKey Samples.mixedCart)
    as (_ & _ & _ & _ & _ & Hone).
  destruct (removeItem_removes_the_line "no-such-key" Samples.mixedCart)
    as (_ & _ & Hnone & _).
  split.
  - apply Hone.
    + apply (bool_decide_unpack _). vm_compute. exact I.
    + vm_compute. right. left.
  - apply Hnone. reflexivity.
Defined.

Lemma withQuantity_again (q q' : Js.number) (item : CartItem) :
  withQuantity q (withQuantity q' item) = withQuantity q item.
Proof. done. Qed.

(** X2. [updateQuantity] with a quantity that is not [<= 0] (a positive
    number, or NaN) writes that quantity on every line with the given key
    and leaves every other line, the keys and the order as they are; it
    changes nothing when no line has the key, and doing it twice is doing
    it once. With a quantity [<= 0] it is [removeItem]. *)
Theorem updateQuantity_overwrites (payload : UpdateQuantityPayload.t)
    (state : CartState) :
  let k := UpdateQuantityPayload.cartItemId payload in
  let q := UpdateQuantityPayload.quantity payload in
  (Js.leb q Js.zero = true -> updateQuantity payload state = removeItem k state)
  /\ (Js.leb q Js.zero = false ->
      map cartItemId (items (updateQuantity payload state))
      = map cartItemId (items state)
      /\ (forall i item,
            items state !! i = Some item ->
            items (updateQuantity payload state) !! i
            = Some (if String.eqb (cartItemId item) k
                    then withQuantity q item else item))
      /\ (linesWithKey k state = [] -> updateQuantity payload state = state)
      /\ updateQuantity payload (updateQuantity payload state)
         = updateQuantity payload state).
Proof.
  intros k q. unfold updateQuantity. fold k q. split.
  - intros ->. reflexivity.
  - intros ->. cbn [items]. split_and!.
    + by apply map_if_withQuantity.
    + intros i item Hi. by rewrite list_lookup_fmap, Hi.
    + intros Hnone%linesWithKey_none. destruct state as [l].
      cbn [items] in *. f_equal.
      rewrite <- (map_id l) at 2. apply map_ext_Forall.
      eapply Forall_impl; [exact Hnone|]. intros item Hne. simpl.
      apply String.eqb_neq in Hne. by rewrite Hne.
    + f_equal. rewrite map_map. apply map_ext. intros item.
      destruct (String.eqb (cartItemId item) k) eqn:E; simpl; by rewrite E.
Qed.

(** X2 on the mixed sample cart, with NaN as the quantity: the cake line
    stays, with NaN written on it. *)
Lemma updateQuantity_overwrites_witness :
  map quantity
    (items
       (updateQuantity
          {| UpdateQuantityPayload.cartItemId := Samples.cakeKey;
             UpdateQuantityPayload.quantity := Js.NaN |}
          Samples.mixedCart))
  = [Js.of_Z 1; Js.NaN]
  /\ map cartItemId
       (items
          (updateQuantity
             {| UpdateQuantityPayload.cartItemId := Samples.cakeKey;
                UpdateQuantityPayload.quantity := Js.NaN |}
             Samples.mixedCart))
     = map cartItemId (items Samples.mixedCart).
Proof.
  destruct (updateQuantity_overwrites
              {| UpdateQuantityPayload.cartItemId := Samples.cakeKey;
                 UpdateQuantityPayload.quantity := Js.NaN |}
              Samples.mixedCart) as [_ Hset].
  destruct Hset as (Hkeys & _); [reflexivity|].
  split; [vm_compute; reflexivity | exact Hkeys].
Defined.

(** X3. [removeAllByProductId] keeps exactly the lines of the other
    products, in their order, so that no message variant of the product is
    left; doing it twice is doing it once. *)
Theorem removeAllByProductId_clears_the_product (productId : Types.UUID)
    (state : CartState) :
  (forall item, item ∈ items (removeAllByProductId productId state)
                <-> item ∈ items state
                    /\ Types.id (product item) <> productId)
  /\ sublist (items (removeAllByProductId productId state)) (items state)
  /\ removeAllByProductId productId (removeAllByProductId productId state)
     = removeAllByProductId productId state
  /\ (Forall (fun item => Types.id (product item) <> productId) (items state)
      -> removeAllByProductId productId state = state).
Proof.
  unfold removeAllByProductId. cbn [items]. split_and!.
  - intros item. rewrite elem_of_bool_filter, negb_true_iff.
    by rewrite String.eqb_neq.
  - apply bool_filter_sublist.
  - f_equal. apply bool_filter_idem.
  - intros Hall. destruct state as [l]. cbn [items] in *. f_equal.
    apply bool_filter_all. eapply Forall_impl; [exact Hall|].
    intros item Hne. simpl. by apply negb_true_iff, String.eqb_neq.
Qed.

Lemma removeAllByProductId_clears_the_product_witness :
  removeAllByProductId "no-such-product" Samples.mixedCart = Samples.mixedCart.
Proof.
  destruct (removeAllByProductId_clears_the_product "no-such-product"
              Samples.mixedCart) as (_ & _ & _ & Hsame).
  apply Hsame. repeat constructor; discriminate.
Defined.

(** The shape of a cart after [addItem]: a new line at the end, or one
    line merged in place. *)
Lemma addItem_shape (payload : AddItemPayload.t) (state : CartState) :
  (Forall (fun item => cartItemId item <> incomingId payload) (items state)
   /\ items (addItem payload state) = items state ++ [newLine payload])
  \/ (exists i existing,
        items state !! i = Some existing
        /\ cartItemId existing = incomingId payload
        /\ items (addItem payload state)
           = alter (merged payload) i (items state)).
Proof.
  destruct (addItem_cases payload state)
    as [[Hall _] | (i & x & Hi & Hx & _ & Hitems)].
  - left. split; [done|]. unfold addItem. fold (incomingId payload).
    destruct (findIndex_cases
                (fun item => String.eqb (cartItemId item) (incomingId payload))
                (items state))
      as [[E _] | (i & x & _ & Hl & Hx & _)].
    + by rewrite E.
    + rewrite Forall_forall in Hall. apply String.eqb_eq in Hx.
      destruct (Hall x); [|done]. by eapply list_elem_of_lookup_2.
  - right. by exists i, x.
Qed.

(** X4. Calls of [addItem] whose keys are pairwise distinct and new to the
    cart append one line per call, in the order of the calls, and leave the
    lines that were there untouched. *)
Theorem addItem_new_keys_append (payloads : list AddItemPayload.t)
    (state : CartState) :
  NoDup (map incomingId payloads) ->
  Forall (fun p => linesWithKey (incomingId p) state = []) payloads ->
  items (run (map AddItem payloads) state)
  = items state ++ map newLine payloads.
Proof.
  revert state.
  induction payloads as [|p ps IH]; intros state Hnd Hnew; simpl.
  - by rewrite app_nil_r.
  - apply NoDup_cons in Hnd as [Hp Hnd].
    apply Forall_cons in Hnew as [Hpnew Hnew].
    destruct (addItem_shape p state)
      as [[_ Hitems] | (i & x & Hi & Hx & _)].
    + rewrite IH; [by rewrite Hitems, <- app_assoc|done|].
      rewrite Forall_forall in Hnew |- *. intros p' Hin.
      unfold linesWithKey. rewrite Hitems, List.filter_app.
      fold (linesWithKey (incomingId p') state). rewrite (Hnew p' Hin).
      simpl. destruct (String.eqb_spec (incomingId p) (incomingId p'));
        [|done].
      destruct Hp. rewrite e. by apply list_elem_of_fmap_2.
    + apply linesWithKey_none in Hpnew. rewrite Forall_lookup in Hpnew.
      by destruct (Hpnew i x Hi).
Qed.

(** X4 on the samples: chips, then cakes with a message, on the empty
    cart. *)
Lemma addItem_new_keys_append_witness :
  items (run [AddItem Samples.addChips; AddItem Samples.addTwoCakes]
           initialState)
  = [newLine Samples.addChips; newLine Samples.addTwoCakes].
Proof.
  apply (addItem_new_keys_append [Samples.addChips; Samples.addTwoCakes]
           initialState).
  - apply (bool_decide_unpack _). vm_compute. exact I.
  - repeat constructor.
Defined.

Lemma lowerChar_keeps_space (c : ascii) :
  Js.isWhiteSpace (Js.lowerChar c) = Js.isWhiteSpace c.
Proof. by destruct c as [[] [] [] [] [] [] [] []]. Qed.

Lemma lowerChar_idem (c : ascii) :
  Js.lowerChar (Js.lowerChar c) = Js.lowerChar c.
Proof. by destruct c as [[] [] [] [] [] [] [] []]. Qed.

Lemma toLowerCase_idem (s : string) :
  Js.toLowerCase (Js.toLowerCase s) = Js.toLowerCase s.
Proof.
  induction s as [|c r IH]; simpl; [done|]. by rewrite lowerChar_idem, IH.
Qed.

Lemma trimStart_toLowerCase (s : string) :
  Js.trimStart (Js.toLowerCase s) = Js.toLowerCase (Js.trimStart s).
Proof.
  induction s as [|c r IH]; simpl; [done|].
  rewrite lowerChar_keeps_space. by destruct (Js.isWhiteSpace c).
Qed.

Lemma trimEnd_toLowerCase (s : string) :
  Js.trimEnd (Js.toLowerCase s) = Js.toLowerCase (Js.trimEnd s).
Proof.
  induction s as [|c r IH]; simpl; [done|].
  rewrite lowerChar_keeps_space, IH.
  assert (Js.isEmpty (Js.toLowerCase (Js.trimEnd r))
          = Js.isEmpty (Js.trimEnd r)) as -> by (by destruct (Js.trimEnd r)).
  by destruct (Js.isWhiteSpace c && Js.isEmpty (Js.trimEnd r)).
Qed.

Lemma trim_toLowerCase (s : string) :
  Js.trim (Js.toLowerCase s) = Js.toLowerCase (Js.trim s).
Proof. unfold Js.trim. by rewrite trimStart_toLowerCase, trimEnd_toLowerCase. Qed.

Lemma append_cancel (p x y : string) :
  (p ++ x)%string = (p ++ y)%string -> x = y.
Proof. induction p as [|c r IH]; simpl; [done|]. intros [= H]. by apply IH. Qed.

(** X5. The key of a line does not see the case of the message nor the
    white space around it, and a blank message counts as no message; for
    one product, two messages give the same key exactly when they are
    equal once trimmed and lowercased. *)
Theorem key_normalises_the_message (productId : Types.UUID) :
  (forall m, buildCartItemId productId (Some (Js.trim m))
             = buildCartItemId productId (Some m))
  /\ (forall m, buildCartItemId productId (Some (Js.toLowerCase m))
                = buildCartItemId productId (Some m))
  /\ (forall m, Js.trim m = "" ->
                buildCartItemId productId (Some m)
                = buildCartItemId productId None)
  /\ (forall m1 m2 : option string,
        buildCartItemId productId m1 = buildCartItemId productId m2
        <-> normalise m1 = normalise m2).
Proof.
  unfold buildCartItemId, normalise. split_and!.
  - intros m. simpl. by rewrite trim_idem.
  - intros m. simpl. by rewrite trim_toLowerCase, toLowerCase_idem.
  - intros m Hm. simpl. by rewrite Hm.
  - intros m1 m2. split.
    + intros H. by apply append_cancel, (append_cancel "::") in H.
    + by intros ->.
Qed.

Lemma key_normalises_the_message_witness :
  buildCartItemId "abc-123" (Some "   ") = buildCartItemId "abc-123" None
  /\ buildCartItemId "abc-123" (Some "Happy Birthday")
     = buildCartItemId "abc-123" (Some " happy birthday ").
Proof.
  destruct (key_normalises_the_message "abc-123") as (_ & _ & Hblank & Hsame).
  split.
  - apply Hblank. reflexivity.
  - apply Hsame. reflexivity.
Defined.

Lemma existsb_both_needs_two {A : Type} (p : A -> bool) (l : list A) :
  (length l < 2)%nat ->
  existsb (fun x => negb (p x)) l && existsb p l = false.
Proof.
  destruct l as [|x [|y l]]; simpl; intros H; [done| |lia].
  by destruct (p x).
Qed.

Lemma existsb_both_needs_both {A : Type} (p : A -> bool) (flag : bool)
    (l : list A) :
  Forall (fun x => p x = flag) l ->
  existsb (fun x => negb (p x)) l && existsb p l = false.
Proof.
  intros Hall. destruct flag.
  - replace (existsb (fun x => negb (p x)) l) with false; [done|].
    symmetry. induction Hall as [|x xs Hx _ IH]; simpl; [done|].
    by rewrite Hx.
  - replace (existsb p l) with false; [by rewrite andb_false_r|].
    symmetry. induction Hall as [|x xs Hx _ IH]; simpl; [done|].
    by rewrite Hx.
Qed.

Lemma mixed_is_both (state : CartState) :
  selectHasMixedAvailability state
  = existsb (fun item => negb (is_preorder item)) (items state)
    && existsb is_preorder (items state).
Proof.
  unfold selectHasMixedAvailability, Js.some.
  destruct (length (items state) <? 2)%nat eqn:E; [|done].
  apply Nat.ltb_lt in E. by rewrite existsb_both_needs_two.
Qed.

(** X6. [selectHasMixedAvailability] is true exactly when the cart has a
    line for now and a line for later: the test on the number of lines
    never changes the answer. It is false for a cart of fewer than two
    lines, and for a cart whose lines all carry the same flag. *)
Theorem mixed_means_both_kinds (state : CartState) :
  selectHasMixedAvailability state
  = existsb (fun item => negb (is_preorder item)) (items state)
    && existsb is_preorder (items state)
  /\ ((length (items state) < 2)%nat ->
      selectHasMixedAvailability state = false)
  /\ (forall flag : bool,
        Forall (fun item => is_preorder item = flag) (items state) ->
        selectHasMixedAvailability state = false).
Proof.
  assert (Hspec := mixed_is_both state).
  split_and!.
  - exact Hspec.
  - intros Hlen. rewrite Hspec. by apply existsb_both_needs_two.
  - intros flag Hall. rewrite Hspec. by eapply existsb_both_needs_both.
Qed.

Lemma mixed_means_both_kinds_witness :
  selectHasMixedAvailability (addItem Samples.addTwoCakes initialState)
  = false
  /\ selectHasMixedAvailability Samples.mixedCart = true.
Proof.
  destruct (mixed_means_both_kinds (addItem Samples.addTwoCakes initialState))
    as (_ & Hshort & _).
  split; [|reflexivity]. apply Hshort. vm_compute. lia.
Defined.

Lemma bool_filter_none {A : Type} (p : A -> bool) (l : list A) :
  existsb p l = false -> List.filter p l = [].
Proof.
  induction l as [|x xs IH]; simpl; [done|].
  destruct (p x); [done|]. exact IH.
Qed.

Lemma bool_filter_all_but {A : Type} (p : A -> bool) (l : list A) :
  existsb (fun x => negb (p x)) l = false -> List.filter p l = l.
Proof.
  induction l as [|x xs IH]; simpl; [done|].
  destruct (p x); simpl; [|done]. intros H. by rewrite IH.
Qed.

Lemma bool_filter_rest {A : Type} (p : A -> bool) (l : list A) :
  existsb p l = false -> List.filter (fun x => negb (p x)) l = l.
Proof.
  induction l as [|x xs IH]; simpl; [done|].
  destruct (p x); simpl; [done|]. intros H. by rewrite IH.
Qed.

Lemma existsb_filter_split {A : Type} (p q : A -> bool) (l : list A) :
  existsb q (List.filter (fun x => negb (p x)) l)
  || existsb q (List.filter p l) = existsb q l.
Proof.
  induction l as [|x xs IH]; simpl; [done|].
  destruct (p x); simpl; rewrite <- IH; by destruct (q x), (existsb q _).
Qed.

(** X7. Some line of the cart is fragile exactly when a line of one of the
    two partitions is. And on a cart that is not mixed, [splitCartIntoTwo]
    returns the whole cart as one partition, with the subtotal of the cart,
    and the other partition empty. *)
Theorem split_of_unmixed_cart (state : CartState) :
  let split := splitCartIntoTwo (items state) in
  instantHasFragile split || preorderHasFragile split
  = selectContainsFragileItems state
  /\ (selectHasMixedAvailability state = false ->
      (instantItems split = items state
       /\ preorderItems split = []
       /\ instantSubtotal split = selectCartSubtotal state)
      \/ (preorderItems split = items state
          /\ instantItems split = []
          /\ preorderSubtotal split = selectCartSubtotal state)).
Proof.
  intros split. subst split.
  unfold splitCartIntoTwo. rewrite splitLoop_filters.
  cbn [instantItems preorderItems instantSubtotal preorderSubtotal
       instantHasFragile preorderHasFragile].
  unfold instantOnly, preorderOnly, selectContainsFragileItems, Js.some.
  split.
  - apply existsb_filter_split.
  - rewrite mixed_is_both. intros Hmixed.
    apply andb_false_iff in Hmixed as [Hnone | Hnone].
    + right. rewrite (bool_filter_all_but _ _ Hnone).
      rewrite (bool_filter_none _ _ Hnone). by split_and!.
    + left. rewrite (bool_filter_none _ _ Hnone).
      rewrite (bool_filter_rest _ _ Hnone). by split_and!.
Qed.

Lemma split_of_unmixed_cart_witness :
  let state := addItem Samples.addTwoCakes initialState in
  preorderItems (splitCartIntoTwo (items state)) = items state
  /\ instantItems (splitCartIntoTwo (items state)) = [].
Proof.
  destruct (split_of_unmixed_cart (addItem Samples.addTwoCakes initialState))
    as [_ Hsplit].
  destruct Hsplit as [(Hi & Hp & _) | (Hp & Hi & _)]; [reflexivity| |].
  - vm_compute in Hp. discriminate Hp.
  - by split.
Defined.

(** What every action does to a property of the lines that holds of new
    lines and does not depend on the quantity. *)
Lemma dispatch_keeps (P : CartItem -> Prop) (state : CartState)
    (a : CartAction) :
  (forall payload, P (newLine payload)) ->
  (forall q item, P item -> P (withQuantity q item)) ->
  Forall P (items state) -> Forall P (items (dispatch state a)).
Proof.
  intros Hnew Hq Hall. destruct a as [p | k | p | pid |]; simpl.
  - destruct (addItem_shape p state)
      as [[_ ->] | (i & x & Hi & _ & ->)].
    + apply Forall_app. split; [done|]. by constructor.
    + rewrite Forall_lookup in Hall |- *. intros j y Hj.
      destruct (decide (i = j)) as [<-|Hne].
      * rewrite list_lookup_alter_eq, Hi in Hj. injection Hj as <-.
        apply Hq. by eapply Hall.
      * rewrite list_lookup_alter_ne in Hj by done. by eapply Hall.
  - by apply Forall_bool_filter.
  - unfold updateQuantity. destruct (Js.leb _ _); cbn [items].
    + by apply Forall_bool_filter.
    + apply Forall_fmap. eapply Forall_impl; [exact Hall|].
      intros item Hitem. simpl. destruct (String.eqb _ _); [by apply Hq|done].
  - by apply Forall_bool_filter.
  - constructor.
Qed.

(** X8. Whatever sequence of actions is run from the empty cart, the
    fragile flag of every line is the one of its product snapshot, and the
    message of every line is absent or is a trimmed text that is not
    empty. *)
Theorem lines_stay_well_formed (actions : list CartAction) :
  Forall (fun item => denormalised item /\ messageStored item)
    (items (run actions initialState)).
Proof.
  unfold run.
  assert (Hgen : forall state,
             Forall (fun item => denormalised item /\ messageStored item)
               (items state) ->
             Forall (fun item => denormalised item /\ messageStored item)
               (items (fold_left dispatch actions state))).
  { induction actions as [|a rest IH]; intros state Hstate; simpl; [done|].
    apply IH. apply dispatch_keeps; [| |done].
    - intros payload. split; [done|].
      unfold messageStored, newLine. cbn [custom_message].
      destruct (AddItemPayload.custom_message payload) as [m|]; [|done].
      destruct (Js.isEmpty (Js.trim m)) eqn:E; [done|].
      split; [apply trim_idem|]. intros Hm. by rewrite Hm in E.
    - by intros q item. }
  apply Hgen. constructor.
Qed.

(** X9. A cart whose keys are the identities of its lines comes back from
    storage as it was: rebuilt from a version-0 snapshot of its lines,
    rebuilt from a current snapshot read as version 0, and returned as it
    is for any other version. *)
Theorem migrate_round_trip (state : CartState) :
  Forall keyed (items state) ->
  migrate (LegacySnapshot (map asLegacy (items state))) 0 = Some state
  /\ migrate (Snapshot state) 0 = Some state
  /\ (forall oldVersion, oldVersion <> 0%Z ->
        migrate (Snapshot state) oldVersion = Some state).
Proof.
  intros Hk.
  assert (Hre : map (fun item =>
                       {| cartItemId :=
                            buildCartItemId (Types.id (legacy_product item))
                              (legacy_custom_message item);
                          product := legacy_product item;
                          quantity := legacy_quantity item;
                          custom_message := legacy_custom_message item;
                          is_fragile := legacy_is_fragile item;
                          is_preorder := legacy_is_preorder item |})
                  (map asLegacy (items state))
                = items state).
  { rewrite map_map. rewrite <- (map_id (items state)) at 2.
    apply map_ext_Forall. eapply Forall_impl; [exact Hk|].
    intros [k pr q m fr pre] Hitem. unfold keyed, identityOf in Hitem.
    simpl in *. by rewrite <- Hitem. }
  split_and!.
  - unfold migrate. simpl. rewrite Hre. by destruct state.
  - unfold migrate. simpl. rewrite Hre. by destruct state.
  - intros v Hv. unfold migrate.
    by destruct (Z.eqb_spec v 0).
Qed.

Lemma migrate_round_trip_witness :
  migrate (LegacySnapshot (map asLegacy (items Samples.mixedCart))) 0
  = Some Samples.mixedCart.
Proof.
  apply migrate_round_trip. repeat constructor.
Defined.

End CartActions.

(* ================================================================== *)
(** * Further properties of the order action                           *)
(* ================================================================== *)

Section OrderAction.

Import Supabase ProcessOrder Props OrderProps.

(** [processOrder] on a configured deployment and a non-empty cart, as the
    sequence of its steps. *)
Lemma processOrder_steps (env : Env) (formData : FormData.t)
    (db : Database) (items : list SerializedCartItem) :
  supabase_configured env = true ->
  FormData.cart_items formData = CartArray items ->
  items <> [] ->
  processOrder env formData db
  = let check :=
      preorderCheck env items
        (sanitize (FormData.requested_delivery_time formData)) in
    if (0 <? length (allFieldErrors env formData items))%nat then
      (Returns (Failure "Please fix the errors below."
                  (Some (allFieldErrors env formData items))), db)
    else
      match receiptStep env (sanitize (FormData.payment_method formData))
              (FormData.payment_receipt formData) db with
      | None =>
          (Returns
             (Failure
                "We could not save your payment receipt. Please try again."
                None), db)
      | Some (receiptUrl, db1) =>
          match insert_order (orders_insert_fails env) (generated_id env)
                  (orderPayload formData items check.1.2 check.2 receiptUrl)
                  db1 with
          | (None, db2) => (orderNotPlaced, db2)
          | (Some orderId, db2) =>
              (Returns (Success orderId),
               (insert_order_items (order_items_insert_fails env)
                  (itemPayloads orderId items) db2).2)
          end
      end.
Proof.
  intros Hconf Hcart Hne. unfold processOrder, allFieldErrors.
  rewrite Hconf, Hcart. cbn [negb].
  destruct items as [|item items]; [done|].
  destruct (preorderCheck env (item :: items) _) as [[timeErrors isPre] rdt].
  cbn [fst snd].
  match goal with |- (if ?c then _ else _) = _ => destruct c end; [done|].
  fold (receiptStep env (sanitize (FormData.payment_method formData))
          (FormData.payment_receipt formData) db).
  destruct (receiptStep _ _ _ _) as [[url db1]|]; [|done].
  fold (orderPayload formData (item :: items) isPre rdt url).
  destruct (insert_order _ _ _ db1) as [[oid|] db2]; [|done].
  fold (itemPayloads oid (item :: items)).
  by destruct (insert_order_items _ _ db2).
Qed.

Lemma insert_order_refused (fails : bool) (new_id : Types.UUID)
    (p : OrderInsert.t) (db db' : Database) :
  insert_order fails new_id p db = (None, db') -> db' = db.
Proof.
  unfold insert_order. intros H.
  destruct (numeric_of_text (OrderInsert.subtotal p));
    [|by injection H as <-].
  destruct (numeric_of_text (OrderInsert.base_delivery_fee p));
    [|by injection H as <-].
  destruct (numeric_of_text (OrderInsert.fragile_item_fee p));
    [|by injection H as <-].
  match type of H with (if ?c then _ else _) = _ => destruct c end;
    [discriminate H | by injection H as <-].
Qed.

(** The columns of the row that a successful insert appends. *)
Lemma insert_order_fields (fails : bool) (new_id : Types.UUID)
    (p : OrderInsert.t) (db : Database) (orderId : Types.UUID)
    (db' : Database) :
  insert_order fails new_id p db = (Some orderId, db') ->
  exists row,
    orders db' = orders db ++ [row]
    /\ order_items db' = order_items db
    /\ order_receipts db' = order_receipts db
    /\ settings db' = settings db
    /\ orderId = new_id
    /\ Order.id row = new_id
    /\ Order.customer_name row = OrderInsert.customer_name p
    /\ Order.customer_phone row = OrderInsert.customer_phone p
    /\ Order.address row = OrderInsert.address p
    /\ Order.status row = OrderInsert.status p
    /\ Order.payment_method row = OrderInsert.payment_method p
    /\ Order.payment_receipt_url row = OrderInsert.payment_receipt_url p
    /\ Order.is_preorder row = OrderInsert.is_preorder p
    /\ Order.requested_delivery_time row
       = OrderInsert.requested_delivery_time p.
Proof.
  unfold insert_order. intros H.
  destruct (numeric_of_text (OrderInsert.subtotal p)) as [s|]; [|done].
  destruct (numeric_of_text (OrderInsert.base_delivery_fee p)) as [b|];
    [|done].
  destruct (numeric_of_text (OrderInsert.fragile_item_fee p)) as [f|];
    [|done].
  match type of H with (if ?c then _ else _) = _ => destruct c end; [|done].
  injection H as <- <-. eexists. cbn. by split_and!.
Qed.

Lemma insert_order_items_frame (fails : bool)
    (rows : list OrderItemInsert.t) (db : Database) :
  let db' := (insert_order_items fails rows db).2 in
  orders db' = orders db
  /\ order_receipts db' = order_receipts db
  /\ settings db' = settings db
  /\ order_items db' = (if fails then order_items db
                        else order_items db ++ rows).
Proof. unfold insert_order_items. by destruct fails. Qed.

(** The receipt step stores at most one object and touches nothing else. *)
Lemma receiptStep_frame (env : Env) (paymentMethod : string)
    (receiptFile : option FormDataEntryValue) (db : Database)
    (url : option string) (db1 : Database) :
  receiptStep env paymentMethod receiptFile db = Some (url, db1) ->
  orders db1 = orders db /\ order_items db1 = order_items db
  /\ settings db1 = settings db
  /\ ((url = None /\ db1 = db
       /\ (paymentMethod <> "online_transfer"
           \/ forall f, receiptFile = Some (EntryFile f) ->
                        (file_size f <= 0)%Z))
      \/ (exists f fileName,
            paymentMethod = "online_transfer"
            /\ receiptFile = Some (EntryFile f)
            /\ (0 < file_size f)%Z
            /\ fileName
               = ("receipts/" ++ upload_token env ++ "."
                  ++ extension (file_name f))%string
            /\ url = Some (publicUrl env fileName)
            /\ order_receipts db1 = order_receipts db ++ [(fileName, f)])).
Proof.
  unfold receiptStep. intros H.
  destruct receiptFile as [[s|f]|].
  - injection H as <- <-. split_and!; try done. left. split_and!; try done.
    right. intros f [=].
  - destruct (String.eqb_spec paymentMethod "online_transfer") as [Hpm|Hpm];
      cbn [andb] in H.
    + destruct (0 <? file_size f)%Z eqn:Hsize.
      * unfold upload in H.
        match type of H with
        | context [if ?c then (true, db) else _] => destruct c
        end; [done|].
        injection H as <- <-. cbn. split_and!; try done. right.
        exists f. eexists. apply Z.ltb_lt in Hsize. by split_and!.
      * injection H as <- <-. split_and!; try done. left.
        split_and!; try done. right. intros f' [= <-].
        by apply Z.ltb_ge in Hsize.
    + injection H as <- <-. split_and!; try done. left.
      split_and!; try done. by left.
  - injection H as <- <-. split_and!; try done. left. split_and!; try done.
    right. intros f [=].
Qed.

(** What a successful call went through. *)
Lemma processOrder_success_steps (env : Env) (formData : FormData.t)
    (db : Database) (orderId : string) (db' : Database) :
  processOrder env formData db = (Returns (Success orderId), db') ->
  exists items url db1 db2,
    FormData.cart_items formData = CartArray items
    /\ items <> []
    /\ allFieldErrors env formData items = []
    /\ receiptStep env (sanitize (FormData.payment_method formData))
         (FormData.payment_receipt formData) db = Some (url, db1)
    /\ insert_order (orders_insert_fails env) (generated_id env)
         (orderPayload formData items
            (preorderCheck env items
               (sanitize (FormData.requested_delivery_time formData))).1.2
            (preorderCheck env items
               (sanitize (FormData.requested_delivery_time formData))).2
            url) db1
       = (Some orderId, db2)
    /\ db' = (insert_order_items (order_items_insert_fails env)
                (itemPayloads orderId items) db2).2.
Proof.
  intros H.
  destruct (supabase_configured env) eqn:Hconf;
    [|unfold processOrder in H; by rewrite Hconf in H].
  destruct (FormData.cart_items formData) as [| |items] eqn:Hcart;
    [unfold processOrder in H; by rewrite Hconf, Hcart in H
    |unfold processOrder in H; by rewrite Hconf, Hcart in H|].
  destruct items as [|item items];
    [unfold processOrder in H; by rewrite Hconf, Hcart in H|].
  rewrite (processOrder_steps env formData db (item :: items)) in H
    by done.
  cbv zeta in H.
  destruct (allFieldErrors env formData (item :: items)) as [|e es] eqn:He;
    [|done]. cbn [length Nat.ltb Nat.leb] in H.
  destruct (receiptStep _ _ _ _) as [[url db1]|] eqn:Hstep; [|done].
  destruct (insert_order _ _ _ db1) as [[oid|] db2] eqn:Hins; [|done].
  injection H as <- <-.
  exists (item :: items), url, db1, db2. by split_and!.
Qed.

(** What a call that does not succeed leaves behind. *)
Lemma processOrder_failure_frame (env : Env) (formData : FormData.t)
    (db : Database) (out : Outcome) (db' : Database) :
  processOrder env formData db = (out, db') ->
  (forall orderId, out <> Returns (Success orderId)) ->
  orders db' = orders db
  /\ order_items db' = order_items db
  /\ settings db' = settings db
  /\ (out <> orderNotPlaced -> db' = db).
Proof.
  intros H Hfail.
  destruct (supabase_configured env) eqn:Hconf;
    [|unfold processOrder in H; rewrite Hconf in H;
      by injection H as <- <-].
  destruct (FormData.cart_items formData) as [| |items] eqn:Hcart;
    [unfold processOrder in H; rewrite Hconf, Hcart in H;
     by injection H as <- <-
    |unfold processOrder in H; rewrite Hconf, Hcart in H;
     by injection H as <- <-|].
  destruct items as [|item items];
    [unfold processOrder in H; rewrite Hconf, Hcart in H;
     by injection H as <- <-|].
  rewrite (processOrder_steps env formData db (item :: items)) in H
    by done.
  cbv zeta in H.
  destruct (0 <? length _)%nat; [by injection H as <- <-|].
  destruct (receiptStep _ _ _ _) as [[url db1]|] eqn:Hstep;
    [|by injection H as <- <-].
  destruct (insert_order _ _ _ db1) as [[oid|] db2] eqn:Hins.
  - injection H as <- <-. by destruct (Hfail oid).
  - injection H as <- <-. apply insert_order_refused in Hins as ->.
    apply receiptStep_frame in Hstep as (Ho & Hi & Hs & _).
    by split_and!.
Qed.

(** X10. On a cart whose lines have the declared type
    [SerializedCartItem], as the checkout form sends them, a call that does
    not succeed creates no order and no order item and leaves the settings
    alone; unless it failed on inserting the order, it leaves the stored
    data exactly as they were. (When the order insert fails after a
    bank-transfer receipt was uploaded, the receipt stays in storage. A
    line whose [custom_message] is neither a string nor null is outside the
    declared type: on such a line step 6 raises an exception after the
    order has been inserted.) *)
Theorem failed_call_creates_no_order (env : Env) (formData : FormData.t)
    (db : Database) (out : Outcome) (db' : Database) :
  processOrder env formData db = (out, db') ->
  (forall orderId, out <> Returns (Success orderId)) ->
  orders db' = orders db
  /\ order_items db' = order_items db
  /\ settings db' = settings db
  /\ (out <> orderNotPlaced -> db' = db).
Proof. apply processOrder_failure_frame. Qed.

(** X10 on a form with a one-letter name: the call fails on the fields and
    stores nothing. *)
Lemma failed_call_creates_no_order_witness :
  let formData :=
    {| FormData.customer_name := Some (EntryString " A ");
       FormData.customer_phone := Some (EntryString "0312 3456789");
       FormData.address_line1 := Some (EntryString "12 Mall Road");
       FormData.address_line2 := None;
       FormData.address_city := Some (EntryString "Lahore");
       FormData.payment_method := Some (EntryString "cash_on_delivery");
       FormData.requested_delivery_time := None;
       FormData.cart_items := CartArray Samples.fragileAndPlain;
       FormData.payment_receipt := None |} in
  (processOrder Samples.env formData Samples.seeded).1
  = Returns (Failure "Please fix the errors below."
               (Some [("customer_name", "Please enter your full name.")]))
  /\ (processOrder Samples.env formData Samples.seeded).2 = Samples.seeded.
Proof.
  intros formData.
  assert (Hout : (processOrder Samples.env formData Samples.seeded).1
                 = Returns (Failure "Please fix the errors below."
                              (Some [("customer_name",
                                      "Please enter your full name.")])))
    by (vm_compute; reflexivity).
  split; [exact Hout|].
  destruct (failed_call_creates_no_order Samples.env formData Samples.seeded
              (processOrder Samples.env formData Samples.seeded).1
              (processOrder Samples.env formData Samples.seeded).2)
    as (_ & _ & _ & Hsame).
  - by destruct (processOrder Samples.env formData Samples.seeded).
  - intros orderId. rewrite Hout. discriminate.
  - apply Hsame. rewrite Hout. discriminate.
Defined.

Lemma allFieldErrors_none (env : Env) (formData : FormData.t)
    (items : list SerializedCartItem) :
  allFieldErrors env formData items = [] ->
  contactErrors (sanitize (FormData.customer_name formData))
    (sanitize (FormData.customer_phone formData))
    (sanitize (FormData.address_line1 formData))
    (sanitize (FormData.address_city formData))
    (sanitize (FormData.payment_method formData)) = []
  /\ (preorderCheck env items
        (sanitize (FormData.requested_delivery_time formData))).1.1 = []
  /\ receiptErrors (sanitize (FormData.payment_method formData))
       (FormData.payment_receipt formData) = [].
Proof.
  unfold allFieldErrors. intros H.
  apply app_eq_nil in H as [H1 H]. apply app_eq_nil in H as [H2 H3].
  by split_and!.
Qed.

Lemma contactErrors_none (customerName customerPhone addressLine1
    addressCity paymentMethod : string) :
  contactErrors customerName customerPhone addressLine1 addressCity
    paymentMethod = [] ->
  (2 <= String.length customerName)%nat
  /\ isValidPhone customerPhone = true
  /\ addressLine1 <> ""
  /\ addressCity <> ""
  /\ Js.includes ALLOWED_PAYMENT_METHODS paymentMethod = true.
Proof.
  unfold contactErrors. intros H.
  destruct (Js.isEmpty customerName
            || (String.length customerName <? 2)%nat) eqn:E1; [done|].
  destruct (isValidPhone customerPhone) eqn:E2; [|done].
  destruct (Js.isEmpty addressLine1) eqn:E3; [done|].
  destruct (Js.isEmpty addressCity) eqn:E4; [done|].
  destruct (Js.includes ALLOWED_PAYMENT_METHODS paymentMethod) eqn:E5;
    [|done].
  apply orb_false_iff in E1 as [_ E1]. apply Nat.ltb_ge in E1.
  split_and!; try done.
  - intros ->. done.
  - intros ->. done.
Qed.

(** X11. The order row written by a successful call holds the trimmed
    contact fields of the form, and these passed the checks: a name of at
    least two characters, a mobile number the phone check accepts, a street
    and a city that are not empty, one of the four payment methods; its
    status is pending and its second address line is absent rather than
    empty. *)
Theorem stored_order_is_validated (env : Env) (formData : FormData.t)
    (db : Database) (orderId : string) (db' : Database) :
  processOrder env formData db = (Returns (Success orderId), db') ->
  exists row,
    orders db' = orders db ++ [row]
    /\ Order.id row = orderId
    /\ Order.status row = pending
    /\ Order.customer_name row = sanitize (FormData.customer_name formData)
    /\ (2 <= String.length (Order.customer_name row))%nat
    /\ Order.customer_phone row = sanitize (FormData.customer_phone formData)
    /\ isValidPhone (Order.customer_phone row) = true
    /\ line1 (Order.address row) = sanitize (FormData.address_line1 formData)
    /\ line1 (Order.address row) <> ""
    /\ line2 (Order.address row) <> Some ""
    /\ city (Order.address row) = sanitize (FormData.address_city formData)
    /\ city (Order.address row) <> ""
    /\ Js.includes ALLOWED_PAYMENT_METHODS (Order.payment_method row) = true.
Proof.
  intros H.
  apply processOrder_success_steps in H
    as (items & url & db1 & db2 & _ & _ & Herr & Hstep & Hins & ->).
  apply allFieldErrors_none in Herr as (Hcontact & _ & _).
  apply contactErrors_none in Hcontact as (Hname & Hphone & Hl1 & Hcity & Hpm).
  apply receiptStep_frame in Hstep as (Ho1 & _).
  apply insert_order_fields in Hins
    as (row & Ho & _ & _ & _ & -> & Hid & Hn & Hp & Ha & Hst & Hm & _).
  destruct (insert_order_items_frame (order_items_insert_fails env)
              (itemPayloads (generated_id env) items) db2) as (Ho3 & _).
  cbn [orderPayload OrderInsert.customer_name OrderInsert.customer_phone
       OrderInsert.address OrderInsert.status OrderInsert.payment_method]
    in Hn, Hp, Ha, Hst, Hm.
  exists row. rewrite Hn, Hp, Ha, Hm. cbn [line1 line2 city].
  split_and!; try done.
  - by rewrite Ho3, Ho, Ho1.
  - by destruct (Js.isEmpty (sanitize (FormData.address_line2 formData)))
      eqn:E; [|intros [= Hx]; rewrite Hx in E].
Qed.

Lemma stored_order_is_validated_witness :
  exists row,
    orders (processOrder Samples.env
              (Samples.formWith (CartArray Samples.fragileAndPlain))
              Samples.seeded).2 = [row]
    /\ Order.customer_name row = "Ayesha Khan"
    /\ isValidPhone (Order.customer_phone row) = true.
Proof.
  destruct (stored_order_is_validated Samples.env
              (Samples.formWith (CartArray Samples.fragileAndPlain))
              Samples.seeded "8a6e0d1c-3f52-4b7e-9c08-2d4f6a8b0c1e"
              (processOrder Samples.env
                 (Samples.formWith (CartArray Samples.fragileAndPlain))
                 Samples.seeded).2)
    as (row & Ho & _ & _ & Hn & _ & _ & Hp & _).
  - vm_compute. reflexivity.
  - exists row. split; [exact Ho|]. split; [exact Hn | exact Hp].
Defined.

Lemma preorderCheck_passed (env : Env) (items : list SerializedCartItem)
    (raw : string) :
  (preorderCheck env items raw).1.1 = [] ->
  (preorderCheck env items raw).1.2 = existsb is_preorder items
  /\ (existsb is_preorder items = true ->
      raw <> ""
      /\ Fees.validateDeliveryTime (host env) raw (Some (clock env)) = None
      /\ (preorderCheck env items raw).2 = Js.Date_parse (host env) raw
      /\ is_Some (Js.Date_parse (host env) raw))
  /\ (existsb is_preorder items = false ->
      (preorderCheck env items raw).2 = None).
Proof.
  unfold preorderCheck, Js.some.
  destruct (existsb is_preorder items); cbn [fst snd]; [|done].
  destruct (Js.isEmpty raw) eqn:Hraw; [done|].
  destruct (Fees.validateDeliveryTime (host env) raw (Some (clock env)))
    as [msg|] eqn:Hv; [done|].
  intros _. split_and!; try done. intros _. split_and!; try done.
  - intros ->. done.
  - unfold Fees.validateDeliveryTime in Hv.
    by destruct (Js.Date_parse (host env) raw).
Qed.

(** X12. An order is written as a pre-order exactly when some charged line
    is one. It then carries the requested delivery time, which was given,
    parsed, and accepted by [validateDeliveryTime] at the time of the call.
    An order without pre-order lines carries no delivery time, even when
    the form supplied one. *)
Theorem stored_preorder_has_valid_slot (env : Env) (formData : FormData.t)
    (db : Database) (orderId : string) (db' : Database) :
  processOrder env formData db = (Returns (Success orderId), db') ->
  exists items row,
    FormData.cart_items formData = CartArray items
    /\ orders db' = orders db ++ [row]
    /\ Order.is_preorder row = existsb is_preorder items
    /\ (existsb is_preorder items = true ->
        sanitize (FormData.requested_delivery_time formData) <> ""
        /\ Fees.validateDeliveryTime (host env)
             (sanitize (FormData.requested_delivery_time formData))
             (Some (clock env)) = None
        /\ is_Some (Order.requested_delivery_time row)
        /\ Order.requested_delivery_time row
           = Js.Date_parse (host env)
               (sanitize (FormData.requested_delivery_time formData)))
    /\ (existsb is_preorder items = false ->
        Order.requested_delivery_time row = None).
Proof.
  intros H.
  apply processOrder_success_steps in H
    as (items & url & db1 & db2 & Hcart & _ & Herr & Hstep & Hins & ->).
  apply allFieldErrors_none in Herr as (_ & Hpre & _).
  apply preorderCheck_passed in Hpre as (Hflag & Hyes & Hno).
  apply receiptStep_frame in Hstep as (Ho1 & _).
  apply insert_order_fields in Hins
    as (row & Ho & _ & _ & _ & -> & _ & _ & _ & _ & _ & _ & _ & Hp & Ht).
  destruct (insert_order_items_frame (order_items_insert_fails env)
              (itemPayloads (generated_id env) items) db2) as (Ho3 & _).
  cbn [orderPayload OrderInsert.is_preorder
       OrderInsert.requested_delivery_time] in Hp, Ht.
  exists items, row. rewrite Hp, Ht. split_and!; try done.
  - by rewrite Ho3, Ho, Ho1.
  - intros Hsome. destruct (Hyes Hsome) as (Hraw & Hv & Hparse & Hok).
    rewrite Hparse. by split_and!.
Qed.

(** X12 on the cake ordered for 14:00 at 13:25. *)
Lemma stored_preorder_has_valid_slot_witness :
  exists row,
    orders (processOrder Samples.env MoreSamples.transferForm
              Samples.seeded).2 = [row]
    /\ Order.is_preorder row = true
    /\ Order.requested_delivery_time row = Some 1768485600000%Z.
Proof.
  destruct (stored_preorder_has_valid_slot Samples.env
              MoreSamples.transferForm Samples.seeded
              "8a6e0d1c-3f52-4b7e-9c08-2d4f6a8b0c1e"
              (processOrder Samples.env MoreSamples.transferForm
                 Samples.seeded).2)
    as (items & row & Hcart & Ho & Hflag & Hyes & _).
  - vm_compute. reflexivity.
  - injection Hcart as <-. exists row. split; [exact Ho|].
    split; [exact Hflag|].
    destruct Hyes as (_ & _ & _ & Ht); [reflexivity|]. exact Ht.
Defined.

Lemma receiptErrors_none (paymentMethod : string)
    (receiptFile : option FormDataEntryValue) :
  receiptErrors paymentMethod receiptFile = [] ->
  paymentMethod = "online_transfer" ->
  exists f,
    receiptFile = Some (EntryFile f)
    /\ file_size f <> 0%Z
    /\ (file_size f <= MAX_RECEIPT_BYTES)%Z
    /\ Js.includes ALLOWED_RECEIPT_MIME (file_type f) = true.
Proof.
  unfold receiptErrors. intros H ->. rewrite String.eqb_refl in H.
  destruct receiptFile as [[s|f]|]; [by destruct (Js.isEmpty s)| |done].
  destruct (Z.eqb_spec (file_size f) 0); [done|].
  destruct (Js.includes ALLOWED_RECEIPT_MIME (file_type f)) eqn:Hmime;
    cbn [negb] in H; [|done].
  destruct (MAX_RECEIPT_BYTES <? file_size f)%Z eqn:E; [done|].
  apply Z.ltb_ge in E. exists f. by split_and!.
Qed.

(** X13. A successful call stores a receipt exactly for a bank transfer.
    For a bank transfer the form carried a file of an accepted type and of
    at most 5 MB, which is stored once under a name ending in the extension
    of the file, and the order row holds its public URL. For any other
    payment method nothing is stored and the row holds no URL, even when a
    file was attached. (The size of a file is not negative.) *)
Theorem receipt_stored_for_bank_transfer_only (env : Env)
    (formData : FormData.t) (db : Database) (orderId : string)
    (db' : Database) :
  (forall f, FormData.payment_receipt formData = Some (EntryFile f) ->
             (0 <= file_size f)%Z) ->
  processOrder env formData db = (Returns (Success orderId), db') ->
  exists row,
    orders db' = orders db ++ [row]
    /\ ((Order.payment_method row = "online_transfer"
         /\ exists f fileName,
              FormData.payment_receipt formData = Some (EntryFile f)
              /\ (0 < file_size f <= 5 * 1024 * 1024)%Z
              /\ Js.includes ALLOWED_RECEIPT_MIME (file_type f) = true
              /\ fileName
                 = ("receipts/" ++ upload_token env ++ "."
                    ++ extension (file_name f))%string
              /\ Order.payment_receipt_url row
                 = Some (publicUrl env fileName)
              /\ order_receipts db'
                 = order_receipts db ++ [(fileName, f)])
        \/ (Order.payment_method row <> "online_transfer"
            /\ Order.payment_receipt_url row = None
            /\ order_receipts db' = order_receipts db)).
Proof.
  intros Hsize H.
  apply processOrder_success_steps in H
    as (items & url & db1 & db2 & _ & _ & Herr & Hstep & Hins & ->).
  apply allFieldErrors_none in Herr as (_ & _ & Hreceipt).
  apply receiptStep_frame in Hstep as (Ho1 & _ & _ & Hstep).
  apply insert_order_fields in Hins
    as (row & Ho & _ & Hr & _ & -> & _ & _ & _ & _ & _ & Hm & Hu & _).
  destruct (insert_order_items_frame (order_items_insert_fails env)
              (itemPayloads (generated_id env) items) db2)
    as (Ho3 & Hr3 & _).
  cbn [orderPayload OrderInsert.payment_method
       OrderInsert.payment_receipt_url] in Hm, Hu.
  exists row. split; [by rewrite Ho3, Ho, Ho1|].
  rewrite Hm, Hu, Hr3, Hr.
  destruct Hstep as [(-> & -> & Hwhy)
                    | (f & fileName & Hpm & Hf & Hpos & Hname & -> & Hrec)].
  - destruct (String.eqb_spec
                (sanitize (FormData.payment_method formData))
                "online_transfer") as [Hpm|Hpm]; [|by right].
    destruct (receiptErrors_none _ _ Hreceipt Hpm) as (f & Hf & Hnz & _).
    destruct Hwhy as [Hno | Hsmall]; [done|].
    specialize (Hsmall f Hf). specialize (Hsize f Hf). lia.
  - left. split; [done|]. exists f, fileName.
    destruct (receiptErrors_none _ _ Hreceipt Hpm)
      as (f' & Hf' & _ & Hmax & Hmime).
    rewrite Hf in Hf'. injection Hf' as <-.
    unfold MAX_RECEIPT_BYTES in Hmax. by split_and!.
Qed.

(** X13 on the samples: the bank transfer stores the receipt, the cash
    order with the same file attached does not. *)
Lemma receipt_stored_for_bank_transfer_only_witness :
  map fst
    (order_receipts
       (processOrder Samples.env MoreSamples.transferForm Samples.seeded).2)
  = ["receipts/1768483500000-k3x9q2m.png"]
  /\ order_receipts
       (processOrder Samples.env MoreSamples.cashForm Samples.seeded).2
     = [].
Proof.
  destruct (receipt_stored_for_bank_transfer_only Samples.env
              MoreSamples.cashForm Samples.seeded
              "8a6e0d1c-3f52-4b7e-9c08-2d4f6a8b0c1e"
              (processOrder Samples.env MoreSamples.cashForm
                 Samples.seeded).2)
    as (row & Ho & [(Hpm & _) | (_ & _ & Hnone)]).
  - intros f [= <-]. vm_compute. discriminate.
  - vm_compute. reflexivity.
  - assert (E : map Order.payment_method
                  (orders (processOrder Samples.env MoreSamples.cashForm
                             Samples.seeded).2) = ["cash_on_delivery"])
      by (vm_compute; reflexivity).
    rewrite Ho in E. change (orders Samples.seeded) with (@nil Order.t) in E.
    cbn [map app] in E. rewrite Hpm in E. discriminate E.
  - split; [vm_compute; reflexivity | exact Hnone].
Defined.

(** X14. A successful call writes one order item per charged line, in
    order, each under the id of the new order, with the price text and the
    quantity of the line and with its message trimmed, or absent when
    blank. When the insert of the items fails the call still succeeds, and
    the order stands without items. *)
Theorem order_items_follow_the_cart (env : Env) (formData : FormData.t)
    (db : Database) (orderId : string) (db' : Database) :
  processOrder env formData db = (Returns (Success orderId), db') ->
  exists items rows,
    FormData.cart_items formData = CartArray items
    /\ order_items db'
       = (if order_items_insert_fails env then order_items db
          else order_items db ++ rows)
    /\ map OrderItemInsert.order_id rows = map (fun _ => orderId) items
    /\ map OrderItemInsert.product_id rows
       = map (fun item => id (product item)) items
    /\ map OrderItemInsert.price_at_purchase rows
       = map (fun item => price (product item)) items
    /\ map OrderItemInsert.quantity rows = map quantity items
    /\ map OrderItemInsert.custom_message rows
       = map (fun item =>
                match custom_message item with
                | Some m => if Js.isEmpty (Js.trim m) then None
                            else Some (Js.trim m)
                | None => None
                end) items.
Proof.
  intros H.
  apply processOrder_success_steps in H
    as (items & url & db1 & db2 & Hcart & _ & _ & Hstep & Hins & ->).
  apply receiptStep_frame in Hstep as (_ & Hi1 & _).
  apply insert_order_fields in Hins as (row & _ & Hi & _).
  destruct (insert_order_items_frame (order_items_insert_fails env)
              (itemPayloads orderId items) db2) as (_ & _ & _ & Hi3).
  exists items, (itemPayloads orderId items).
  rewrite Hi3, Hi, Hi1. unfold itemPayloads. rewrite !map_map.
  by split_and!.
Qed.

(** X14 where the insert of the items fails: success, one order, no
    item. *)
Lemma order_items_follow_the_cart_witness :
  (processOrder MoreSamples.itemsFailing MoreSamples.cashForm
     Samples.seeded).1
  = Returns (Success "8a6e0d1c-3f52-4b7e-9c08-2d4f6a8b0c1e")
  /\ order_items
       (processOrder MoreSamples.itemsFailing MoreSamples.cashForm
          Samples.seeded).2 = []
  /\ map OrderItemInsert.custom_message
       (order_items
          (processOrder Samples.env MoreSamples.cashForm Samples.seeded).2)
     = [Some "Happy Birthday"].
Proof.
  destruct (order_items_follow_the_cart MoreSamples.itemsFailing
              MoreSamples.cashForm Samples.seeded
              "8a6e0d1c-3f52-4b7e-9c08-2d4f6a8b0c1e"
              (processOrder MoreSamples.itemsFailing MoreSamples.cashForm
                 Samples.seeded).2)
    as (items & rows & _ & Hitems & _).
  - vm_compute. reflexivity.
  - split; [vm_compute; reflexivity|]. split; [exact Hitems|].
    vm_compute. reflexivity.
Defined.

Lemma receiptStep_withSettings (env : Env) (paymentMethod : string)
    (receiptFile : option FormDataEntryValue) (s : option Settings)
    (db : Database) :
  receiptStep env paymentMethod receiptFile (withSettings s db)
  = match receiptStep env paymentMethod receiptFile db with
    | Some (url, db1) => Some (url, withSettings s db1)
    | None => None
    end.
Proof.
  unfold receiptStep.
  destruct receiptFile as [[t|f]|]; [reflexivity| |reflexivity].
  destruct (String.eqb paymentMethod "online_transfer"
            && (0 <? file_size f)%Z); [|reflexivity].
  unfold upload. cbn [withSettings order_receipts].
  by destruct (upload_fails env || existsb _ (order_receipts db)).
Qed.

Lemma insert_order_withSettings (fails : bool) (new_id : Types.UUID)
    (p : OrderInsert.t) (s : option Settings) (db : Database) :
  insert_order fails new_id p (withSettings s db)
  = ((insert_order fails new_id p db).1,
     withSettings s (insert_order fails new_id p db).2).
Proof.
  unfold insert_order.
  destruct (numeric_of_text (OrderInsert.subtotal p)); [|reflexivity].
  destruct (numeric_of_text (OrderInsert.base_delivery_fee p));
    [|reflexivity].
  destruct (numeric_of_text (OrderInsert.fragile_item_fee p));
    [|reflexivity].
  match goal with |- (if ?c then _ else _) = _ => destruct c end;
    reflexivity.
Qed.

Lemma insert_order_items_withSettings (fails : bool)
    (rows : list OrderItemInsert.t) (s : option Settings) (db : Database) :
  (insert_order_items fails rows (withSettings s db)).2
  = withSettings s (insert_order_items fails rows db).2.
Proof. unfold insert_order_items. by destruct fails. Qed.

(** X15. [processOrder] neither reads nor writes the settings row: with
    any other settings, present or absent, it returns the same result and
    stores the same orders, items and receipts, and it leaves the settings
    as it found them. In particular the fees of the settings row have no
    influence on what an order is charged. *)
Theorem settings_never_reach_the_order (env : Env) (formData : FormData.t)
    (db : Database) (s : option Settings) :
  processOrder env formData (withSettings s db)
  = ((processOrder env formData db).1,
     withSettings s (processOrder env formData db).2)
  /\ settings (processOrder env formData db).2 = settings db.
Proof.
  destruct (supabase_configured env) eqn:Hconf;
    [|unfold processOrder; by rewrite Hconf].
  destruct (FormData.cart_items formData) as [| |items] eqn:Hcart;
    [unfold processOrder; by rewrite Hconf, Hcart
    |unfold processOrder; by rewrite Hconf, Hcart|].
  destruct items as [|item items];
    [unfold processOrder; by rewrite Hconf, Hcart|].
  rewrite !(processOrder_steps env formData _ (item :: items)) by done.
  cbv zeta.
  destruct (0 <? length _)%nat; [by split|].
  rewrite receiptStep_withSettings.
  destruct (receiptStep _ _ _ db) as [[url db1]|] eqn:Hstep; [|by split].
  apply receiptStep_frame in Hstep as (_ & _ & Hs1 & _).
  rewrite insert_order_withSettings.
  destruct (insert_order _ _ _ db1) as [[oid|] db2] eqn:Hins;
    cbn [fst snd].
  - rewrite insert_order_items_withSettings. split; [reflexivity|].
    apply insert_order_fields in Hins as (row & _ & _ & _ & Hs2 & _).
    destruct (insert_order_items_frame (order_items_insert_fails env)
                (itemPayloads oid (item :: items)) db2) as (_ & _ & Hs3 & _).
    by rewrite Hs3, Hs2, Hs1.
  - split; [reflexivity|].
    apply insert_order_refused in Hins as ->. exact Hs1.
Qed.

End OrderAction.

(* ================================================================== *)
(** * The phone checks                                                 *)
(* ================================================================== *)

Section Phones.

Import ProcessOrder CheckoutWizard PhoneProps.

Lemma digitsToEnd_shape (n : nat) (d : string) :
  digitsToEnd n d = true ->
  String.length d = n /\ removeSeparators d = d
  /\ Js.removeWhiteSpace d = d.
Proof.
  revert d. induction n as [|n IH]; intros [|c d]; simpl; try done.
  intros [Hc Hd]%andb_true_iff. destruct (IH d Hd) as (Hlen & Hsep & Hws).
  assert (Hno : isSeparator c = false /\ Js.isWhiteSpace c = false)
    by (by destruct c as [[] [] [] [] [] [] [] []]).
  destruct Hno as [-> ->]. by rewrite Hlen, Hsep, Hws.
Qed.

Lemma mobileNumber_inv (s : string) :
  mobileNumber s = true <-> exists d, s = String "3" d /\ nineDigits d.
Proof.
  split.
  - destruct s as [|c d]; [done|].
    destruct c as [[] [] [] [] [] [] [] []]; try done.
    intros H. by exists d.
  - by intros (d & -> & Hd).
Qed.

(** The three shapes that the check of the server accepts. *)
Lemma isValidPhone_shapes (phone : string) :
  isValidPhone phone = true
  <-> exists d,
        nineDigits d
        /\ (Js.removeWhiteSpace phone = ("+923" ++ d)%string
            \/ Js.removeWhiteSpace phone = ("03" ++ d)%string
            \/ Js.removeWhiteSpace phone = ("3" ++ d)%string).
Proof.
  unfold isValidPhone. destruct (Js.removeWhiteSpace phone) as [|c r].
  { split; [done|]. by intros (d & _ & [? | [? | ?]]). }
  split.
  - destruct c as [[] [] [] [] [] [] [] []];
      try (intros H; apply mobileNumber_inv in H as (d & [= ->] & Hd);
           exists d; split; [exact Hd|]; right; right; reflexivity);
      try (intros H; by apply mobileNumber_inv in H as (d & [=] & _)).
    + (* "+" *)
      destruct r as [|c1 r1];
        [intros H; by apply mobileNumber_inv in H as (d & [=] & _)|].
      destruct c1 as [[] [] [] [] [] [] [] []];
        try (intros H; by apply mobileNumber_inv in H as (d & [=] & _)).
      destruct r1 as [|c2 r2];
        [intros H; by apply mobileNumber_inv in H as (d & [=] & _)|].
      destruct c2 as [[] [] [] [] [] [] [] []];
        try (intros H; by apply mobileNumber_inv in H as (d & [=] & _)).
      intros H. apply mobileNumber_inv in H as (d & -> & Hd).
      exists d. split; [exact Hd|]. by left.
    + (* "0" *)
      intros H. apply mobileNumber_inv in H as (d & -> & Hd).
      exists d. split; [exact Hd|]. right. by left.
  - intros (d & Hd & [[= -> ->] | [[= -> ->] | [= -> ->]]]);
      cbn; exact Hd.
Qed.

Lemma removeSeparators_after (s : string) :
  removeSeparators (Js.removeWhiteSpace s) = removeSeparators s.
Proof.
  induction s as [|c r IH]; [done|]. simpl.
  destruct (Js.isWhiteSpace c) eqn:Hc.
  - unfold isSeparator. by rewrite Hc.
  - simpl. by rewrite IH.
Qed.

(** X16. The phone check of the server looks at the number with all white
    space removed and accepts exactly a mobile number of nine digits after
    a 3, written alone, after 0, or after +92. Every number it accepts is
    accepted by the check of the checkout wizard. *)
Theorem server_phone_check (phone : string) :
  (isValidPhone phone = isValidPhone (Js.removeWhiteSpace phone))
  /\ (isValidPhone phone = true
      <-> exists d,
            nineDigits d
            /\ (Js.removeWhiteSpace phone = ("+923" ++ d)%string
                \/ Js.removeWhiteSpace phone = ("03" ++ d)%string
                \/ Js.removeWhiteSpace phone = ("3" ++ d)%string))
  /\ (isValidPhone phone = true ->
      validatePakistanPhone phone
      = {| valid := true; message := None |}).
Proof.
  split_and!.
  - assert (Hidem : forall s, Js.removeWhiteSpace (Js.removeWhiteSpace s)
                              = Js.removeWhiteSpace s).
    { induction s as [|c r IH]; [done|]. simpl.
      destruct (Js.isWhiteSpace c) eqn:Hc; [done|]. simpl.
      by rewrite Hc, IH. }
    unfold isValidPhone. by rewrite Hidem.
  - apply isValidPhone_shapes.
  - intros (d & Hd & Hshape)%isValidPhone_shapes.
    destruct (digitsToEnd_shape 9 d Hd) as (Hlen & Hsep & _).
    unfold validatePakistanPhone.
    rewrite <- removeSeparators_after.
    assert (Hten : digitsToEnd 10 (String "3" d) = true) by exact Hd.
    unfold nineDigits in Hd.
    assert (Hp : String.prefix "" d = true) by (by destruct d).
    destruct Hshape as [-> | [-> | ->]].
    + change (removeSeparators ("+923" ++ d))
        with (String "+" (String "9" (String "2"
                (String "3" (removeSeparators d))))).
      rewrite Hsep. cbn -[digitsToEnd]. by rewrite ?Hp, Hlen, Hten.
    + change (removeSeparators ("03" ++ d))
        with (String "0" (String "3" (removeSeparators d))).
      rewrite Hsep. cbn -[digitsToEnd]. by rewrite ?Hp, Hlen, Hd.
    + change (removeSeparators ("3" ++ d))
        with (String "3" (removeSeparators d)).
      rewrite Hsep. cbn -[digitsToEnd]. by rewrite ?Hp, Hlen, Hd.
Qed.

(** X16 on a number written with a space. *)
Lemma server_phone_check_witness :
  isValidPhone "0312 3456789" = true
  /\ validatePakistanPhone "0312 3456789"
     = {| valid := true; message := None |}.
Proof.
  assert (H : isValidPhone "0312 3456789" = true) by reflexivity.
  split; [exact H|].
  destruct (server_phone_check "0312 3456789") as (_ & _ & Hwizard).
  exact (Hwizard H).
Defined.

End Phones.

(* ================================================================== *)
(** * The checkout form and the order action                           *)
(* ================================================================== *)

Section CheckoutFlow.

Import CartStore Props CartProps CheckoutPage CheckoutForm.

Lemma run_keeps_denormalised (actions : list CartAction) :
  Forall denormalised (items (run actions initialState)).
Proof.
  unfold run.
  assert (Hgen : forall state,
             Forall denormalised (items state) ->
             Forall denormalised (items (fold_left dispatch actions state))).
  { induction actions as [|a rest IH]; intros state Hstate; simpl; [done|].
    apply IH. by apply dispatch_keeps. }
  apply Hgen. constructor.
Qed.

Lemma formItems_keeps (P : CartItem -> Prop) (view : CheckoutView)
    (items : list CartItem) :
  Forall P items -> Forall P (formItems view items).
Proof.
  intros H. destruct view; cbn [formItems]; try done.
  - rewrite splitCartIntoTwo_instantItems. by apply Forall_bool_filter.
  - rewrite splitCartIntoTwo_preorderItems. by apply Forall_bool_filter.
Qed.

Lemma existsb_serialize (p : ProcessOrder.SerializedCartItem -> bool)
    (q : CartItem -> bool) (items : list CartItem) :
  Forall (fun item => p (serialize item) = q item) items ->
  existsb p (map serialize items) = existsb q items.
Proof.
  induction 1 as [|item rest Hitem _ IH]; [done|].
  cbn [map existsb]. by rewrite Hitem, IH.
Qed.

(** X17. For every cart reached by the actions of the store and every
    batch of it that the checkout page hands to the form, the form and the
    server agree on whether the batch is fragile, and the fragile fee that
    the form adds to its total is the one that [processOrder] computes for
    the lines the form sends. *)
Theorem form_fragile_fee_is_the_fee_charged (actions : list CartAction)
    (view : CheckoutView) :
  let batch := formItems view (items (run actions initialState)) in
  ProcessOrder.hasFragile (map serialize batch) = batchHasFragile batch
  /\ ProcessOrder.fragileItemFee (map serialize batch) = fragileExtra batch.
Proof.
  intros batch.
  assert (Hflag : ProcessOrder.hasFragile (map serialize batch)
                  = batchHasFragile batch).
  { unfold ProcessOrder.hasFragile, batchHasFragile, Js.some.
    apply existsb_serialize. subst batch.
    eapply Forall_impl;
      [apply formItems_keeps, run_keeps_denormalised|].
    intros item Hitem. unfold denormalised in Hitem. by rewrite Hitem. }
  split; [exact Hflag|].
  unfold ProcessOrder.fragileItemFee, fragileExtra. by rewrite Hflag.
Qed.

Lemma existsb_filter_negb {A : Type} (p : A -> bool) (l : list A) :
  existsb p (List.filter (fun x => negb (p x)) l) = false.
Proof.
  induction l as [|x xs IH]; [done|]. simpl.
  destruct (p x) eqn:Hx; simpl; [done|]. by rewrite Hx.
Qed.

Lemma existsb_filter_self {A : Type} (p : A -> bool) (l : list A) :
  List.filter p l <> [] -> existsb p (List.filter p l) = true.
Proof.
  induction l as [|x xs IH]; [done|]. simpl.
  destruct (p x) eqn:Hx; simpl; [by rewrite Hx | done].
Qed.

(** X18. On each of the three forms of the checkout page, for a batch
    that is not empty, the server finds a pre-order line among the lines
    sent exactly when the page treats the batch as a pre-order batch. So
    the server asks for a delivery time exactly where the form does, and
    for an instant batch it asks for none and stores none, whatever was
    sent. *)
Theorem preorder_batch_is_what_the_server_sees (env : ProcessOrder.Env)
    (view : CheckoutView) (items : list CartItem) (raw : string) :
  view <> split_notice ->
  formItems view items <> [] ->
  let sent := map serialize (formItems view items) in
  Js.some ProcessOrder.is_preorder sent = isPreorderBatch view items
  /\ (isPreorderBatch view items = false ->
      ProcessOrder.preorderCheck env sent raw = ([], false, None))
  /\ (isPreorderBatch view items = true -> raw = "" ->
      (ProcessOrder.preorderCheck env sent raw).1.1 <> []).
Proof.
  intros Hview Hne sent.
  assert (Hflag : Js.some ProcessOrder.is_preorder sent
                  = isPreorderBatch view items).
  { subst sent. unfold Js.some.
    rewrite (existsb_serialize _ is_preorder)
      by (apply Forall_forall; by intros).
    destruct view; cbn [formItems isPreorderBatch] in *; try done.
    - rewrite splitCartIntoTwo_instantItems. apply existsb_filter_negb.
    - rewrite splitCartIntoTwo_preorderItems in Hne |- *.
      by apply existsb_filter_self. }
  split_and!.
  - exact Hflag.
  - intros Hno. unfold ProcessOrder.preorderCheck.
    by rewrite Hflag, Hno.
  - intros Hyes ->. unfold ProcessOrder.preorderCheck.
    by rewrite Hflag, Hyes.
Qed.

(** X18 on the pre-order batch of the mixed sample cart. *)
Lemma preorder_batch_is_what_the_server_sees_witness :
  Js.some ProcessOrder.is_preorder
    (map serialize (formItems preorder_form (items Samples.mixedCart)))
  = true.
Proof.
  destruct (preorder_batch_is_what_the_server_sees Samples.env
              preorder_form (items Samples.mixedCart) "")
    as (Hflag & _); [done | vm_compute; discriminate |].
  exact Hflag.
Defined.

(** X19. A submission that the server does not answer with success keeps
    the cart and the route as they were, and no order and no order item is
    written; and a pre-order form whose delivery time shows an error sends
    nothing: the page stays as it is. *)
Theorem failed_submission_keeps_the_cart (env : ProcessOrder.Env)
    (items : list CartItem) (isPreorderBatch : bool) (form : FormState)
    (page : Page) :
  (isPreorderBatch = true -> deliveryTimeError form <> "" ->
   handleSubmit env items isPreorderBatch form page = page)
  /\ (forall out db',
        ProcessOrder.processOrder env (buildFormData items form)
          (database page) = (out, db') ->
        (forall orderId,
            out <> ProcessOrder.Returns (ProcessOrder.Success orderId)) ->
        let page' := handleSubmit env items isPreorderBatch form page in
        cart page' = cart page
        /\ route page' = route page
        /\ Supabase.orders (database page')
           = Supabase.orders (database page)
        /\ Supabase.order_items (database page')
           = Supabase.order_items (database page)).
Proof.
  split.
  - intros -> Herr. unfold handleSubmit.
    by destruct (deliveryTimeError form).
  - intros out db' Hcall Hfail page'. subst page'. unfold handleSubmit.
    destruct (isPreorderBatch && negb (Js.isEmpty (deliveryTimeError form)));
      [done|].
    destruct (processOrder_failure_frame env _ _ out db' Hcall Hfail)
      as (Ho & Hi & _).
    rewrite Hcall.
    destruct out as [[orderId | error errors]|]; cbn [cart route database].
    + by destruct (Hfail orderId).
    + done.
    + done.
Qed.

(** X19 on the sample page with a one-letter name. *)
Lemma failed_submission_keeps_the_cart_witness :
  let form :=
    {| customerName := "A"; customerPhone := "0312 3456789";
       addressLine1 := "12 Mall Road"; addressLine2 := "";
       addressCity := "Lahore"; paymentMethod := "cash_on_delivery";
       deliveryTime := ""; deliveryTimeError := ""; receiptFile := None |} in
  cart (handleSubmit Samples.env (CartStore.items Samples.mixedCart) false
          form Samples.checkoutPage)
  = Samples.mixedCart.
Proof.
  intros form.
  destruct (failed_submission_keeps_the_cart Samples.env
              (CartStore.items Samples.mixedCart) false form
              Samples.checkoutPage) as [_ Hkeep].
  destruct (Hkeep
              (ProcessOrder.processOrder Samples.env
                 (buildFormData (CartStore.items Samples.mixedCart) form)
                 Samples.seeded).1
              (ProcessOrder.processOrder Samples.env
                 (buildFormData (CartStore.items Samples.mixedCart) form)
                 Samples.seeded).2) as (Hcart & _).
  - change (database Samples.checkoutPage) with Samples.seeded.
    apply surjective_pairing.
  - intros orderId.
    assert (E : exists e errors,
               (ProcessOrder.processOrder Samples.env
                  (buildFormData (CartStore.items Samples.mixedCart) form)
                  Samples.seeded).1
               = ProcessOrder.Returns (ProcessOrder.Failure e errors))
      by (vm_compute; eauto).
    destruct E as (e & errors & ->). discriminate.
  - exact Hcart.
Defined.

End CheckoutFlow.

(* ================================================================== *)
(** * Helpers and the other actions                                    *)
(* ================================================================== *)

Section OtherActions.

Import Supabase ProcessOrder Props OrderProps.

(** X20. [validateDeliveryTime] returns nothing or one of three messages,
    tested in this order: the text is no date; the date is earlier than
    half an hour from now, whatever its time of day; the time of day is
    outside the window. When the current time is no date, or half an hour
    after it is none, the second test is skipped and a date is judged by
    its time of day alone. *)
Theorem validateDeliveryTime_messages (h : Js.Host) (isoString : string)
    (now : Js.Date) :
  let result := Fees.validateDeliveryTime h isoString now in
  (result = None \/ result = Some invalidTime \/ result = Some tooEarly
   \/ result = Some outsideWindow)
  /\ (result = Some invalidTime <-> Js.Date_parse h isoString = None)
  /\ (result = Some tooEarly
      <-> exists t n,
            Js.Date_parse h isoString = Some t /\ now = Some n
            /\ (Z.abs (n + 30 * 60 * 1000) <= 8640000000000000)%Z
            /\ (t < n + 30 * 60 * 1000)%Z)
  /\ ((now = None
       \/ exists n, now = Some n
                    /\ (8640000000000000 < Z.abs (n + 30 * 60 * 1000))%Z) ->
      forall t, Js.Date_parse h isoString = Some t ->
        result = (if (minuteOfDay h t <? 10 * 60)%Z
                     || (23 * 60 <? minuteOfDay h t)%Z
                  then Some outsideWindow else None)).
Proof.
  intros result. subst result.
  unfold Fees.validateDeliveryTime, minuteOfDay, invalidTime, tooEarly,
    outsideWindow, Fees.openHour, Fees.openMinute, Fees.closeHour,
    Fees.closeMinute, Fees.PREORDER_MIN_LEAD_MS, Js.TimeClip.
  destruct (Js.Date_parse h isoString) as [t|].
  2:{ split_and!.
      - right. by left.
      - done.
      - split; [done|]. by intros (t & n & ? & _).
      - by intros _ t. }
  set (m := (Js.getHours h t * 60 + Js.getMinutes h t)%Z).
  change (10 * 60 + 0)%Z with (10 * 60)%Z.
  change (23 * 60 + 0)%Z with (23 * 60)%Z.
  destruct now as [n|]; cbn [Js.Date_ltb].
  - destruct (Z.leb_spec (Z.abs (n + 30 * 60 * 1000)) 8640000000000000)
      as [Hclip|Hclip]; cbn [Js.Date_ltb].
    + destruct (Z.ltb_spec t (n + 30 * 60 * 1000)) as [Hlead|Hlead].
      * split_and!.
        -- right. right. by left.
        -- done.
        -- split; [|done]. intros _. by exists t, n.
        -- intros [? | (n' & [= <-] & Hbig)] t' _; [done | lia].
      * split_and!.
        -- destruct ((m <? 10 * 60)%Z || (23 * 60 <? m)%Z);
             [right; right; by right | by left].
        -- by destruct ((m <? 10 * 60)%Z || (23 * 60 <? m)%Z).
        -- split.
           ++ by destruct ((m <? 10 * 60)%Z || (23 * 60 <? m)%Z).
           ++ intros (t' & n' & [= <-] & [= <-] & _ & Hlt). lia.
        -- intros [? | (n' & [= <-] & Hbig)] t' _; [done | lia].
    + split_and!.
      * destruct ((m <? 10 * 60)%Z || (23 * 60 <? m)%Z);
          [right; right; by right | by left].
      * by destruct ((m <? 10 * 60)%Z || (23 * 60 <? m)%Z).
      * split.
        -- by destruct ((m <? 10 * 60)%Z || (23 * 60 <? m)%Z).
        -- intros (t' & n' & _ & [= <-] & Hok & _). lia.
      * intros _ t' [= <-]. reflexivity.
  - split_and!.
    + destruct ((m <? 10 * 60)%Z || (23 * 60 <? m)%Z);
        [right; right; by right | by left].
    + by destruct ((m <? 10 * 60)%Z || (23 * 60 <? m)%Z).
    + split.
      * by destruct ((m <? 10 * 60)%Z || (23 * 60 <? m)%Z).
      * by intros (t' & n' & _ & ? & _).
    + intros _ t' [= <-]. reflexivity.
Qed.

Lemma hasDot_app (a b : string) :
  hasDot (a ++ b)%string = hasDot a || hasDot b.
Proof.
  induction a as [|c a IH]; [done|]. simpl. by rewrite IH, orb_assoc.
Qed.

(** X21. The extension that names a stored receipt is what follows the
    last dot of the file name: it holds no dot, the file name is a stem, a
    dot and the extension; a file name without a dot is its own
    extension, and a file name that ends in a dot has the empty one. *)
Theorem extension_follows_the_last_dot (name : string) :
  hasDot (extension name) = false
  /\ (hasDot name = false -> extension name = name)
  /\ (hasDot name = true ->
      exists stem, name = (stem ++ "." ++ extension name)%string)
  /\ extension (name ++ ".")%string = "".
Proof.
  assert (Hcases : forall s,
             hasDot (extension s) = false
             /\ (hasDot s = false -> extension s = s)
             /\ (hasDot s = true ->
                 exists stem, s = (stem ++ "." ++ extension s)%string)).
  { induction s as [|c r (IH1 & IH2 & IH3)]; [by split_and!|].
    cbn [extension hasDot].
    destruct (hasDot r) eqn:Hr.
    - rewrite orb_true_r. split_and!; [done | done |].
      intros _. destruct (IH3 eq_refl) as (stem & Hstem).
      exists (String c stem).
      change (String c r = String c (stem ++ "." ++ extension r)%string).
      by rewrite <- Hstem.
    - rewrite orb_false_r. destruct (isDot c) eqn:Hc.
      + split_and!; [done | done |]. intros _. exists "".
        assert (c = "."%char) as ->
          by (by destruct c as [[] [] [] [] [] [] [] []]).
        reflexivity.
      + split_and!; [|done|done]. cbn [hasDot]. by rewrite Hc, Hr. }
  destruct (Hcases name) as (H1 & H2 & H3). split_and!; try done.
  induction name as [|c r IH]; [done|].
  change (extension (String c (r ++ ".")%string) = "").
  cbn [extension]. rewrite hasDot_app.
  change (hasDot ".") with true. rewrite orb_true_r.
  apply IH; apply Hcases.
Qed.

End OtherActions.

(* ================================================================== *)
(** * The status of an order                                           *)
(* ================================================================== *)

Section StatusAction.

Import Supabase UpdateOrderStatus.

Lemma status_of_text_admin (s : string) :
  Js.includes ADMIN_STATUSES s = true <-> is_Some (status_of_text s).
Proof.
  unfold Js.includes, ADMIN_STATUSES, status_of_text. cbn [existsb].
  repeat (destruct (String.eqb s _); [by split; eauto|]).
  split; [done | by intros [? ?]].
Qed.

Lemma update_status_map (env : Env) (key : Types.UUID) (st : OrderStatus)
    (table : list StoredOrder) :
  let table' :=
    map (fun r => if String.eqb (Order.id (columns r)) key
                  then updatedRow env st r else r) table in
  map (fun r => Order.id (columns r)) table'
  = map (fun r => Order.id (columns r)) table
  /\ map (fun r => withStatus pending (columns r)) table'
     = map (fun r => withStatus pending (columns r)) table
  /\ map created_at table' = map created_at table.
Proof.
  cbv zeta. rewrite !map_map. split_and!; apply map_ext; intros r;
    by destruct (String.eqb (Order.id (columns r)) key).
Qed.

(** X22. [updateOrderStatus] first refuses a status that is not one of
    the seven, without touching the data; it then throws when the service
    client cannot be created; and it reports a failure, changing nothing,
    when the id is no UUID or the update fails. Otherwise it succeeds: every
    order with that id takes the status and is stamped with the time of
    the update by the trigger of the table, and nothing else changes: the
    orders keep their number, their order, their ids, their creation times
    and every column but the status, and an order with another id is left
    as it is, its stamp included. It succeeds without any change when no
    order has the id, and it accepts any status after any other: a later
    update with a status of the seven gives the same table whether or not
    this one came before. *)
Theorem updateOrderStatus_sets_the_status_only (env : Env)
    (orderId : string) (newStatus : string) (table : list StoredOrder) :
  let result := (updateOrderStatus env orderId newStatus table).1 in
  let table' := (updateOrderStatus env orderId newStatus table).2 in
  (Js.includes ADMIN_STATUSES newStatus = false ->
   result = Returns (Failure "Invalid status.") /\ table' = table)
  /\ (Js.includes ADMIN_STATUSES newStatus = true ->
      supabase_configured env = false ->
      result = Throws /\ table' = table)
  /\ (Js.includes ADMIN_STATUSES newStatus = true ->
      supabase_configured env = true ->
      uuid_in env orderId = None \/ update_fails env = true ->
      result = Returns (Failure "Failed to update status. Try again.")
      /\ table' = table)
  /\ (forall key,
        Js.includes ADMIN_STATUSES newStatus = true ->
        supabase_configured env = true ->
        uuid_in env orderId = Some key ->
        update_fails env = false ->
        exists st,
          status_of_text newStatus = Some st
          /\ result = Returns Success
          /\ map (fun r => Order.id (columns r)) table'
             = map (fun r => Order.id (columns r)) table
          /\ map (fun r => withStatus pending (columns r)) table'
             = map (fun r => withStatus pending (columns r)) table
          /\ map created_at table' = map created_at table
          /\ (forall r, r ∈ table' -> Order.id (columns r) = key ->
                        Order.status (columns r) = st
                        /\ updated_at r = now env)
          /\ (forall r, r ∈ table -> Order.id (columns r) <> key ->
                        r ∈ table')
          /\ (forall r, r ∈ table' -> Order.id (columns r) <> key ->
                        r ∈ table)
          /\ ((forall r, r ∈ table -> Order.id (columns r) <> key) ->
              table' = table)
          /\ (forall later next,
                Js.includes ADMIN_STATUSES next = true ->
                supabase_configured later = true ->
                uuid_in later orderId = Some key ->
                update_fails later = false ->
                (updateOrderStatus later orderId next table').2
                = (updateOrderStatus later orderId next table).2)).
Proof.
  intros result table'. subst result table'. unfold updateOrderStatus.
  split_and!.
  - by intros ->.
  - by intros -> ->.
  - intros -> ->. cbn [negb]. unfold update_status.
    destruct (status_of_text newStatus) as [st|]; [|by intros _].
    intros [-> | Hfails]; [done|].
    destruct (uuid_in env orderId); [|done]. by rewrite Hfails.
  - intros key Hadmin -> Hkey Hfails. rewrite Hadmin. cbn [negb].
    apply status_of_text_admin in Hadmin as [st Hst].
    unfold update_status. rewrite Hst, Hkey, Hfails. cbn [fst snd].
    destruct (update_status_map env key st table) as (Hid & Hrest & Hcreated).
    exists st. split_and!; try done.
    + intros r (r0 & -> & _)%list_elem_of_fmap Hr.
      destruct (String.eqb (Order.id (columns r0)) key) eqn:E; [done|].
      by apply String.eqb_neq in E.
    + intros r Hr Hne. apply list_elem_of_fmap. exists r.
      apply String.eqb_neq in Hne. by rewrite Hne.
    + intros r (r0 & -> & Hr0)%list_elem_of_fmap Hne.
      destruct (String.eqb (Order.id (columns r0)) key) eqn:E; [|done].
      apply String.eqb_eq in E. by destruct Hne.
    + intros Hnone. rewrite <- (map_id table) at 2.
      apply map_ext_Forall, Forall_forall. intros r Hr.
      apply Hnone, String.eqb_neq in Hr. by rewrite Hr.
    + intros later next Hnext -> Hkey' Hfails'. rewrite Hnext. cbn [negb].
      apply status_of_text_admin in Hnext as [st2 Hst2].
      unfold update_status. rewrite Hst2, Hkey', Hfails'. cbn [fst snd].
      rewrite map_map. apply map_ext. intros r.
      destruct (String.eqb (Order.id (columns r)) key) eqn:E; [|by rewrite E].
      cbn [updatedRow columns withStatus Order.id]. by rewrite E.
Qed.

(** X22 on the sample order, confirmed ten minutes after it was placed,
    its id written in capitals. *)
Lemma updateOrderStatus_sets_the_status_only_witness :
  (updateOrderStatus StatusSamples.env
     "8A6E0D1C-3F52-4B7E-9C08-2D4F6A8B0C1E" "confirmed"
     StatusSamples.table).1 = Returns Success
  /\ map (fun r => (Order.status (columns r), updated_at r))
       (updateOrderStatus StatusSamples.env
          "8A6E0D1C-3F52-4B7E-9C08-2D4F6A8B0C1E" "confirmed"
          StatusSamples.table).2
     = [(confirmed, 1768484100000%Z)].
Proof.
  destruct (updateOrderStatus_sets_the_status_only StatusSamples.env
              "8A6E0D1C-3F52-4B7E-9C08-2D4F6A8B0C1E" "confirmed"
              StatusSamples.table) as (_ & _ & _ & Hdone).
  destruct (Hdone "8a6e0d1c-3f52-4b7e-9c08-2d4f6a8b0c1e")
    as (st & _ & Hresult & _); [reflexivity ..|].
  split; [exact Hresult | vm_compute; reflexivity].
Defined.

End StatusAction.

(* ================================================================== *)
(** * The fee of the settings row                                      *)
(* ================================================================== *)

Section FeeAdmin.

Import Supabase PgText UpdateFragileFeeAction.

Lemma digits2_pos_bound (m : positive) :
  (Z.pos m < 2 ^ Z.pos (digits2_pos m))%Z.
Proof.
  induction m as [m IH | m IH |]; cbn [digits2_pos];
    rewrite ?Pos2Z.inj_succ, ?Z.pow_succ_r by lia; lia.
Qed.

(** The mantissa of a binary64 number has at most 53 bits. *)
Lemma valid_mantissa (s : bool) (m : positive) (e : Z) :
  valid_binary Js.prec Js.emax (S754_finite s m e) = true ->
  (Z.pos m < 9007199254740992)%Z.
Proof.
  cbn [valid_binary]. unfold bounded, canonical_mantissa, fexp, emin,
    Js.prec, Js.emax.
  intros [Hc _]%andb_true_iff. apply Z.eqb_eq in Hc.
  assert (Hd : (Z.pos (digits2_pos m) <= 53)%Z) by lia.
  change 9007199254740992%Z with (2 ^ 53)%Z.
  eapply Z.lt_le_trans; [apply digits2_pos_bound|].
  apply Z.pow_le_mono_r; [reflexivity | exact Hd].
Qed.

(** A fee that passes the three tests is written as a number of cents
    from 0 to 999999. *)
Lemma accepted_fee_cents (newFee : Js.number) :
  valid_binary Js.prec Js.emax newFee = true ->
  Number_isFinite newFee = true ->
  SFltb newFee Js.zero = false ->
  SFltb MAX_FEE newFee = false ->
  exists n, Js.toFixed2 newFee = Js.FixedDecimal false n
            /\ (0 <= n <= 999999)%Z.
Proof.
  assert (HM : MAX_FEE = S754_finite false 5497552641321861 (-39))
    by (vm_compute; reflexivity).
  rewrite HM. clear HM.
  destruct newFee as [sz | si | | s m e]; try done.
  - intros _ _ _ _. exists 0%Z. split; [reflexivity | lia].
  - intros Hvalid _ Hneg Hmax. apply valid_mantissa in Hvalid.
    destruct s; [discriminate Hneg|]. clear Hneg.
    assert (He : (e <= -39)%Z /\ (e = -39 -> Z.pos m <= 5497552641321861)%Z).
    { unfold SFltb, SFcompare in Hmax.
      destruct (Z.compare_spec (-39) e) as [<- | Hlt | Hgt];
        [|discriminate Hmax|lia].
      split; [lia|]. intros _.
      change (Pos.compare_cont Eq 5497552641321861 m)
        with (Pos.compare 5497552641321861 m) in Hmax.
      destruct (Pos.compare_spec 5497552641321861 m) as [Heq | Hlt | Hgt].
      - rewrite <- Heq. apply Z.le_refl.
      - discriminate Hmax.
      - apply Z.lt_le_incl. exact Hgt. }
    clear Hmax.
    destruct He as [He Hm].
    unfold Js.toFixed2.
    destruct (Z.leb_spec 0 e) as [?|_]; [lia|].
    set (k := (- e)%Z).
    assert (Hk : (39 <= k)%Z) by lia.
    assert (Hp : exists p, (2 ^ k = 549755813888 * p /\ 1 <= p
                            /\ (k = 39 -> p = 1) /\ (39 < k -> 2 <= p))%Z).
    { exists (2 ^ (k - 39))%Z. split_and!.
      - change 549755813888%Z with (2 ^ 39)%Z.
        rewrite <- Z.pow_add_r by lia. f_equal. lia.
      - apply (Z.pow_le_mono_r 2 0); lia.
      - intros ->. reflexivity.
      - intros Hgt. apply (Z.pow_le_mono_r 2 1); lia. }
    destruct Hp as (p & Hpow & Hp1 & Hp39 & Hp40).
    assert (Hpow' : (2 ^ (k + 1) = 1099511627776 * p)%Z).
    { rewrite Z.pow_add_r by lia. rewrite Hpow.
      change (2 ^ 1)%Z with 2%Z. lia. }
    rewrite Hpow, Hpow'.
    change (10 ^ 21)%Z with 1000000000000000000000%Z.
    destruct (Z.leb_spec (1000000000000000000000 * (549755813888 * p))
                (Z.pos m)) as [Hbig|_]; [nia|].
    eexists. split; [reflexivity|]. split.
    + apply Z.div_pos; lia.
    + apply Z.lt_succ_r. change (Z.succ 999999) with 1000000%Z.
      apply Z.div_lt_upper_bound; [lia|].
      destruct (Z.eq_dec k 39%Z) as [Heq | Hne].
      * rewrite (Hp39 Heq). specialize (Hm ltac:(lia)). lia.
      * specialize (Hp40 ltac:(lia)). lia.
Qed.

Lemma digitsValue_app (acc : Z) (a b : string) :
  Js.digitsValue acc (a ++ b)%string
  = Js.digitsValue (Js.digitsValue acc a) b.
Proof. revert acc. induction a as [|c a IH]; intros acc; [done|]. apply IH. Qed.

Lemma string_of_uint_acc (d : Decimal.uint) (acc : positive) :
  Js.digitsValue (Z.pos acc) (NilEmpty.string_of_uint d)
  = Z.pos (Pos.of_uint_acc d acc).
Proof.
  revert acc. induction d as [|d IH|d IH|d IH|d IH|d IH|d IH|d IH|d IH|d IH
                             |d IH]; intros acc; [reflexivity|..];
    cbn [NilEmpty.string_of_uint Js.digitsValue Pos.of_uint_acc];
    rewrite <- IH; f_equal;
    try (match goal with
         | |- context [Z.of_N (Js.code ?c)] =>
             let v := eval vm_compute in (Z.of_N (Js.code c)) in
             change (Z.of_N (Js.code c)) with v
         end; lia).
Qed.

Lemma string_of_uint_value (d : Decimal.uint) :
  Js.digitsValue 0 (NilZero.string_of_uint d) = Z.of_N (N.of_uint d).
Proof.
  assert (H : Js.digitsValue 0 (NilEmpty.string_of_uint d)
              = Z.of_N (Pos.of_uint d)).
  { induction d as [|d IH|d IH|d IH|d IH|d IH|d IH|d IH|d IH|d IH|d IH];
      [reflexivity | exact IH | ..];
      cbn [NilEmpty.string_of_uint Js.digitsValue Pos.of_uint];
      apply string_of_uint_acc. }
  destruct d; exact H.
Qed.

Lemma spanDigits_uint (d : Decimal.uint) (rest : string) :
  Js.spanDigits rest = ("", rest) ->
  Js.spanDigits (NilZero.string_of_uint d ++ rest)%string
  = (NilZero.string_of_uint d, rest).
Proof.
  intros Hrest.
  assert (H : Js.spanDigits (NilEmpty.string_of_uint d ++ rest)%string
              = (NilEmpty.string_of_uint d, rest)).
  { induction d as [|d IH|d IH|d IH|d IH|d IH|d IH|d IH|d IH|d IH|d IH];
      [exact Hrest|..];
      cbn [NilEmpty.string_of_uint];
      match goal with
      | |- Js.spanDigits (String ?c ?a ++ ?b)%string = _ =>
          change (Js.spanDigits (String c (a ++ b)%string)
                  = (String c a, b))
      end;
      cbn [Js.spanDigits]; rewrite IH; reflexivity. }
  destruct d; try exact H.
  change (Js.spanDigits (String "0" rest) = ("0", rest)).
  cbn [Js.spanDigits]. by rewrite Hrest.
Qed.

Lemma string_of_uint_head (d : Decimal.uint) :
  exists c r, NilZero.string_of_uint d = String c r /\ Js.isDigit c = true.
Proof. destruct d; eexists _, _; split; reflexivity. Qed.

Lemma digitChar_digit (d : Z) :
  (0 <= d <= 9)%Z ->
  Js.isDigit (digitChar d) = true
  /\ (Z.of_N (Js.code (digitChar d)) - 48)%Z = d.
Proof.
  intros Hd.
  assert (Hcases : (d = 0 \/ d = 1 \/ d = 2 \/ d = 3 \/ d = 4 \/ d = 5
                    \/ d = 6 \/ d = 7 \/ d = 8 \/ d = 9)%Z) by lia.
  repeat (destruct Hcases as [-> | Hcases]; [split; reflexivity|]).
  subst d. split; reflexivity.
Qed.

(** [parseFloat] on a text that starts with a digit. *)
Lemma parseFloat_digit (c : ascii) (r : string) :
  Js.isDigit c = true ->
  Js.parseFloat (String c r)
  = let '(ip, r1) := Js.spanDigits (String c r) in
    let '(fp, r2) :=
      match r1 with
      | String "." r => Js.spanDigits r
      | _ => (EmptyString, r1)
      end in
    if Js.isEmpty ip && Js.isEmpty fp then Js.NaN
    else
      Js.number_of_decimal false (Js.digitsValue 0 (ip ++ fp)%string)
        (Js.exponentPart r2 - Z.of_nat (String.length fp)).
Proof.
  destruct c as [[] [] [] [] [] [] [] []]; try discriminate;
    intros _; reflexivity.
Qed.

(** The text of an amount that is not negative reads back as the number
    nearest to it. *)
Lemma parseFloat_numeric_text (c : Z) :
  (0 <= c)%Z ->
  Js.parseFloat (numeric_text (PgCents c)) = Js.number_of_decimal false c (-2).
Proof.
  intros Hc. unfold numeric_text.
  destruct (Z.ltb_spec c 0) as [?|_]; [lia|].
  rewrite Z.abs_eq by done.
  set (d := N.to_uint (Z.to_N (c / 100))).
  set (x := (c / 10 mod 10)%Z). set (y := (c mod 10)%Z).
  destruct (digitChar_digit x) as [Hx1 Hx2];
    [subst x; pose proof (Z.mod_pos_bound (c / 10) 10); lia | ].
  destruct (digitChar_digit y) as [Hy1 Hy2];
    [subst y; pose proof (Z.mod_pos_bound c 10); lia | ].
  change ("" ++ ?t)%string with t.
  destruct (string_of_uint_head d) as (ch & r & Hhead & Hdigit).
  assert (Hparse := parseFloat_digit ch
                      (r ++ "." ++ String (digitChar x)
                                     (String (digitChar y) ""))%string
                      Hdigit).
  change (String ch (r ++ ?t)%string) with (String ch r ++ t)%string
    in Hparse.
  rewrite <- Hhead in Hparse. rewrite Hparse. clear Hparse.
  rewrite spanDigits_uint by reflexivity.
  change ("." ++ ?t)%string with (String "." t).
  cbn [Js.spanDigits]. rewrite Hx1, Hy1.
  rewrite Hhead at 1. cbn [Js.isEmpty andb].
  rewrite digitsValue_app, string_of_uint_value.
  subst d. rewrite DecimalN.Unsigned.of_to, Z2N.id by (apply Z.div_pos; lia).
  cbn [Js.digitsValue]. rewrite Hx2, Hy2.
  cbn [Js.exponentPart String.length]. f_equal.
  subst x y. Z.div_mod_to_equations. lia.
Qed.

Lemma update_fragile_fee_frame (fails : bool) (text : Js.FixedText)
    (db : Database) :
  let error := (update_fragile_fee fails text db).1 in
  let db' := (update_fragile_fee fails text db).2 in
  orders db' = orders db
  /\ order_items db' = order_items db
  /\ order_receipts db' = order_receipts db
  /\ option_map current_delivery_fee (settings db')
     = option_map current_delivery_fee (settings db)
  /\ (error = true -> db' = db)
  /\ (fails = true -> error = true).
Proof.
  unfold update_fragile_fee.
  destruct (numeric_of_text text) as [v|]; [|by split_and!].
  destruct fails; [by split_and!|].
  destruct (settings db) as [row|] eqn:Hrow; cbn [fst snd];
    [|rewrite Hrow; by split_and!].
  destruct (numeric_nonneg v); cbn [fst snd orders order_items
    order_receipts settings option_map current_delivery_fee];
    rewrite ?Hrow; by split_and!.
Qed.

Lemma update_fragile_fee_stores (n : Z) (db : Database) :
  (0 <= n <= 999999)%Z ->
  update_fragile_fee false (Js.FixedDecimal false n) db
  = (false,
     match settings db with
     | None => db
     | Some row =>
         {| orders := orders db;
            order_items := order_items db;
            order_receipts := order_receipts db;
            settings :=
              Some {| current_delivery_fee := current_delivery_fee row;
                      current_fragile_fee := numeric_text (PgCents n) |} |}
     end).
Proof.
  intros Hn. unfold update_fragile_fee, numeric_of_text.
  destruct (Z.ltb_spec n (10 ^ 10)) as [_|Hbig];
    [|change (10 ^ 10)%Z with 10000000000%Z in Hbig; lia].
  destruct (settings db) as [row|]; [|reflexivity].
  unfold cond_Zopp, numeric_nonneg.
  destruct (Z.leb_spec 0 n) as [_|?]; [reflexivity | lia].
Qed.



End FeeAdmin.

(* ================================================================== *)
(** * The time window of a product                                     *)
(* ================================================================== *)

Section Window.

Import Types Availability AvailabilityProps.

Lemma twoDigits_spec (n : Z) : (0 <= n <= 99)%Z -> n ∈ twoDigits.
Proof.
  intros Hn. unfold twoDigits. apply list_elem_of_fmap.
  exists (Z.to_nat n). split; [lia|].
  apply list_elem_of_In, in_seq. lia.
Qed.

(** On numbers of two digits, the order of the padded texts is the order
    of the numbers, and the padded texts have two characters. *)
Lemma pad_order (a b : Z) :
  (0 <= a <= 99)%Z -> (0 <= b <= 99)%Z ->
  compareStrings (pad a) (pad b) = (a ?= b)%Z
  /\ String.length (pad a) = 2%nat.
Proof.
  intros Ha%twoDigits_spec Hb%twoDigits_spec.
  assert (Hall : Forall (fun a =>
                   Forall (fun b =>
                     compareStrings (pad a) (pad b) = (a ?= b)%Z
                     /\ String.length (pad a) = 2%nat) twoDigits)
                   twoDigits).
  { apply (bool_decide_unpack _). vm_compute. exact I. }
  rewrite Forall_forall in Hall. specialize (Hall a Ha).
  rewrite Forall_forall in Hall. exact (Hall b Hb).
Qed.

Lemma compareStrings_app (p q r1 r2 : string) :
  String.length p = String.length q ->
  compareStrings (p ++ r1) (q ++ r2)
  = match compareStrings p q with
    | Eq => compareStrings r1 r2
    | c => c
    end.
Proof.
  revert q. induction p as [|x p IH]; intros [|y q] Hlen; try done.
  change (compareStrings (String x (p ++ r1)) (String y (q ++ r2))
          = match compareStrings (String x p) (String y q) with
            | Eq => compareStrings r1 r2
            | c => c
            end).
  cbn [compareStrings].
  destruct (Js.code x ?= Js.code y)%N; [|done|done].
  apply IH. by injection Hlen.
Qed.

(** On times of day, the order of the texts is the order of the seconds
    of the day. *)
Lemma timeText_order (h1 m1 s1 h2 m2 s2 : Z) :
  timeOfDay h1 m1 s1 -> timeOfDay h2 m2 s2 ->
  leString (timeText h1 m1 s1) (timeText h2 m2 s2)
  = (secondOfDay h1 m1 s1 <=? secondOfDay h2 m2 s2)%Z.
Proof.
  intros (Hh1 & Hm1 & Hs1) (Hh2 & Hm2 & Hs2).
  destruct (pad_order h1 h2) as [Hh Hlh]; [lia | lia |].
  destruct (pad_order h2 h1) as [_ Hlh']; [lia | lia |].
  destruct (pad_order m1 m2) as [Hm Hlm]; [lia | lia |].
  destruct (pad_order m2 m1) as [_ Hlm']; [lia | lia |].
  destruct (pad_order s1 s2) as [Hs _]; [lia | lia |].
  unfold leString, timeText, secondOfDay.
  rewrite compareStrings_app by congruence. rewrite Hh.
  change (":" ++ ?t)%string with (String ":" t).
  cbn [compareStrings]. change (Js.code ":" ?= Js.code ":")%N with Eq.
  rewrite compareStrings_app by congruence. rewrite Hm.
  change (":" ++ ?t)%string with (String ":" t).
  cbn [compareStrings]. change (Js.code ":" ?= Js.code ":")%N with Eq.
  rewrite Hs.
  destruct (Z.compare_spec h1 h2) as [-> | Hlt | Hgt];
    [|symmetry; apply Z.leb_le; lia | symmetry; apply Z.leb_gt; lia].
  destruct (Z.compare_spec m1 m2) as [-> | Hlt | Hgt];
    [|symmetry; apply Z.leb_le; lia | symmetry; apply Z.leb_gt; lia].
  destruct (Z.compare_spec s1 s2) as [-> | Hlt | Hgt];
    [symmetry; apply Z.leb_le; lia | symmetry; apply Z.leb_le; lia
    |symmetry; apply Z.leb_gt; lia].
Qed.

Lemma currentTime_timeText (h : Js.Host) (t : Z) :
  currentTime h (Some t)
  = timeText (Js.getHours h t) (Js.getMinutes h t) (getSeconds h t)
  /\ timeOfDay (Js.getHours h t) (Js.getMinutes h t) (getSeconds h t).
Proof.
  split; [reflexivity|].
  unfold timeOfDay, Js.getHours, Js.getMinutes, getSeconds.
  pose proof (Z.mod_pos_bound (Js.LocalTime h t / 3600000) 24).
  pose proof (Z.mod_pos_bound (Js.LocalTime h t / 60000) 60).
  pose proof (Z.mod_pos_bound (Js.LocalTime h t / 1000) 60).
  lia.
Qed.

Lemma timeText_not_empty (hh mm ss : Z) :
  (0 <= hh <= 99)%Z -> Js.isEmpty (timeText hh mm ss) = false.
Proof.
  intros Hh. destruct (pad_order hh hh) as [_ Hlen]; [lia | lia |].
  unfold timeText. by destruct (pad hh).
Qed.

(** X24. [isProductAvailableNow] is false for a product that is switched
    off and true for a product that is on and has no window. For a
    product that is on, with a window given as times of day, it is true
    exactly when the second of the day of the current local time lies
    between the two, both included: the comparison of the texts agrees
    with the comparison of the times, so a window that runs past midnight
    is never open. With an opening time only, the product is available
    from that time to the end of the day. *)
Theorem isProductAvailableNow_window (h : Js.Host) (product : Product)
    (t : Z) :
  (is_available product = false ->
   forall now, isProductAvailableNow h product now = false)
  /\ (is_available product = true ->
      available_from product = None -> available_until product = None ->
      forall now, isProductAvailableNow h product now = true)
  /\ (forall h1 m1 s1 h2 m2 s2,
        is_available product = true ->
        available_from product = Some (timeText h1 m1 s1) ->
        available_until product = Some (timeText h2 m2 s2) ->
        timeOfDay h1 m1 s1 -> timeOfDay h2 m2 s2 ->
        (isProductAvailableNow h product (Some t) = true
         <-> (secondOfDay h1 m1 s1 <= secondNow h t
              <= secondOfDay h2 m2 s2)%Z)
        /\ ((secondOfDay h2 m2 s2 < secondOfDay h1 m1 s1)%Z ->
            isProductAvailableNow h product (Some t) = false))
  /\ (forall h1 m1 s1,
        is_available product = true ->
        available_from product = Some (timeText h1 m1 s1) ->
        available_until product = None ->
        timeOfDay h1 m1 s1 ->
        (isProductAvailableNow h product (Some t) = true
         <-> (secondOfDay h1 m1 s1 <= secondNow h t)%Z)).
Proof.
  destruct (currentTime_timeText h t) as [Hnow Hday].
  split_and!.
  - intros Hoff now. unfold isProductAvailableNow. by rewrite Hoff.
  - intros Hon Hfrom Huntil now. unfold isProductAvailableNow.
    by rewrite Hon, Hfrom, Huntil.
  - intros h1 m1 s1 h2 m2 s2 Hon Hfrom Huntil H1 H2.
    assert (Hvalue : isProductAvailableNow h product (Some t)
                     = (secondOfDay h1 m1 s1 <=? secondNow h t)%Z
                       && (secondNow h t <=? secondOfDay h2 m2 s2)%Z).
    { unfold isProductAvailableNow.
      rewrite Hon, Hfrom, Huntil. cbn [negb falsy default]. cbv [Datatypes.id].
      rewrite timeText_not_empty by (destruct H1; lia). cbn [andb].
      rewrite Hnow. by rewrite !timeText_order. }
    rewrite Hvalue. split.
    + rewrite andb_true_iff, !Z.leb_le. reflexivity.
    + intros Hwrap. apply andb_false_iff.
      rewrite !Z.leb_gt. lia.
  - intros h1 m1 s1 Hon Hfrom Huntil H1.
    unfold isProductAvailableNow.
    rewrite Hon, Hfrom, Huntil. cbn [negb falsy default]. cbv [Datatypes.id].
    rewrite timeText_not_empty by (destruct H1; lia). cbn [andb].
    rewrite Hnow.
    change "23:59:59" with (timeText 23 59 59).
    rewrite !timeText_order by (done || (unfold timeOfDay; lia)).
    rewrite andb_true_iff, !Z.leb_le. unfold secondNow.
    destruct Hday as (? & ? & ?). unfold secondOfDay. lia.
Qed.

(** X24 on the sample cake, open from 10:00 to 23:00, at 13:25. *)
Lemma isProductAvailableNow_window_witness :
  isProductAvailableNow Samples.utcHost Samples.cake (Some 1768483500000%Z)
  = true.
Proof.
  destruct (isProductAvailableNow_window Samples.utcHost Samples.cake
              1768483500000) as (_ & _ & Hwindow & _).
  destruct (Hwindow 10 0 0 23 0 0)%Z as [Hopen _].
  - reflexivity.
  - reflexivity.
  - reflexivity.
  - unfold timeOfDay. lia.
  - unfold timeOfDay. lia.
  - apply Hopen. vm_compute. split; discriminate.
Defined.

End Window.
